(** * Stingray sensors HAL (sensors/sensors.c): activation state machine,
      event aggregation, delivery queue and replication thread.

    The C code is embedded shallowly: 32-bit masks are [Z] with the
    bit operations of the source, arrays are lists updated by index,
    [float] is IEEE binary32 through the Standard Library's [SpecFloat],
    system calls are answered by an oracle and logged in a trace. *)

From Stdlib Require Import ZArith Lia Bool List Ascii String Sorted.
From Stdlib Require Import SpecFloat.
From stdpp Require Import base list.

Local Open Scope Z_scope.

(** ** Machine integers *)

Module Int.

(** [uint32_t] value of an integer. *)
Definition u32 (x : Z) : Z := x mod 2 ^ 32.

(** Signed two's complement value on [w] bits. *)
Definition signed (w : Z) (x : Z) : Z :=
  let m := x mod 2 ^ w in
  if m <? 2 ^ (w - 1) then m else m - 2 ^ w.

Definition int8 : Z -> Z := signed 8.
Definition int32 : Z -> Z := signed 32.
Definition int64 : Z -> Z := signed 64.

(** [(uint8_t)x]. *)
Definition u8 (x : Z) : Z := x mod 2 ^ 8.

(** [~x] on a [uint32_t]. *)
Definition not32 (x : Z) : Z := Z.land (Z.lnot x) 0xFFFFFFFF.

(** [__builtin_clz(x)] for a non-zero [uint32_t]. *)
Definition clz (x : Z) : Z := 31 - Z.log2 x.

(** Iterations that exhaust every bit of a [uint32_t] mask. *)
Definition WIDTH : nat := 32%nat.

End Int.

(** ** IEEE binary32, the C type [float] *)

Module F32.

Definition prec : Z := 24.
Definition emax : Z := 128.

Definition float : Type := spec_float.

Definition mul : float -> float -> float := SFmul prec emax.
Definition div : float -> float -> float := SFdiv prec emax.
Definition opp : float -> float := SFopp.
Definition leb : float -> float -> bool := SFleb.

(** Conversion [int -> float], rounding to nearest even. *)
Definition of_int (v : Z) : float := binary_normalize prec emax v 0 false.

Definition zero : float := S754_zero false.

(** Conversion [float -> int32_t]: truncation toward zero; a value out
    of range saturates, as the VFP conversion of the target does. *)
Definition to_int (f : float) : Z :=
  match f with
  | S754_zero _ => 0
  | S754_nan => 0
  | S754_infinity s => if s then - 2 ^ 31 else 2 ^ 31 - 1
  | S754_finite s m e =>
      let a := if 0 <=? e then Z.pos m * 2 ^ e else Z.pos m / 2 ^ (- e) in
      let v := if s then - a else a in
      Z.max (- 2 ^ 31) (Z.min (2 ^ 31 - 1) v)
  end.

End F32.

Definition f32 : Type := F32.float.

(** ** Constants of <linux/input.h> *)

Definition EV_SYN : Z := 0x00.
Definition EV_ABS : Z := 0x03.
Definition EV_LED : Z := 0x11.

Definition SYN_REPORT : Z := 0.
Definition SYN_CONFIG : Z := 1.

Definition ABS_X : Z := 0x00.
Definition ABS_Y : Z := 0x01.
Definition ABS_Z : Z := 0x02.
Definition ABS_RX : Z := 0x03.
Definition ABS_RY : Z := 0x04.
Definition ABS_RZ : Z := 0x05.
Definition ABS_THROTTLE : Z := 0x06.
Definition ABS_RUDDER : Z := 0x07.
Definition ABS_WHEEL : Z := 0x08.
Definition ABS_BRAKE : Z := 0x0a.
Definition ABS_HAT0X : Z := 0x10.
Definition ABS_HAT0Y : Z := 0x11.
Definition ABS_DISTANCE : Z := 0x19.
Definition LED_MISC : Z := 0x08.

(** [struct input_event]: [time.tv_sec], [time.tv_usec] (both [long],
    32 bits on the target), [type], [code], [value]. *)
Record input_event := {
  tv_sec : Z;
  tv_usec : Z;
  ev_type : Z;
  ev_code : Z;
  ev_value : Z
}.

(** ** Constants of <hardware/sensors.h> *)

(** Modelled from the spec: <hardware/sensors.h> is not part of the
    sources.  A sensor handle is the bit position of its identity
    ([1<<handle] is compared with [SENSORS_*] = [1<<ID_*]), so the base of
    the handles is 0. *)
Definition SENSORS_HANDLE_BASE : Z := 0.

(** Accuracy constant of <hardware/sensors.h> (not part of the sources):
    the highest of the accuracy levels 0..3 of the Android sensors HAL. *)
Definition SENSOR_STATUS_ACCURACY_HIGH : Z := 3.

(** A decimal literal [num/den] with both parts exact in binary32. *)
Definition f32_lit (num den : Z) : f32 := F32.div (F32.of_int num) (F32.of_int den).

(** Modelled from the spec: [GRAVITY_EARTH] of <hardware/sensors.h>,
    standard gravity [9.80665f]. *)
Definition GRAVITY_EARTH : f32 := f32_lit 980665 100000.

(** ** sensors.c: identities and masks *)

Definition MAX_NUM_SENSORS : Z := 6.
Definition SUPPORTED_SENSORS : Z := Z.shiftl 1 MAX_NUM_SENSORS - 1.

Definition ID_A : Z := 0.
Definition ID_M : Z := 1.
Definition ID_O : Z := 2.
Definition ID_T : Z := 3.
Definition ID_P : Z := 4.
Definition ID_L : Z := 5.

Definition SENSORS_ACCELERATION : Z := Z.shiftl 1 ID_A.
Definition SENSORS_MAGNETIC_FIELD : Z := Z.shiftl 1 ID_M.
Definition SENSORS_ORIENTATION : Z := Z.shiftl 1 ID_O.
Definition SENSORS_TEMPERATURE : Z := Z.shiftl 1 ID_T.
Definition SENSORS_PROXIMITY : Z := Z.shiftl 1 ID_P.
Definition SENSORS_LIGHT : Z := Z.shiftl 1 ID_L.

Definition MAX_NUM_DRIVERS : Z := 4.

Definition ID_LIS : Z := 0.
Definition ID_AKM : Z := 1.
Definition ID_SFH : Z := 2.

Record driver_t := {
  name : string;
  loc : string;
  mask : Z
}.

Definition dDriverList : list driver_t := [
  {| name := "accelerometer"; loc := "/dev/kxtf9"; mask := SENSORS_ACCELERATION |};
  {| name := "compass"; loc := "/dev/akm8973_aot";
     mask := Z.lor (Z.lor SENSORS_MAGNETIC_FIELD SENSORS_ORIENTATION) SENSORS_TEMPERATURE |};
  {| name := "max9635"; loc := ""; mask := SENSORS_LIGHT |}
].

Definition PROXIMITY_THRESHOLD_CM : f32 := f32_lit 6 1.

Definition EVENT_TYPE_ACCEL_X : Z := ABS_X.
Definition EVENT_TYPE_ACCEL_Y : Z := ABS_Y.
Definition EVENT_TYPE_ACCEL_Z : Z := ABS_Z.
Definition EVENT_TYPE_ACCEL_STATUS : Z := ABS_WHEEL.
Definition EVENT_TYPE_YAW : Z := ABS_RX.
Definition EVENT_TYPE_PITCH : Z := ABS_RY.
Definition EVENT_TYPE_ROLL : Z := ABS_RZ.
Definition EVENT_TYPE_ORIENT_STATUS : Z := ABS_RUDDER.
Definition EVENT_TYPE_MAGV_X : Z := ABS_HAT0X.
Definition EVENT_TYPE_MAGV_Y : Z := ABS_HAT0Y.
Definition EVENT_TYPE_MAGV_Z : Z := ABS_BRAKE.
Definition EVENT_TYPE_TEMPERATURE : Z := ABS_THROTTLE.
Definition EVENT_TYPE_PROXIMITY : Z := ABS_DISTANCE.
Definition EVENT_TYPE_LIGHT : Z := LED_MISC.

Definition LSG : f32 := f32_lit 1000 1.

Definition CONVERT_A : f32 := F32.div GRAVITY_EARTH LSG.
Definition CONVERT_A_X : f32 := CONVERT_A.
Definition CONVERT_A_Y : f32 := CONVERT_A.
Definition CONVERT_A_Z : f32 := CONVERT_A.

Definition CONVERT_M : f32 := F32.div (f32_lit 1 1) (f32_lit 16 1).
Definition CONVERT_M_X : f32 := CONVERT_M.
Definition CONVERT_M_Y : f32 := F32.opp CONVERT_M.
Definition CONVERT_M_Z : f32 := F32.opp CONVERT_M.

Definition CONVERT_O : f32 := F32.div (f32_lit 1 1) (f32_lit 64 1).
Definition CONVERT_O_Y : f32 := CONVERT_O.
Definition CONVERT_O_P : f32 := CONVERT_O.
Definition CONVERT_O_R : f32 := F32.opp CONVERT_O.

Definition CONVERT_P : f32 := F32.div (f32_lit 1 1) (f32_lit 5 1).

Definition SENSOR_STATE_MASK : Z := 0x7FFF.

(** [event.value * c]: the [int] is converted to [float] first. *)
Definition scale (value : Z) (c : f32) : f32 := F32.mul (F32.of_int value) c.

(** ** [sensors_data_t]

    The anonymous union of <hardware/sensors.h> overlays [vector],
    [orientation], [acceleration] and [magnetic] (three floats and an
    [int8_t status]) and the scalars [temperature], [distance] and [light],
    which share the storage of the first float. *)
Record sensors_data_t := {
  sensor : Z;
  vec_x : f32;
  vec_y : f32;
  vec_z : f32;
  vec_status : Z;
  time : Z
}.

Definition set_sensor (v : Z) (s : sensors_data_t) : sensors_data_t :=
  {| sensor := v; vec_x := vec_x s; vec_y := vec_y s; vec_z := vec_z s;
     vec_status := vec_status s; time := time s |}.
Definition set_x (v : f32) (s : sensors_data_t) : sensors_data_t :=
  {| sensor := sensor s; vec_x := v; vec_y := vec_y s; vec_z := vec_z s;
     vec_status := vec_status s; time := time s |}.
Definition set_y (v : f32) (s : sensors_data_t) : sensors_data_t :=
  {| sensor := sensor s; vec_x := vec_x s; vec_y := v; vec_z := vec_z s;
     vec_status := vec_status s; time := time s |}.
Definition set_z (v : f32) (s : sensors_data_t) : sensors_data_t :=
  {| sensor := sensor s; vec_x := vec_x s; vec_y := vec_y s; vec_z := v;
     vec_status := vec_status s; time := time s |}.
Definition set_status (v : Z) (s : sensors_data_t) : sensors_data_t :=
  {| sensor := sensor s; vec_x := vec_x s; vec_y := vec_y s; vec_z := vec_z s;
     vec_status := v; time := time s |}.
Definition set_time (v : Z) (s : sensors_data_t) : sensors_data_t :=
  {| sensor := sensor s; vec_x := vec_x s; vec_y := vec_y s; vec_z := vec_z s;
     vec_status := vec_status s; time := v |}.

(** The members of the union that alias the first float. *)
Definition temperature : sensors_data_t -> f32 := vec_x.
Definition distance : sensors_data_t -> f32 := vec_x.
Definition light : sensors_data_t -> f32 := vec_x.
Definition set_temperature : f32 -> sensors_data_t -> sensors_data_t := set_x.
Definition set_distance : f32 -> sensors_data_t -> sensors_data_t := set_x.
Definition set_light : f32 -> sensors_data_t -> sensors_data_t := set_x.

(** What [memset(.., 0, ..)] leaves in one element. *)
Definition zeroed : sensors_data_t :=
  {| sensor := 0; vec_x := F32.zero; vec_y := F32.zero; vec_z := F32.zero;
     vec_status := 0; time := 0 |}.

#[export] Instance sensors_data_inhabited : Inhabited sensors_data_t := populate zeroed.

(** [a[i]] and [a[i].field = v] on an array of samples; the indices of
    the source are the [ID_*] constants or a bit position of a mask of
    supported sensors, always inside the array. *)
Definition elt (a : list sensors_data_t) (i : Z) : sensors_data_t := a !!! Z.to_nat i.
Definition store (i : Z) (f : sensors_data_t -> sensors_data_t)
    (a : list sensors_data_t) : list sensors_data_t :=
  alter f (Z.to_nat i) a.

(** ** The data device *)

Record sensors_data_context_t := {
  events_fd : Z;
  sensors : list sensors_data_t;
  pendingSensors : Z
}.

Definition with_sensors (a : list sensors_data_t) (dev : sensors_data_context_t) :=
  {| events_fd := events_fd dev; sensors := a; pendingSensors := pendingSensors dev |}.
Definition with_pending (p : Z) (dev : sensors_data_context_t) :=
  {| events_fd := events_fd dev; sensors := sensors dev; pendingSensors := p |}.
Definition with_events_fd (fd : Z) (dev : sensors_data_context_t) :=
  {| events_fd := fd; sensors := sensors dev; pendingSensors := pendingSensors dev |}.

(** [data__data_open]; [dupfd] is what [dup(handle->data[0])] returned.
    The function returns 0. *)
Definition data__data_open (dev : sensors_data_context_t) (dupfd : Z)
    : sensors_data_context_t :=
  let cleared := replicate (Z.to_nat MAX_NUM_SENSORS) zeroed in
  let sens :=
    fold_left (fun a i => store (Z.of_nat i) (set_status SENSOR_STATUS_ACCURACY_HIGH) a)
      (seq 0 (Z.to_nat MAX_NUM_SENSORS)) cleared in
  {| events_fd := dupfd; sensors := sens; pendingSensors := 0 |}.

(** [data__data_close]. *)
Definition data__data_close (dev : sensors_data_context_t) : sensors_data_context_t :=
  if 0 <=? events_fd dev then with_events_fd (-1) dev else dev.

(** The [while (mask)] loop of [pick_sensor]; [None] is an exhausted
    iteration budget. The result is the return value, the device and the
    caller's [*values]. *)
Fixpoint pick_loop (fuel : nat) (mask : Z) (dev : sensors_data_context_t)
    (values : sensors_data_t) : option (Z * sensors_data_context_t * sensors_data_t) :=
  if mask =? 0 then Some (-1, dev, values)
  else
    match fuel with
    | O => None
    | S fuel' =>
        let i := 31 - Int.clz mask in
        let mask := Z.land mask (Z.lnot (Z.shiftl 1 i)) in
        if negb (Z.land (pendingSensors dev) (Z.shiftl 1 i) =? 0) then
          let dev := with_pending (Z.land (pendingSensors dev) (Z.lnot (Z.shiftl 1 i))) dev in
          let values := elt (sensors dev) i in
          let values := set_sensor (Z.shiftl 1 i) values in
          Some (i, dev, values)
        else pick_loop fuel' mask dev values
    end.

Definition pick_sensor (dev : sensors_data_context_t) (values : sensors_data_t)
    : option (Z * sensors_data_context_t * sensors_data_t) :=
  pick_loop Int.WIDTH SUPPORTED_SENSORS dev values.

(** The [switch (event.code)] of [data__poll] for an [EV_ABS] event. *)
Definition poll_abs (a : list sensors_data_t) (new_sensors : Z) (event : input_event)
    : list sensors_data_t * Z :=
  let code := ev_code event in
  let value := ev_value event in
  if code =? EVENT_TYPE_ACCEL_X then
    (store ID_A (set_x (scale value CONVERT_A_X)) a, Z.lor new_sensors SENSORS_ACCELERATION)
  else if code =? EVENT_TYPE_ACCEL_Y then
    (store ID_A (set_y (scale value CONVERT_A_Y)) a, Z.lor new_sensors SENSORS_ACCELERATION)
  else if code =? EVENT_TYPE_ACCEL_Z then
    (store ID_A (set_z (scale value CONVERT_A_Z)) a, Z.lor new_sensors SENSORS_ACCELERATION)
  else if code =? EVENT_TYPE_MAGV_X then
    (store ID_M (set_x (scale value CONVERT_M_X)) a, Z.lor new_sensors SENSORS_MAGNETIC_FIELD)
  else if code =? EVENT_TYPE_MAGV_Y then
    (store ID_M (set_y (scale value CONVERT_M_Y)) a, Z.lor new_sensors SENSORS_MAGNETIC_FIELD)
  else if code =? EVENT_TYPE_MAGV_Z then
    (store ID_M (set_z (scale value CONVERT_M_Z)) a, Z.lor new_sensors SENSORS_MAGNETIC_FIELD)
  else if code =? EVENT_TYPE_YAW then
    (store ID_O (set_x (scale value CONVERT_O_Y)) a, Z.lor new_sensors SENSORS_ORIENTATION)
  else if code =? EVENT_TYPE_PITCH then
    (store ID_O (set_y (scale value CONVERT_O_P)) a, Z.lor new_sensors SENSORS_ORIENTATION)
  else if code =? EVENT_TYPE_ROLL then
    (store ID_O (set_z (scale value CONVERT_O_R)) a, Z.lor new_sensors SENSORS_ORIENTATION)
  else if code =? EVENT_TYPE_TEMPERATURE then
    (store ID_T (set_temperature (F32.of_int value)) a, Z.lor new_sensors SENSORS_TEMPERATURE)
  else if code =? EVENT_TYPE_ACCEL_STATUS then
    (a, new_sensors)
  else if code =? EVENT_TYPE_ORIENT_STATUS then
    let v := Int.u32 (Z.land value SENSOR_STATE_MASK) in
    (store ID_O (set_status (Int.int8 (Int.u8 v))) a, new_sensors)
  else if code =? EVENT_TYPE_PROXIMITY then
    if F32.leb (scale value CONVERT_P) PROXIMITY_THRESHOLD_CM then
      (store ID_P (set_distance (F32.of_int 0)) a, Z.lor new_sensors SENSORS_PROXIMITY)
    else
      (store ID_P (set_distance PROXIMITY_THRESHOLD_CM) a, Z.lor new_sensors SENSORS_PROXIMITY)
  else (a, new_sensors).

(** The body of the read loop for an event that is not [EV_SYN]. *)
Definition poll_event (a : list sensors_data_t) (new_sensors : Z) (event : input_event)
    : list sensors_data_t * Z :=
  if ev_type event =? EV_ABS then poll_abs a new_sensors event
  else if ev_type event =? EV_LED then
    if ev_code event =? LED_MISC then
      (store ID_L (set_light (F32.of_int (ev_value event))) a, Z.lor new_sensors SENSORS_LIGHT)
    else (a, new_sensors)
  else (a, new_sensors).

(** [tv_sec*1000000000LL + tv_usec*1000]: the product of the microseconds
    is computed in [long], the sum in [int64_t]. *)
Definition timestamp (event : input_event) : Z :=
  Int.int64 (tv_sec event * 1000000000 + Int.int32 (tv_usec event * 1000)).

(** The [while (new_sensors)] loop that stamps the touched samples. *)
Fixpoint stamp_loop (fuel : nat) (new_sensors : Z) (t : Z) (a : list sensors_data_t)
    : option (list sensors_data_t) :=
  if new_sensors =? 0 then Some a
  else
    match fuel with
    | O => None
    | S fuel' =>
        let i := 31 - Int.clz new_sensors in
        let new_sensors := Z.land new_sensors (Z.lnot (Z.shiftl 1 i)) in
        stamp_loop fuel' new_sensors t (store i (set_time t) a)
    end.

(** Result of one call of [data__poll]: the return value, the device, the
    caller's [*values] and the events not yet read. *)
Record poll_result := {
  ret : Z;
  ctx : sensors_data_context_t;
  out : sensors_data_t;
  unread : list input_event
}.

(** The [while (1)] loop of [data__poll] over the events that [read]
    delivers; at the end of the list [read] does not return a whole event. *)
Fixpoint poll_loop (dev : sensors_data_context_t) (values : sensors_data_t)
    (new_sensors : Z) (input : list input_event) : option poll_result :=
  match input with
  | [] => Some {| ret := -1; ctx := dev; out := values; unread := [] |}
  | event :: input =>
      if ev_type event =? EV_SYN then
        if ev_code event =? SYN_CONFIG then
          Some {| ret := 0x7FFFFFFF; ctx := dev; out := values; unread := input |}
        else if negb (new_sensors =? 0) then
          let dev := with_pending new_sensors dev in
          let t := timestamp event in
          match stamp_loop Int.WIDTH new_sensors t (sensors dev) with
          | None => None
          | Some a =>
              match pick_sensor (with_sensors a dev) values with
              | None => None
              | Some (r, dev, values) =>
                  Some {| ret := r; ctx := dev; out := values; unread := input |}
              end
          end
        else poll_loop dev values new_sensors input
      else
        let '(a, new_sensors) := poll_event (sensors dev) new_sensors event in
        poll_loop (with_sensors a dev) values new_sensors input
  end.

Definition data__poll (dev : sensors_data_context_t) (values : sensors_data_t)
    (input : list input_event) : option poll_result :=
  let fd := events_fd dev in
  if fd <? 0 then Some {| ret := -1; ctx := dev; out := values; unread := input |}
  else if negb (pendingSensors dev =? 0) then
    match pick_sensor dev values with
    | None => None
    | Some (r, dev, values) => Some {| ret := r; ctx := dev; out := values; unread := input |}
    end
  else poll_loop dev values 0 input.

(** ** The control device *)

Record sensors_control_context_t := {
  dev_fd : list Z;
  filter_sensors : list sensors_data_t;
  active_sensors : Z;
  active_drivers : Z;
  uinput : Z
}.

Definition with_dev_fd (l : list Z) (dev : sensors_control_context_t) :=
  {| dev_fd := l; filter_sensors := filter_sensors dev;
     active_sensors := active_sensors dev; active_drivers := active_drivers dev;
     uinput := uinput dev |}.
Definition with_filter_sensors (a : list sensors_data_t) (dev : sensors_control_context_t) :=
  {| dev_fd := dev_fd dev; filter_sensors := a;
     active_sensors := active_sensors dev; active_drivers := active_drivers dev;
     uinput := uinput dev |}.
Definition with_active (sens drv : Z) (dev : sensors_control_context_t) :=
  {| dev_fd := dev_fd dev; filter_sensors := filter_sensors dev;
     active_sensors := sens; active_drivers := drv;
     uinput := uinput dev |}.

(** What [open_sensors] builds for [SENSORS_HARDWARE_CONTROL]. *)
Definition control_init : sensors_control_context_t :=
  {| dev_fd := replicate (Z.to_nat MAX_NUM_DRIVERS) (-1);
     filter_sensors := replicate (Z.to_nat MAX_NUM_SENSORS) zeroed;
     active_sensors := 0; active_drivers := 0; uinput := -1 |}.

(** *** System calls on the driver nodes

    The kernel is an oracle: [open] answers a descriptor (negative on
    failure), the enable [ioctl] succeeds or fails with a positive [errno].
    Every call made is appended to a trace. *)
Inductive ioctl_result :=
  | IoctlOk
  | IoctlErr (errno : positive).

Inductive ioctl_request :=
  | KXTF9_IOCTL_SET_ENABLE.

Inductive syscall :=
  | SysOpen (path : string) (fd : Z)
  | SysIoctl (fd : Z) (request : ioctl_request) (flags : Z) (r : ioctl_result)
  | SysClose (fd : Z).

Record driver_env := {
  sys_open : string -> Z;
  sys_ioctl : Z -> ioctl_request -> Z -> ioctl_result
}.

Definition Sys (A : Type) : Type :=
  sensors_control_context_t -> A * sensors_control_context_t * list syscall.

Definition sys_ret {A} (a : A) : Sys A := fun dev => (a, dev, []).
Definition sys_bind {A B} (m : Sys A) (k : A -> Sys B) : Sys B :=
  fun dev =>
    let '(a, dev1, t1) := m dev in
    let '(b, dev2, t2) := k a dev1 in
    (b, dev2, t1 ++ t2).
Definition sys_get : Sys sensors_control_context_t := fun dev => (dev, dev, []).
Definition sys_modify (f : sensors_control_context_t -> sensors_control_context_t)
    : Sys unit := fun dev => (tt, f dev, []).
Definition sys_log (c : syscall) : Sys unit := fun dev => (tt, dev, [c]).

Notation "'let*' x ':=' m 'in' k" := (sys_bind m (fun x => k))
  (at level 10, x name, m at level 100, k at level 200).
Notation "m ';;' k" := (sys_bind m (fun _ => k))
  (at level 100, k at level 200, right associativity).

Definition do_open (E : driver_env) (path : string) : Sys Z :=
  let fd := sys_open E path in
  sys_log (SysOpen path fd) ;; sys_ret fd.

Definition do_ioctl (E : driver_env) (fd : Z) (request : ioctl_request) (flags : Z)
    : Sys ioctl_result :=
  let r := sys_ioctl E fd request flags in
  sys_log (SysIoctl fd request flags r) ;; sys_ret r.

Definition do_close (fd : Z) : Sys unit := sys_log (SysClose fd).

#[export] Instance driver_inhabited : Inhabited driver_t :=
  populate {| name := ""; loc := ""; mask := 0 |}.

Definition driver (dev_num : Z) : driver_t := dDriverList !!! Z.to_nat dev_num.
Definition fd_at (dev : sensors_control_context_t) (dev_num : Z) : Z :=
  dev_fd dev !!! Z.to_nat dev_num.
Definition set_fd (dev_num : Z) (fd : Z) : Sys unit :=
  sys_modify (fun dev => with_dev_fd (<[Z.to_nat dev_num := fd]> (dev_fd dev)) dev).

Definition open_dev (E : driver_env) (dev_num : Z) : Sys Z :=
  let* dev := sys_get in
  if fd_at dev dev_num <? 0 then
    let* fd := do_open E (loc (driver dev_num)) in
    set_fd dev_num fd ;;
    sys_ret fd
  else sys_ret (fd_at dev dev_num).

Definition close_dev (dev_num : Z) (enabled : Z) : Sys unit :=
  let* dev := sys_get in
  if (0 <=? fd_at dev dev_num) && (Z.land enabled (mask (driver dev_num)) =? 0) then
    do_close (fd_at dev dev_num) ;;
    set_fd dev_num (-1)
  else sys_ret tt.

(** The three driver groups of [control__activate]; [err] is threaded
    through them as the local variable of the source. The assignments to
    [flags] that no call reads (proximity and compass) have no effect. *)
Definition activate_lis (E : driver_env) (changed_enabled new_enabled : Z) (err : Z)
    : Sys Z :=
  if negb (Z.land changed_enabled SENSORS_ACCELERATION =? 0) then
    let* fd := open_dev E ID_LIS in
    if 0 <=? fd then
      let flags := if negb (Z.land new_enabled SENSORS_ACCELERATION =? 0) then 1 else 0 in
      let* r := do_ioctl E fd KXTF9_IOCTL_SET_ENABLE flags in
      let err := match r with IoctlOk => err | IoctlErr errno => - Z.pos errno end in
      close_dev ID_LIS new_enabled ;;
      sys_ret err
    else sys_ret fd
  else sys_ret err.

Definition activate_sfh (E : driver_env) (changed_enabled new_enabled : Z) (err : Z)
    : Sys Z :=
  if negb (Z.land changed_enabled SENSORS_PROXIMITY =? 0) then
    let* fd := open_dev E ID_SFH in
    if 0 <=? fd then
      close_dev ID_SFH new_enabled ;;
      sys_ret err
    else sys_ret fd
  else sys_ret err.

Definition activate_akm (E : driver_env) (changed_enabled new_enabled : Z) (err : Z)
    : Sys Z :=
  if negb (Z.land changed_enabled
             (Z.lor (Z.lor SENSORS_ORIENTATION SENSORS_TEMPERATURE) SENSORS_MAGNETIC_FIELD)
           =? 0) then
    let* fd := open_dev E ID_AKM in
    let err := if 0 <=? fd then err else fd in
    close_dev ID_AKM new_enabled ;;
    sys_ret err
  else sys_ret err.

(** [new_active] and [new_enabled] of [control__activate]. *)
Definition new_active_of (current_active handle enabled : Z) : Z :=
  let handle_mask := Z.shiftl 1 handle in
  let enabled_mask := if negb (enabled =? 0) then handle_mask else 0 in
  Z.lor (Z.land current_active (Int.not32 handle_mask)) (Z.land enabled_mask handle_mask).

Definition new_enabled_of (new_active : Z) : Z :=
  if negb (Z.land new_active SENSORS_ORIENTATION =? 0)
  then Z.lor new_active SENSORS_ACCELERATION
  else new_active.

Definition control__activate (E : driver_env) (handle enabled : Z) : Sys Z :=
  if (handle <? SENSORS_HANDLE_BASE) || (SENSORS_HANDLE_BASE + MAX_NUM_SENSORS <=? handle)
  then sys_ret (-1)
  else
    let* dev := sys_get in
    let current_active := active_sensors dev in
    let new_active := new_active_of current_active handle enabled in
    let current_enabled := active_drivers dev in
    let new_enabled := new_enabled_of new_active in
    let changed_enabled := Z.lxor current_enabled new_enabled in
    let commit := sys_modify (with_active new_active new_enabled) ;; sys_ret 0 in
    if negb (changed_enabled =? 0) then
      let* err := activate_lis E changed_enabled new_enabled 0 in
      let* err := activate_sfh E changed_enabled new_enabled err in
      let* err := activate_akm E changed_enabled new_enabled err in
      if err <? 0 then sys_ret err else commit
    else commit.

(** *** The replication thread

    [send_event] zeroes the time of the event it writes to the uinput node. *)
Definition send_event (type code value : Z) : input_event :=
  {| tv_sec := 0; tv_usec := 0; ev_type := type; ev_code := code; ev_value := value |}.

(** One turn of the [switch (1<<i)] of [poll_thread]: the events written
    for bit [i]. The magnetic case has no [break] and runs into the
    orientation case. *)
Definition flush_group (active_sensors : Z) (a : list sensors_data_t) (i : Z)
    : list input_event :=
  let orientation :=
    [ send_event EV_ABS EVENT_TYPE_YAW (F32.to_int (vec_x (elt a ID_O)));
      send_event EV_ABS EVENT_TYPE_PITCH (F32.to_int (vec_y (elt a ID_O)));
      send_event EV_ABS EVENT_TYPE_ROLL (F32.to_int (vec_z (elt a ID_O)));
      send_event EV_SYN 0 0 ] in
  let sw := Z.shiftl 1 i in
  if sw =? SENSORS_ACCELERATION then
    if negb (Z.land active_sensors SENSORS_ACCELERATION =? 0) then
      [ send_event EV_ABS EVENT_TYPE_ACCEL_X (F32.to_int (vec_x (elt a ID_A)));
        send_event EV_ABS EVENT_TYPE_ACCEL_Y (F32.to_int (vec_y (elt a ID_A)));
        send_event EV_ABS EVENT_TYPE_ACCEL_Z (F32.to_int (vec_z (elt a ID_A)));
        send_event EV_SYN 0 0 ]
    else []
  else if sw =? SENSORS_MAGNETIC_FIELD then
    [ send_event EV_ABS EVENT_TYPE_MAGV_X (F32.to_int (vec_x (elt a ID_M)));
      send_event EV_ABS EVENT_TYPE_MAGV_Y (F32.to_int (vec_y (elt a ID_M)));
      send_event EV_ABS EVENT_TYPE_MAGV_Z (F32.to_int (vec_z (elt a ID_M)));
      send_event EV_SYN 0 0 ] ++ orientation
  else if sw =? SENSORS_ORIENTATION then orientation
  else if sw =? SENSORS_TEMPERATURE then
    [ send_event EV_ABS EVENT_TYPE_TEMPERATURE (F32.to_int (temperature (elt a ID_T)));
      send_event EV_SYN 0 0 ]
  else if sw =? SENSORS_PROXIMITY then
    [ send_event EV_ABS EVENT_TYPE_PROXIMITY (F32.to_int (distance (elt a ID_P)));
      send_event EV_SYN 0 0 ]
  else if sw =? SENSORS_LIGHT then
    [ send_event EV_LED EVENT_TYPE_LIGHT (F32.to_int (light (elt a ID_L)));
      send_event EV_SYN 0 0 ]
  else [].

(** The [while (new_sensors)] loop of [poll_thread]. *)
Fixpoint flush_loop (fuel : nat) (new_sensors : Z) (active_sensors : Z)
    (a : list sensors_data_t) : option (list input_event) :=
  if new_sensors =? 0 then Some []
  else
    match fuel with
    | O => None
    | S fuel' =>
        let i := 31 - Int.clz new_sensors in
        let new_sensors := Z.land new_sensors (Z.lnot (Z.shiftl 1 i)) in
        match flush_loop fuel' new_sensors active_sensors a with
        | None => None
        | Some written => Some (flush_group active_sensors a i ++ written)
        end
    end.

(** The [switch (event.code)] of [poll_thread] for an [EV_ABS] event: the
    raw value is kept, converted to [float] by the assignment. *)
Definition thread_abs (a : list sensors_data_t) (new_sensors : Z) (event : input_event)
    : list sensors_data_t * Z :=
  let code := ev_code event in
  let value := F32.of_int (ev_value event) in
  if code =? EVENT_TYPE_ACCEL_X then
    (store ID_A (set_x value) a, Z.lor new_sensors SENSORS_ACCELERATION)
  else if code =? EVENT_TYPE_ACCEL_Y then
    (store ID_A (set_y value) a, Z.lor new_sensors SENSORS_ACCELERATION)
  else if code =? EVENT_TYPE_ACCEL_Z then
    (store ID_A (set_z value) a, Z.lor new_sensors SENSORS_ACCELERATION)
  else if code =? EVENT_TYPE_MAGV_X then
    (store ID_M (set_x value) a, Z.lor new_sensors SENSORS_MAGNETIC_FIELD)
  else if code =? EVENT_TYPE_MAGV_Y then
    (store ID_M (set_y value) a, Z.lor new_sensors SENSORS_MAGNETIC_FIELD)
  else if code =? EVENT_TYPE_MAGV_Z then
    (store ID_M (set_z value) a, Z.lor new_sensors SENSORS_MAGNETIC_FIELD)
  else if code =? EVENT_TYPE_YAW then
    (store ID_O (set_x value) a, Z.lor new_sensors SENSORS_ORIENTATION)
  else if code =? EVENT_TYPE_PITCH then
    (store ID_O (set_y value) a, Z.lor new_sensors SENSORS_ORIENTATION)
  else if code =? EVENT_TYPE_ROLL then
    (store ID_O (set_z value) a, Z.lor new_sensors SENSORS_ORIENTATION)
  else if code =? EVENT_TYPE_TEMPERATURE then
    (store ID_T (set_temperature value) a, Z.lor new_sensors SENSORS_TEMPERATURE)
  else if code =? EVENT_TYPE_PROXIMITY then
    (store ID_P (set_distance value) a, Z.lor new_sensors SENSORS_PROXIMITY)
  else (a, new_sensors).

(** What [poll_thread] does with one event it has read: the device, the
    local [new_sensors] and the events written to the uinput node. The
    order in which the driver nodes are polled is the order of the events
    handed to the function (the [break] of the [EV_LED] case only leaves
    the loop over the nodes that are ready). *)
Definition thread_event (dev : sensors_control_context_t) (new_sensors : Z)
    (event : input_event)
    : option (sensors_control_context_t * Z * list input_event) :=
  let active_sensors := active_sensors dev in
  if 0 <=? uinput dev then
    if ev_type event =? EV_ABS then
      let '(a, new_sensors) := thread_abs (filter_sensors dev) new_sensors event in
      Some (with_filter_sensors a dev, new_sensors, [])
    else if ev_type event =? EV_LED then
      if ev_code event =? LED_MISC then
        Some (with_filter_sensors
                (store ID_L (set_light (F32.of_int (ev_value event))) (filter_sensors dev)) dev,
              Z.lor new_sensors SENSORS_LIGHT, [])
      else Some (dev, new_sensors, [])
    else if ev_type event =? EV_SYN then
      let echo :=
        if (ev_code event =? SYN_CONFIG) && (ev_value event =? 0) then [event] else [] in
      match flush_loop Int.WIDTH new_sensors active_sensors (filter_sensors dev) with
      | None => None
      | Some written => Some (dev, 0, echo ++ written)
      end
    else Some (dev, new_sensors, [])
  else Some (dev, new_sensors, []).

(** The read loop of [poll_thread] over the events of a list, in the
    order read. The thread reaches this loop only through its start-up,
    [open_sources] below; [poll_thread] puts the two together. *)
Fixpoint thread_run (dev : sensors_control_context_t) (new_sensors : Z)
    (input : list input_event)
    : option (sensors_control_context_t * Z * list input_event) :=
  match input with
  | [] => Some (dev, new_sensors, [])
  | event :: input =>
      match thread_event dev new_sensors event with
      | None => None
      | Some (dev, new_sensors, w1) =>
          match thread_run dev new_sensors input with
          | None => None
          | Some (dev, new_sensors, w2) => Some (dev, new_sensors, w1 ++ w2)
          end
      end
  end.

(** ** Vocabulary of the statements *)

(** *** Failures in a trace of system calls *)

Definition syscall_failed (c : syscall) : bool :=
  match c with
  | SysOpen _ fd => fd <? 0
  | SysIoctl _ _ _ (IoctlErr _) => true
  | _ => false
  end.

(** The error code a failed call leaves in [err]. *)
Definition syscall_error (c : syscall) : Z :=
  match c with
  | SysOpen _ fd => fd
  | SysIoctl _ _ _ (IoctlErr errno) => - Z.pos errno
  | _ => 0
  end.

Definition record_error (err : Z) (c : syscall) : Z :=
  if syscall_failed c then syscall_error c else err.

(** The error of the last failed call of a trace, 0 when none failed. *)
Definition last_error (tr : list syscall) : Z := fold_left record_error tr 0.

(** The power-on command of the accelerometer. *)
Definition is_enable_command (c : syscall) : bool :=
  match c with
  | SysIoctl _ KXTF9_IOCTL_SET_ENABLE flags _ => flags =? 1
  | _ => false
  end.

(** What a driver group leaves: the error is the one of its last failed
    call (or the one it received), the masks are not touched. *)
Definition group_ok (err : Z) (dev : sensors_control_context_t)
    (r : Z * sensors_control_context_t * list syscall) : Prop :=
  r.1.1 = fold_left record_error r.2 err
  /\ active_sensors r.1.2 = active_sensors dev
  /\ active_drivers r.1.2 = active_drivers dev.

(** [changed_enabled] of a call of [control__activate]. *)
Definition changed_of (dev : sensors_control_context_t) (handle enabled : Z) : Z :=
  Z.lxor (active_drivers dev)
    (new_enabled_of (new_active_of (active_sensors dev) handle enabled)).

Definition AKM_SENSORS : Z :=
  Z.lor (Z.lor SENSORS_ORIENTATION SENSORS_TEMPERATURE) SENSORS_MAGNETIC_FIELD.

(** A call that stops at its first failure: nothing follows the first
    failed system call of its trace, and the error of that call is what
    the call returns. *)
Definition aborts_at_first_failure (r : Z) (tr : list syscall) : Prop :=
  forall pre c post,
    tr = pre ++ c :: post ->
    existsb syscall_failed pre = false ->
    syscall_failed c = true ->
    post = [] /\ r = syscall_error c.

(** Two calls in a row enabling the same sensor, under one environment:
    the power-on command is issued at most once and the second call makes
    no system call. *)
Definition second_enable_is_silent (E : driver_env) (handle : Z)
    (dev : sensors_control_context_t) : Prop :=
  let r1 := control__activate E handle 1 dev in
  let r2 := control__activate E handle 1 r1.1.2 in
  (length (List.filter is_enable_command (r1.2 ++ r2.2)) <= 1)%nat /\ r2.2 = [].

Definition valid_handle (handle : Z) : Prop :=
  SENSORS_HANDLE_BASE <= handle < SENSORS_HANDLE_BASE + MAX_NUM_SENSORS.

(** *** Pending identities *)

(** What [pick_sensor] answers when it looks for the identities of
    [mask]: the highest pending one, its bit cleared, its sample copied
    out and tagged; -1 when none of them is pending. *)
Definition picked (dev : sensors_data_context_t) (values : sensors_data_t) (mask : Z)
    : Z * sensors_data_context_t * sensors_data_t :=
  let p := pendingSensors dev in
  if Z.land p mask =? 0 then (-1, dev, values)
  else
    let i := Z.log2 (Z.land p mask) in
    (i, with_pending (Z.land p (Z.lnot (Z.shiftl 1 i))) dev,
     set_sensor (Z.shiftl 1 i) (elt (sensors dev) i)).

(** The set bits of [p] below position [k], highest first. *)
Fixpoint bits_desc (k : nat) (p : Z) : list Z :=
  match k with
  | O => []
  | S k' =>
      if Z.testbit p (Z.of_nat k') then Z.of_nat k' :: bits_desc k' p
      else bits_desc k' p
  end.

(** The identities of a mask, highest first. *)
Definition identities_desc (m : Z) : list Z :=
  filter (fun i => Is_true (Z.testbit m i)) [ID_L; ID_P; ID_T; ID_O; ID_M; ID_A].

(** Calls of [data__poll] repeated while a sample is pending: the values
    returned, in order, and the device left. *)
Fixpoint drain (calls : nat) (dev : sensors_data_context_t) (values : sensors_data_t)
    (input : list input_event) : option (list Z * sensors_data_context_t) :=
  if pendingSensors dev =? 0 then Some ([], dev)
  else
    match calls with
    | O => Some ([], dev)
    | S calls =>
        match data__poll dev values input with
        | None => None
        | Some r =>
            match drain calls (ctx r) (out r) (unread r) with
            | None => None
            | Some (l, dev') => Some (ret r :: l, dev')
            end
        end
    end.

(** *** Fields of the samples and the raw events that write them *)

Inductive field :=
  | AccelX | AccelY | AccelZ
  | MagX | MagY | MagZ
  | Yaw | Pitch | Roll
  | Temperature | Proximity | Light.

Definition all_fields : list field :=
  [AccelX; AccelY; AccelZ; MagX; MagY; MagZ; Yaw; Pitch; Roll; Temperature; Proximity; Light].

Definition field_sensor (f : field) : Z :=
  match f with
  | AccelX | AccelY | AccelZ => ID_A
  | MagX | MagY | MagZ => ID_M
  | Yaw | Pitch | Roll => ID_O
  | Temperature => ID_T
  | Proximity => ID_P
  | Light => ID_L
  end.

Definition field_type (f : field) : Z :=
  match f with
  | Light => EV_LED
  | _ => EV_ABS
  end.

Definition field_code (f : field) : Z :=
  match f with
  | AccelX => EVENT_TYPE_ACCEL_X | AccelY => EVENT_TYPE_ACCEL_Y | AccelZ => EVENT_TYPE_ACCEL_Z
  | MagX => EVENT_TYPE_MAGV_X | MagY => EVENT_TYPE_MAGV_Y | MagZ => EVENT_TYPE_MAGV_Z
  | Yaw => EVENT_TYPE_YAW | Pitch => EVENT_TYPE_PITCH | Roll => EVENT_TYPE_ROLL
  | Temperature => EVENT_TYPE_TEMPERATURE
  | Proximity => EVENT_TYPE_PROXIMITY
  | Light => EVENT_TYPE_LIGHT
  end.

Definition field_get (f : field) : sensors_data_t -> f32 :=
  match f with
  | AccelX | MagX | Yaw => vec_x
  | AccelY | MagY | Pitch => vec_y
  | AccelZ | MagZ | Roll => vec_z
  | Temperature => temperature
  | Proximity => distance
  | Light => light
  end.

(** The unit conversion applied to a raw value on its way to a field. *)
Definition convert (f : field) (raw : Z) : f32 :=
  match f with
  | AccelX => scale raw CONVERT_A_X
  | AccelY => scale raw CONVERT_A_Y
  | AccelZ => scale raw CONVERT_A_Z
  | MagX => scale raw CONVERT_M_X
  | MagY => scale raw CONVERT_M_Y
  | MagZ => scale raw CONVERT_M_Z
  | Yaw => scale raw CONVERT_O_Y
  | Pitch => scale raw CONVERT_O_P
  | Roll => scale raw CONVERT_O_R
  | Temperature => F32.of_int raw
  | Proximity =>
      if F32.leb (scale raw CONVERT_P) PROXIMITY_THRESHOLD_CM
      then F32.zero else PROXIMITY_THRESHOLD_CM
  | Light => F32.of_int raw
  end.

(** The unit conversion in the words of the specification (section 4.1):
    the raw reading times a fixed factor, with the factors as binary32
    constants and the product taken in binary32 by [SFmul] of the
    Standard Library. Nothing embedded from sensors.c is used here; what
    [data__poll] stores is compared with it. *)
Definition standard_gravity : spec_float := S754_finite false 10283018 (-20).
Definition one_thousand : spec_float := S754_finite false 16384000 (-14).
Definition one_sixteenth : spec_float := S754_finite false 8388608 (-27).
Definition one_sixty_fourth : spec_float := S754_finite false 8388608 (-29).
Definition near_threshold : spec_float := S754_finite false 12582912 (-21).

Definition spec_factor (f : field) : option spec_float :=
  match f with
  | AccelX | AccelY | AccelZ => Some (SFdiv 24 128 standard_gravity one_thousand)
  | MagX => Some one_sixteenth
  | MagY | MagZ => Some (SFopp one_sixteenth)
  | Yaw | Pitch => Some one_sixty_fourth
  | Roll => Some (SFopp one_sixty_fourth)
  | Temperature | Proximity | Light => None
  end.

(** Proximity is quantized: a reading of at most 6 cm, that is a raw value
    of at most 6 * 5, gives 0, any other gives the threshold. *)
Definition spec_convert (f : field) (raw : Z) : spec_float :=
  match f with
  | Proximity => if raw <=? 6 * 5 then S754_zero false else near_threshold
  | _ =>
      match spec_factor f with
      | Some factor => SFmul 24 128 (binary_normalize 24 128 raw 0 false) factor
      | None => binary_normalize 24 128 raw 0 false
      end
  end.

(** The event carries a value for the field. *)
Definition writes (f : field) (e : input_event) : bool :=
  (ev_type e =? field_type f) && (ev_code e =? field_code f).

(** The raw value of the last event of the list that writes the field. *)
Fixpoint last_write (f : field) (evs : list input_event) : option Z :=
  match evs with
  | [] => None
  | e :: evs =>
      match last_write f evs with
      | Some v => Some v
      | None => if writes f e then Some (ev_value e) else None
      end
  end.

(** The event writes a field of sensor [i]. *)
Definition touches (i : Z) (e : input_event) : bool :=
  existsb (fun f => (field_sensor f =? i) && writes f e) all_fields.

(** Some event of the list writes a field of sensor [i]. *)
Definition touched (i : Z) (evs : list input_event) : bool :=
  existsb (touches i) evs.

(** The samples and the local [new_sensors] after the read loop has gone
    through events none of which is an [EV_SYN]. *)
Definition run_events (a : list sensors_data_t) (new_sensors : Z)
    (evs : list input_event) : list sensors_data_t * Z :=
  fold_left (fun st e => poll_event st.1 st.2 e) evs (a, new_sensors).

(** The samples with the time [t] written into those of the mask. *)
Definition stamped (new_sensors : Z) (t : Z) (a : list sensors_data_t)
    : list sensors_data_t :=
  imap (fun n s => if Z.testbit new_sensors (Z.of_nat n) then set_time t s else s) a.

Definition is_boundary (e : input_event) : Prop :=
  ev_type e = EV_SYN /\ ev_code e <> SYN_CONFIG.

Definition is_orient_status (e : input_event) : Prop :=
  ev_type e = EV_ABS /\ ev_code e = EVENT_TYPE_ORIENT_STATUS.

(** The accuracy byte an [EVENT_TYPE_ORIENT_STATUS] value leaves: the
    value masked to 15 bits, then cut to 8 bits. *)
Definition status_byte (value : Z) : Z :=
  Int.int8 (Z.land (Z.land value 0x7FFF) 0xFF).

(** The accuracy byte after a run of status events. *)
Definition last_status (s : Z) (evs : list input_event) : Z :=
  fold_left (fun _ e => status_byte (ev_value e)) evs s.

(** *** Shape of a binary32 value *)

(** The value is a zero, an infinity or a finite number of sign [s]. *)
Definition has_sign (s : bool) (f : f32) : Prop :=
  match f with
  | S754_zero s' | S754_infinity s' | S754_finite s' _ _ => s' = s
  | S754_nan => False
  end.

(** The value is [+infinity] or a positive finite number that is at least
    [2 ^ (k - 1)]: its mantissa and exponent add up to [k] digits or more,
    and the exponent keeps the mantissa within 24 bits. *)
Definition at_least_pow2 (k : Z) (f : f32) : Prop :=
  match f with
  | S754_infinity false => True
  | S754_finite false m e => k <= Z.log2 (Z.pos m) + 1 + e /\ k - 24 <= e
  | _ => False
  end.

(** *** Environments and inputs of the examples *)

(** Every driver node opens (descriptor 3) and every command succeeds. *)
Definition env_ok : driver_env :=
  {| sys_open := fun _ => 3; sys_ioctl := fun _ _ _ => IoctlOk |}.

(** The accelerometer node opens but its command fails with [EIO]; the
    compass node cannot be opened. *)
Definition env_lis_eio_akm_down : driver_env :=
  {| sys_open := fun path => if String.eqb path "/dev/kxtf9" then 3 else -1;
     sys_ioctl := fun _ _ _ => IoctlErr 5 |}.

(** The accelerometer works; the compass node cannot be opened. *)
Definition env_akm_down : driver_env :=
  {| sys_open := fun path => if String.eqb path "/dev/kxtf9" then 3 else -1;
     sys_ioctl := fun _ _ _ => IoctlOk |}.

Definition raw (type code value : Z) : input_event :=
  {| tv_sec := 12; tv_usec := 345678; ev_type := type; ev_code := code; ev_value := value |}.

(** A control device whose uinput node is open (descriptor 4) and on which
    nothing is active. *)
Definition control_replicating : sensors_control_context_t :=
  {| dev_fd := dev_fd control_init; filter_sensors := filter_sensors control_init;
     active_sensors := 0; active_drivers := 0; uinput := 4 |}.

(** A freshly opened data device. *)
Definition data_opened : sensors_data_context_t :=
  data__data_open {| events_fd := -1; sensors := []; pendingSensors := 0 |} 5.

(** ** Further operations of sensors.c *)

(** *** [open_input]: the scan of /dev/input

    The directory is a list of entry names ([None] when [opendir] fails),
    [open] answers a descriptor for a path and a mode, and [EVIOCGNAME]
    answers the name of an open node ([None] when the ioctl returns less
    than 1, which leaves the empty name in the buffer). *)
Record input_env := {
  dir_entries : option (list string);
  node_open : string -> Z -> Z;
  node_name : Z -> option string
}.

Inductive node_call :=
  | NodeOpen (path : string) (mode : Z) (fd : Z)
  | NodeGetName (fd : Z)
  | NodeWrite (fd : Z) (event : input_event) (written : Z)
  | NodeClose (fd : Z).

Definition O_RDONLY : Z := 0.
Definition O_WRONLY : Z := 1.
Definition O_RDWR : Z := 2.

(** The test on [de->d_name] that skips the entries [.] and [..]. *)
Definition is_dot_entry (d_name : string) : bool :=
  match d_name with
  | String "."%char EmptyString => true
  | String "."%char (String "."%char EmptyString) => true
  | _ => false
  end.

(** The [while ((de = readdir(dir)))] loop; [fd] is the local of the
    source, returned when the entries are exhausted. *)
Fixpoint scan_input (N : input_env) (dev_name : string) (mode : Z)
    (entries : list string) (fd : Z) : Z * list node_call :=
  match entries with
  | [] => (fd, [])
  | d_name :: entries =>
      if is_dot_entry d_name then scan_input N dev_name mode entries fd
      else
        let devname := ("/dev/input/" ++ d_name)%string in
        let fd := node_open N devname mode in
        if 0 <=? fd then
          let name := match node_name N fd with Some n => n | None => ""%string end in
          if String.eqb name dev_name then
            (fd, [NodeOpen devname mode fd; NodeGetName fd])
          else
            let '(r, tr) := scan_input N dev_name mode entries (-1) in
            (r, NodeOpen devname mode fd :: NodeGetName fd :: NodeClose fd :: tr)
        else
          let '(r, tr) := scan_input N dev_name mode entries fd in
          (r, NodeOpen devname mode fd :: tr)
  end.

Definition open_input (N : input_env) (dev_name : string) (mode : Z)
    : Z * list node_call :=
  match dir_entries N with
  | None => (-1, [])
  | Some entries => scan_input N dev_name mode entries (-1)
  end.

(** *** [control__wake]; [node_write] is what [write] answers. *)
Definition control__wake (N : input_env) (node_write : Z -> input_event -> Z)
    : Z * list node_call :=
  let err := 0 in
  let '(fd, tr) := open_input N (name (driver 0)) O_WRONLY in
  if 0 <=? fd then
    let event := send_event EV_SYN SYN_CONFIG 0 in
    let err := node_write fd event in
    (err, tr ++ [NodeWrite fd event err; NodeClose fd])
  else (err, tr).

(** *** [poll_thread] from its start

    Before its read loop the thread looks up the input node of every
    driver: [MAX_NUM_DRIVERS] lookups through [dDriverList]. A lookup that
    fails closes the descriptors found so far and ends the thread
    ([pthread_exit]). [dDriverList] has fewer entries than
    [MAX_NUM_DRIVERS]: reading an entry beyond the table is an access
    outside the array, kept apart as an outcome of its own, with the
    descriptors the thread then holds. [N i] is the state of /dev/input
    at lookup [i]. *)
Inductive startup :=
  | Polling (event_fd : list Z)
  | Exited
  | OutsideTable (i : Z) (event_fd : list Z).

Fixpoint open_sources (N : Z -> input_env) (count : nat) (i : Z) (event_fd : list Z)
    : startup * list node_call :=
  match count with
  | O => (Polling event_fd, [])
  | S count =>
      match dDriverList !! Z.to_nat i with
      | None => (OutsideTable i event_fd, [])
      | Some d =>
          let '(fd, tr) := open_input (N i) (name d) O_RDONLY in
          if fd <? 0 then (Exited, tr ++ map NodeClose event_fd)
          else
            let '(s, tr') := open_sources N count (i + 1) (event_fd ++ [fd]) in
            (s, tr ++ tr')
      end
  end.

(** How a run of the thread ends on a finite input: the loop went
    through the events, or the thread stopped in its start-up. *)
Inductive thread_outcome :=
  | Replicated (dev : sensors_control_context_t) (new_sensors : Z)
      (written : list input_event)
  | ThreadExited
  | ThreadOutsideTable (i : Z) (event_fd : list Z).

(** [poll_thread]: the start-up, then the read loop; [None] is an
    exhausted iteration budget of the flush loop. *)
Definition poll_thread (N : Z -> input_env) (dev : sensors_control_context_t)
    (input : list input_event) : option (thread_outcome * list node_call) :=
  let '(s, tr) := open_sources N (Z.to_nat MAX_NUM_DRIVERS) 0 [] in
  match s with
  | Polling _ =>
      match thread_run dev 0 input with
      | Some (dev', new_sensors, written) => Some (Replicated dev' new_sensors written, tr)
      | None => None
      end
  | Exited => Some (ThreadExited, tr)
  | OutsideTable i event_fd => Some (ThreadOutsideTable i event_fd, tr)
  end.

(** *** [control__set_delay]; [ioctl_delay fd delay] is what
    [ioctl(fd, KXTF9_IOCTL_SET_DELAY, &delay)] answers. The result is the
    return value and the commands issued, each with its descriptor and its
    delay. The compass part of the function is commented out. *)
Definition control__set_delay (ioctl_delay : Z -> Z -> ioctl_result) (ms : Z)
    (dev : sensors_control_context_t) : Z * list (Z * Z) :=
  let delay := ms in
  let err := 0 in
  let fd := fd_at dev ID_LIS in
  if 0 <=? fd then
    match ioctl_delay fd delay with
    | IoctlOk => (err, [(fd, delay)])
    | IoctlErr errno => (- Z.pos errno, [(fd, delay)])
    end
  else (err, []).

(** *** Vocabulary of the further properties *)

(** Calls of [control__activate] made one after the other, each under its
    own environment; the device left by the last one. *)
Fixpoint activate_all (calls : list (driver_env * Z * Z))
    (dev : sensors_control_context_t) : sensors_control_context_t :=
  match calls with
  | [] => dev
  | (E, handle, enabled) :: calls =>
      activate_all calls (control__activate E handle enabled dev).1.2
  end.

(** Calls of [control__activate] made one after the other that all
    return 0: the device they leave; [None] when one of them fails. *)
Fixpoint activate_each (calls : list (driver_env * Z * Z))
    (dev : sensors_control_context_t) : option sensors_control_context_t :=
  match calls with
  | [] => Some dev
  | (E, handle, enabled) :: calls =>
      let r := control__activate E handle enabled dev in
      if r.1.1 =? 0 then activate_each calls r.1.2 else None
  end.

(** The accelerometer handle is open exactly when the driver mask holds
    the accelerometer. *)
Definition accelerometer_handle_agrees (dev : sensors_control_context_t) : Prop :=
  0 <= fd_at dev ID_LIS <-> Z.testbit (active_drivers dev) ID_A = true.

(** The driver mask is the one derived from the activation mask, which
    holds supported sensors only. *)
Definition coherent (dev : sensors_control_context_t) : Prop :=
  active_drivers dev = new_enabled_of (active_sensors dev)
  /\ 0 <= active_sensors dev <= SUPPORTED_SENSORS.

(** No handle is open for a driver that the driver mask does not need. *)
Definition no_idle_handle (dev : sensors_control_context_t) : Prop :=
  (0 <= fd_at dev ID_LIS -> Z.land (active_drivers dev) (mask (driver ID_LIS)) <> 0)
  /\ (0 <= fd_at dev ID_AKM -> Z.land (active_drivers dev) (mask (driver ID_AKM)) <> 0).

(** What [control__activate] may do with a descriptor: a command goes to
    an open descriptor and carries the state of Acceleration in the new
    driver mask; a close is made on an open descriptor. *)
Definition well_addressed (new_enabled : Z) (c : syscall) : Prop :=
  match c with
  | SysOpen _ _ => True
  | SysIoctl fd _ flags _ =>
      0 <= fd /\ flags = (if Z.testbit new_enabled ID_A then 1 else 0)
  | SysClose fd => 0 <= fd
  end.

(** Calls of [data__poll] made one after the other, each reading from the
    events left by the one before; the results, in order. *)
Fixpoint poll_all (calls : nat) (dev : sensors_data_context_t)
    (values : sensors_data_t) (input : list input_event)
    : option (list poll_result) :=
  match calls with
  | O => Some []
  | S calls =>
      match data__poll dev values input with
      | None => None
      | Some r =>
          match poll_all calls (ctx r) (out r) (unread r) with
          | None => None
          | Some rs => Some (r :: rs)
          end
      end
  end.

(** An event the read loop passes over: not an [EV_SYN], no value for any
    field, not an orientation status. *)
Definition passed_over (e : input_event) : Prop :=
  ev_type e <> EV_SYN /\ (forall f, writes f e = false) /\ ~ is_orient_status e.

(** Events written in groups, each a non-empty run of events that are not
    [EV_SYN] closed by one synchronization marker. *)
Inductive framed : list input_event -> Prop :=
  | framed_nil : framed []
  | framed_group axes w :
      axes <> [] ->
      Forall (fun e => ev_type e <> EV_SYN) axes ->
      framed w ->
      framed (axes ++ send_event EV_SYN 0 0 :: w).

(** An event of the accelerometer axes. *)
Definition is_accel_axis (e : input_event) : bool :=
  (ev_type e =? EV_ABS)
  && ((ev_code e =? EVENT_TYPE_ACCEL_X) || (ev_code e =? EVENT_TYPE_ACCEL_Y)
      || (ev_code e =? EVENT_TYPE_ACCEL_Z)).

(** The descriptors of a trace of [open_input]: those that [open]
    delivered, and those closed. *)
Definition opened_fds (tr : list node_call) : list Z :=
  omap (fun c => match c with
                 | NodeOpen _ _ fd => if 0 <=? fd then Some fd else None
                 | _ => None
                 end) tr.

Definition closed_fds (tr : list node_call) : list Z :=
  omap (fun c => match c with NodeClose fd => Some fd | _ => None end) tr.

(** The entry is a node that opens and carries the name looked for. *)
Definition matches_entry (N : input_env) (dev_name : string) (mode : Z)
    (d_name : string) : bool :=
  let fd := node_open N ("/dev/input/" ++ d_name)%string mode in
  negb (is_dot_entry d_name)
  && (0 <=? fd)
  && String.eqb (match node_name N fd with Some n => n | None => ""%string end) dev_name.

(** The events written through a trace of [control__wake], each with the
    descriptor it went to. *)
Definition written_events (tr : list node_call) : list (Z * input_event) :=
  omap (fun c => match c with NodeWrite fd e _ => Some (fd, e) | _ => None end) tr.

(** The event that [control__wake] writes. *)
Definition wake_event : input_event := send_event EV_SYN SYN_CONFIG 0.

(** What a caller of [data__poll] can see in a result: no sample (-1, or
    the wake code) and the buffer as it was handed in, or the identity of
    a sensor and the buffer tagged with its mask, that sensor no longer
    pending. *)
Definition well_delivered (values : sensors_data_t) (r : poll_result) : Prop :=
  (ret r = -1 /\ out r = values)
  \/ (ret r = 0x7FFFFFFF /\ out r = values)
  \/ (0 <= ret r < MAX_NUM_SENSORS
      /\ sensor (out r) = Z.shiftl 1 (ret r)
      /\ out r = set_sensor (Z.shiftl 1 (ret r)) (elt (sensors (ctx r)) (ret r))
      /\ Z.testbit (pendingSensors (ctx r)) (ret r) = false).

(** The invariant of the data device between calls. *)
Definition data_ready (dev : sensors_data_context_t) : Prop :=
  length (sensors dev) = Z.to_nat MAX_NUM_SENSORS
  /\ 0 <= pendingSensors dev <= SUPPORTED_SENSORS.

(** The results of successive calls, each checked against the buffer the
    call received. *)
Fixpoint all_delivered (values : sensors_data_t) (rs : list poll_result) : Prop :=
  match rs with
  | [] => True
  | r :: rs => well_delivered values r /\ data_ready (ctx r) /\ all_delivered (out r) rs
  end.

(** The sensors that the events of an epoch touch, highest identity
    first. *)
Definition touched_desc (evs : list input_event) : list Z :=
  List.filter (fun i => touched i evs) [ID_L; ID_P; ID_T; ID_O; ID_M; ID_A].

(** What the replication thread keeps of the control device. *)
Definition same_configuration (dev dev' : sensors_control_context_t) : Prop :=
  active_sensors dev' = active_sensors dev
  /\ active_drivers dev' = active_drivers dev
  /\ dev_fd dev' = dev_fd dev
  /\ uinput dev' = uinput dev
  /\ length (filter_sensors dev') = length (filter_sensors dev).

(** An event that is not the wake marker. *)
Definition not_wake (e : input_event) : Prop :=
  ~ (ev_type e = EV_SYN /\ ev_code e = SYN_CONFIG /\ ev_value e = 0).

(** * Properties *)

(** ** The activation state machine *)

Ltac bool_hyps :=
  repeat match goal with
    | H : negb _ = true |- _ => apply negb_true_iff in H
    | H : negb _ = false |- _ => apply negb_false_iff in H
    | H : (_ && _) = true |- _ => apply andb_true_iff in H; destruct H
    | H : (_ || _) = false |- _ => apply orb_false_iff in H; destruct H
    | H : (_ <? _) = true |- _ => apply Z.ltb_lt in H
    | H : (_ <? _) = false |- _ => apply Z.ltb_ge in H
    | H : (_ <=? _) = true |- _ => apply Z.leb_le in H
    | H : (_ <=? _) = false |- _ => apply Z.leb_gt in H
    | H : (_ =? _) = true |- _ => apply Z.eqb_eq in H
    | H : (_ =? _) = false |- _ => apply Z.eqb_neq in H
    end.

Section Activation.

Variable E : driver_env.

Ltac run_sys :=
  unfold activate_lis, activate_sfh, activate_akm, open_dev, close_dev, do_open,
    do_ioctl, do_close, set_fd, sys_bind, sys_ret, sys_get, sys_modify, sys_log;
  cbn beta iota zeta.

Ltac failed_calls :=
  unfold record_error;
  cbn [app fold_left syscall_failed syscall_error existsb orb
       with_dev_fd active_sensors active_drivers fst snd];
  repeat match goal with
    | |- context [?x <? 0] => destruct (Z.ltb_spec x 0); try lia
    end.

Lemma activate_lis_ok ch ne err dev : group_ok err dev (activate_lis E ch ne err dev).
Proof.
  unfold group_ok. run_sys.
  repeat case_match; simplify_eq; bool_hyps; failed_calls; first [done | lia].
Qed.

Lemma activate_sfh_ok ch ne err dev : group_ok err dev (activate_sfh E ch ne err dev).
Proof.
  unfold group_ok. run_sys.
  repeat case_match; simplify_eq; bool_hyps; failed_calls; first [done | lia].
Qed.

Lemma activate_akm_ok ch ne err dev : group_ok err dev (activate_akm E ch ne err dev).
Proof.
  unfold group_ok. run_sys.
  repeat case_match; simplify_eq; bool_hyps; failed_calls; first [done | lia].
Qed.

Lemma activate_lis_fd ch ne err dev (n : nat) :
  n <> Z.to_nat ID_LIS ->
  dev_fd (activate_lis E ch ne err dev).1.2 !!! n = dev_fd dev !!! n.
Proof.
  intros Hn. run_sys.
  repeat case_match; simplify_eq; cbn [fst snd with_dev_fd dev_fd];
    rewrite ?list_lookup_total_insert_ne by done; done.
Qed.

Lemma activate_sfh_fd ch ne err dev (n : nat) :
  n <> Z.to_nat ID_SFH ->
  dev_fd (activate_sfh E ch ne err dev).1.2 !!! n = dev_fd dev !!! n.
Proof.
  intros Hn. run_sys.
  repeat case_match; simplify_eq; cbn [fst snd with_dev_fd dev_fd];
    rewrite ?list_lookup_total_insert_ne by done; done.
Qed.

Lemma activate_sfh_opens ch ne err dev :
  Z.land ch SENSORS_PROXIMITY <> 0 -> fd_at dev ID_SFH < 0 ->
  In (SysOpen (loc (driver ID_SFH)) (sys_open E (loc (driver ID_SFH))))
     (activate_sfh E ch ne err dev).2.
Proof.
  intros Hch Hfd. run_sys.
  repeat case_match; simplify_eq; bool_hyps; cbn [fst snd app In];
    first [ tauto | lia ].
Qed.

Lemma activate_akm_opens ch ne err dev :
  Z.land ch AKM_SENSORS <> 0 -> fd_at dev ID_AKM < 0 ->
  In (SysOpen (loc (driver ID_AKM)) (sys_open E (loc (driver ID_AKM))))
     (activate_akm E ch ne err dev).2.
Proof.
  unfold AKM_SENSORS. intros Hch Hfd. run_sys.
  repeat case_match; simplify_eq; bool_hyps; cbn [fst snd app In];
    first [ tauto | lia ].
Qed.

Lemma activate_lis_enables ch ne err dev :
  (length (List.filter is_enable_command (activate_lis E ch ne err dev).2) <= 1)%nat.
Proof.
  run_sys.
  repeat case_match; simplify_eq;
    cbn [fst snd app List.filter is_enable_command Z.eqb Pos.eqb length]; lia.
Qed.

Lemma activate_sfh_enables ch ne err dev :
  List.filter is_enable_command (activate_sfh E ch ne err dev).2 = [].
Proof.
  run_sys.
  repeat case_match; simplify_eq;
    cbn [fst snd app List.filter is_enable_command]; done.
Qed.

Lemma activate_akm_enables ch ne err dev :
  List.filter is_enable_command (activate_akm E ch ne err dev).2 = [].
Proof.
  run_sys.
  repeat case_match; simplify_eq;
    cbn [fst snd app List.filter is_enable_command]; done.
Qed.

Lemma fold_error_sign tr : forall err,
  err <= 0 ->
  fold_left record_error tr err <= 0
  /\ (fold_left record_error tr err < 0 <-> err < 0 \/ existsb syscall_failed tr = true).
Proof.
  induction tr as [|c tr IH]; intros err Herr; cbn [fold_left existsb].
  - split; [done|]. split; [tauto|]. intros [?|?]; [done | discriminate].
  - assert (Hc : record_error err c <= 0
                 /\ (record_error err c < 0 <-> err < 0 \/ syscall_failed c = true)).
    { unfold record_error. destruct c as [path fd|fd rq fl [|errno]|fd];
        cbn [syscall_failed syscall_error];
        try destruct (Z.ltb_spec fd 0);
        (split; [lia|]; split; [auto|]; intros [?|?]; first [lia | discriminate]). }
    destruct Hc as [Hle Hlt]. destruct (IH _ Hle) as [IH1 IH2].
    split; [done|]. rewrite IH2, Hlt, orb_true_iff. tauto.
Qed.

Lemma last_error_sign tr :
  last_error tr <= 0 /\ (last_error tr < 0 <-> existsb syscall_failed tr = true).
Proof.
  unfold last_error. destruct (fold_error_sign tr 0 ltac:(done)) as [H1 H2].
  split; [done|]. rewrite H2. split; [intros [?|?]; [lia|done] | auto].
Qed.

(** The anatomy of a call with a valid handle. *)
Lemma activate_anatomy handle enabled dev :
  valid_handle handle ->
  let new_active := new_active_of (active_sensors dev) handle enabled in
  let new_enabled := new_enabled_of new_active in
  let changed := changed_of dev handle enabled in
  let r1 := activate_lis E changed new_enabled 0 dev in
  let r2 := activate_sfh E changed new_enabled r1.1.1 r1.1.2 in
  let r3 := activate_akm E changed new_enabled r2.1.1 r2.1.2 in
  control__activate E handle enabled dev =
    if changed =? 0 then (0, with_active new_active new_enabled dev, [])
    else if r3.1.1 <? 0 then (r3.1.1, r3.1.2, r1.2 ++ r2.2 ++ r3.2)
    else (0, with_active new_active new_enabled r3.1.2, r1.2 ++ r2.2 ++ r3.2).
Proof.
  unfold valid_handle, SENSORS_HANDLE_BASE, MAX_NUM_SENSORS. intros Hh.
  cbn zeta. unfold control__activate, changed_of, SENSORS_HANDLE_BASE, MAX_NUM_SENSORS.
  destruct (Z.ltb_spec handle 0); [lia|].
  destruct (Z.leb_spec (0 + 6) handle); [lia|].
  cbn [orb]. unfold sys_bind at 1. unfold sys_get at 1. cbn beta iota zeta.
  set (ch := Z.lxor _ _). destruct (ch =? 0); cbn [negb].
  - unfold sys_bind, sys_modify, sys_ret. cbn. done.
  - unfold sys_bind at 1.
    destruct (activate_lis _ _ _ _ _) as [[e1 d1] t1]; cbn [fst snd].
    unfold sys_bind at 1.
    destruct (activate_sfh _ _ _ _ _) as [[e2 d2] t2]; cbn [fst snd].
    unfold sys_bind at 1.
    destruct (activate_akm _ _ _ _ _) as [[e3 d3] t3]; cbn [fst snd].
    destruct (e3 <? 0); unfold sys_bind, sys_modify, sys_ret; cbn;
      rewrite ?app_nil_r, <- ?app_assoc; done.
Qed.

Lemma activate_invalid handle enabled dev :
  ~ valid_handle handle -> control__activate E handle enabled dev = (-1, dev, []).
Proof.
  unfold valid_handle, control__activate. intros Hh.
  destruct (Z.ltb_spec handle SENSORS_HANDLE_BASE);
    destruct (Z.leb_spec (SENSORS_HANDLE_BASE + MAX_NUM_SENSORS) handle);
    cbn [orb]; first [done | lia].
Qed.

(** A call with a valid handle returns the error of the last failed
    system call and either fails and keeps the masks or returns 0 and
    commits the new ones. *)
Lemma activate_result handle enabled dev :
  valid_handle handle ->
  let new_active := new_active_of (active_sensors dev) handle enabled in
  let r := control__activate E handle enabled dev in
  r.1.1 = last_error r.2
  /\ ((r.1.1 < 0 /\ active_sensors r.1.2 = active_sensors dev
                 /\ active_drivers r.1.2 = active_drivers dev)
      \/ (r.1.1 = 0 /\ active_sensors r.1.2 = new_active
                   /\ active_drivers r.1.2 = new_enabled_of new_active)).
Proof.
  intros Hh. cbn zeta. rewrite (activate_anatomy _ _ _ Hh). cbn zeta.
  set (ch := changed_of dev handle enabled).
  set (ne := new_enabled_of _).
  destruct (activate_lis_ok ch ne 0 dev) as (H1 & H1s & H1d).
  set (r1 := activate_lis E ch ne 0 dev) in *.
  destruct (activate_sfh_ok ch ne r1.1.1 r1.1.2) as (H2 & H2s & H2d).
  set (r2 := activate_sfh E ch ne r1.1.1 r1.1.2) in *.
  destruct (activate_akm_ok ch ne r2.1.1 r2.1.2) as (H3 & H3s & H3d).
  set (r3 := activate_akm E ch ne r2.1.1 r2.1.2) in *.
  assert (Herr : r3.1.1 = last_error (r1.2 ++ r2.2 ++ r3.2)).
  { unfold last_error. rewrite !fold_left_app. congruence. }
  destruct (ch =? 0); [split; [done | right; done]|].
  destruct (Z.ltb_spec r3.1.1 0); cbn [fst snd].
  - split; [done|]. left. split; [done|]. split; congruence.
  - split; [|right; done].
    destruct (last_error_sign (r1.2 ++ r2.2 ++ r3.2)). lia.
Qed.

(** A call issues the power-on command of the accelerometer at most once. *)
Lemma activate_enables_once handle enabled dev :
  (length (List.filter is_enable_command (control__activate E handle enabled dev).2)
   <= 1)%nat.
Proof.
  assert (Hdec : valid_handle handle \/ ~ valid_handle handle)
    by (unfold valid_handle; lia).
  destruct Hdec as [Hh|Hh].
  - rewrite (activate_anatomy _ _ _ Hh). cbn zeta.
    set (ch := changed_of dev handle enabled).
    set (ne := new_enabled_of _).
    set (r1 := activate_lis E ch ne 0 dev).
    set (r2 := activate_sfh E ch ne r1.1.1 r1.1.2).
    set (r3 := activate_akm E ch ne r2.1.1 r2.1.2).
    assert (Hlen : (length (List.filter is_enable_command (r1.2 ++ r2.2 ++ r3.2)) <= 1)%nat).
    { rewrite !List.filter_app. unfold r2, r3.
      rewrite activate_sfh_enables, activate_akm_enables, !app_nil_r.
      apply activate_lis_enables. }
    destruct (ch =? 0); [cbn; lia|]. by destruct (r3.1.1 <? 0).
  - rewrite (activate_invalid _ _ _ Hh). cbn. lia.
Qed.

End Activation.

(** Bits of the masks computed by [control__activate]. *)

Lemma shiftl_1_bits i n : 0 <= i -> 0 <= n -> Z.testbit (Z.shiftl 1 i) n = (i =? n).
Proof. intros Hi Hn. rewrite Z.shiftl_1_l. by apply Z.pow2_bits_eqb. Qed.

Lemma land_bit_eqb x i : 0 <= i -> (Z.land x (Z.shiftl 1 i) =? 0) = negb (Z.testbit x i).
Proof.
  intros Hi. destruct (Z.testbit x i) eqn:Hb; cbn [negb].
  - apply Z.eqb_neq. intros H0.
    assert (Hc : Z.testbit (Z.land x (Z.shiftl 1 i)) i = true).
    { rewrite Z.land_spec, Hb, shiftl_1_bits, Z.eqb_refl by done. done. }
    rewrite H0, Z.bits_0 in Hc. done.
  - apply Z.eqb_eq. apply Z.bits_inj'. intros n Hn.
    rewrite Z.land_spec, shiftl_1_bits, Z.bits_0 by done.
    destruct (Z.eqb_spec i n); [subst; by rewrite Hb | by rewrite andb_false_r].
Qed.

Lemma not32_bits x n : 0 <= n -> Z.testbit (Int.not32 x) n = negb (Z.testbit x n) && (n <? 32).
Proof.
  intros Hn. unfold Int.not32. change 0xFFFFFFFF with (Z.ones 32).
  by rewrite Z.land_spec, Z.lnot_spec, Z.testbit_ones_nonneg by lia.
Qed.

Lemma new_active_bits c h e n :
  0 <= h -> 0 <= n ->
  Z.testbit (new_active_of c h e) n
  = if n =? h then negb (e =? 0) else Z.testbit c n && (n <? 32).
Proof.
  intros Hh Hn. unfold new_active_of. cbn zeta.
  rewrite Z.lor_spec, !Z.land_spec, not32_bits, shiftl_1_bits by done.
  rewrite (Z.eqb_sym h n).
  destruct (n =? h) eqn:Hnh, (e =? 0); cbn [negb andb orb];
    rewrite ?Z.bits_0, ?shiftl_1_bits, ?andb_false_r, ?andb_true_r, ?orb_false_r by done;
    rewrite ?(Z.eqb_sym h n), ?Hnh; try done.
  all: by destruct (Z.testbit c n), (n <? 32).
Qed.

Lemma new_active_idem c h e :
  0 <= h -> new_active_of (new_active_of c h e) h e = new_active_of c h e.
Proof.
  intros Hh. apply Z.bits_inj'. intros n Hn.
  rewrite new_active_bits by done. rewrite new_active_bits by done.
  destruct (n =? h); [done|]. destruct (Z.testbit c n), (n <? 32); done.
Qed.

Lemma new_enabled_lor a :
  new_enabled_of a
  = Z.lor a (if Z.testbit a ID_O then SENSORS_ACCELERATION else 0).
Proof.
  unfold new_enabled_of, SENSORS_ORIENTATION. rewrite land_bit_eqb, negb_involutive by done.
  destruct (Z.testbit a ID_O); [done | by rewrite Z.lor_0_r].
Qed.

(** ** Claims on [control__activate] *)

(** C1, as stated, fails: with the accelerometer command failing ([EIO])
    and the compass node missing, enabling Orientation goes on to the
    compass group after the failed command and returns the error of the
    later failure (-1), not the one of the command (-5). *)
Lemma activate_continues_after_failure :
  let r := control__activate env_lis_eio_akm_down ID_O 1 control_init in
  r.2 = [ SysOpen "/dev/kxtf9" 3;
          SysIoctl 3 KXTF9_IOCTL_SET_ENABLE 1 (IoctlErr 5);
          SysOpen "/dev/akm8973_aot" (-1) ]
  /\ r.1.1 = -1
  /\ ~ aborts_at_first_failure r.1.1 r.2.
Proof.
  cbn zeta. split; [reflexivity|]. split; [reflexivity|].
  intros H.
  destruct (H [SysOpen "/dev/kxtf9" 3]
              (SysIoctl 3 KXTF9_IOCTL_SET_ENABLE 1 (IoctlErr 5))
              [SysOpen "/dev/akm8973_aot" (-1)]) as [Hpost _];
    [reflexivity | reflexivity | reflexivity | discriminate Hpost].
Qed.

(** C1, amended: a failure does not end the call. The proximity and the
    compass groups are still processed when their bits changed (their node
    is opened when it is not open yet), and the call returns the error of
    the last failed system call, which is negative exactly when some call
    failed. *)
Theorem activate_reports_last_failure E handle enabled dev r dev' tr :
  valid_handle handle ->
  control__activate E handle enabled dev = (r, dev', tr) ->
  r = last_error tr
  /\ (r < 0 <-> existsb syscall_failed tr = true)
  /\ (Z.land (changed_of dev handle enabled) SENSORS_PROXIMITY <> 0 ->
      fd_at dev ID_SFH < 0 ->
      In (SysOpen (loc (driver ID_SFH)) (sys_open E (loc (driver ID_SFH)))) tr)
  /\ (Z.land (changed_of dev handle enabled) AKM_SENSORS <> 0 ->
      fd_at dev ID_AKM < 0 ->
      In (SysOpen (loc (driver ID_AKM)) (sys_open E (loc (driver ID_AKM)))) tr).
Proof.
  intros Hh Hrun.
  destruct (activate_result E handle enabled dev Hh) as [Herr _].
  rewrite Hrun in Herr. cbn [fst snd] in Herr.
  split; [done|]. split; [rewrite Herr; apply last_error_sign|].
  pose proof (activate_anatomy E handle enabled dev Hh) as Han. cbn zeta in Han.
  rewrite Hrun in Han.
  set (ch := changed_of dev handle enabled) in *.
  set (ne := new_enabled_of _) in *.
  set (r1 := activate_lis E ch ne 0 dev) in *.
  set (r2 := activate_sfh E ch ne r1.1.1 r1.1.2) in *.
  set (r3 := activate_akm E ch ne r2.1.1 r2.1.2) in *.
  assert (Htr : ch <> 0 -> tr = r1.2 ++ r2.2 ++ r3.2).
  { intros Hch. apply Z.eqb_neq in Hch. rewrite Hch in Han.
    destruct (r3.1.1 <? 0); congruence. }
  split; intros Hbit Hfd.
  - rewrite Htr by (intros H0; rewrite H0, Z.land_0_l in Hbit; done).
    apply in_or_app. right. apply in_or_app. left.
    apply activate_sfh_opens; [done|].
    unfold fd_at. subst r1. by rewrite activate_lis_fd.
  - rewrite Htr by (intros H0; rewrite H0, Z.land_0_l in Hbit; done).
    apply in_or_app. right. apply in_or_app. right.
    apply activate_akm_opens; [done|].
    unfold fd_at. subst r2. rewrite activate_sfh_fd by done.
    subst r1. by rewrite activate_lis_fd.
Qed.

Lemma activate_reports_last_failure_witness :
  let r := control__activate env_lis_eio_akm_down ID_O 1 control_init in
  valid_handle ID_O
  /\ (r.1.1 = last_error r.2
      /\ (r.1.1 < 0 <-> existsb syscall_failed r.2 = true)
      /\ (Z.land (changed_of control_init ID_O 1) SENSORS_PROXIMITY <> 0 ->
          fd_at control_init ID_SFH < 0 ->
          In (SysOpen (loc (driver ID_SFH))
                (sys_open env_lis_eio_akm_down (loc (driver ID_SFH)))) r.2)
      /\ (Z.land (changed_of control_init ID_O 1) AKM_SENSORS <> 0 ->
          fd_at control_init ID_AKM < 0 ->
          In (SysOpen (loc (driver ID_AKM))
                (sys_open env_lis_eio_akm_down (loc (driver ID_AKM)))) r.2)).
Proof.
  cbn zeta.
  assert (Hh : valid_handle ID_O)
    by (unfold valid_handle, ID_O, SENSORS_HANDLE_BASE, MAX_NUM_SENSORS; lia).
  split; [exact Hh|].
  set (r := control__activate env_lis_eio_akm_down ID_O 1 control_init).
  apply (activate_reports_last_failure env_lis_eio_akm_down ID_O 1 control_init
           r.1.1 r.1.2 r.2 Hh).
  reflexivity.
Defined.

(** C3: a failed system call of the transition leaves [active_sensors] and
    [active_drivers] as they were (and the call returns a negative error);
    with a valid handle and no failed call the new masks are committed and
    the call returns 0; an invalid handle changes nothing. *)
Theorem activate_commits_iff_no_failure E handle enabled dev r dev' tr :
  control__activate E handle enabled dev = (r, dev', tr) ->
  (existsb syscall_failed tr = true ->
     r < 0 /\ active_sensors dev' = active_sensors dev
           /\ active_drivers dev' = active_drivers dev)
  /\ (valid_handle handle -> existsb syscall_failed tr = false ->
       r = 0
       /\ active_sensors dev' = new_active_of (active_sensors dev) handle enabled
       /\ active_drivers dev'
          = new_enabled_of (new_active_of (active_sensors dev) handle enabled))
  /\ (~ valid_handle handle -> r = -1 /\ dev' = dev /\ tr = []).
Proof.
  intros Hrun.
  assert (Hdec : valid_handle handle \/ ~ valid_handle handle).
  { unfold valid_handle. lia. }
  destruct Hdec as [Hh|Hh].
  - destruct (activate_result E handle enabled dev Hh) as [Herr Hcases].
    rewrite Hrun in Herr, Hcases. cbn [fst snd] in Herr, Hcases.
    destruct (last_error_sign tr) as [_ Hsign]. rewrite <- Herr in Hsign.
    split; [|split; [|done]].
    + intros Hf. apply Hsign in Hf. destruct Hcases as [?|[? _]]; [done | lia].
    + intros _ Hf. destruct Hcases as [[Hneg _]|?]; [|done].
      apply Hsign in Hneg. congruence.
  - rewrite (activate_invalid E handle enabled dev Hh) in Hrun. simplify_eq.
    split; [discriminate|]. split; [done|]. done.
Qed.

Lemma activate_commits_iff_no_failure_witness :
  let r := control__activate env_akm_down ID_O 1 control_init in
  existsb syscall_failed r.2 = true
  /\ r.1.1 < 0
  /\ active_sensors r.1.2 = active_sensors control_init
  /\ active_drivers r.1.2 = active_drivers control_init.
Proof.
  cbn zeta. split; [reflexivity|].
  set (r := control__activate env_akm_down ID_O 1 control_init).
  apply (activate_commits_iff_no_failure env_akm_down ID_O 1 control_init
           r.1.1 r.1.2 r.2 eq_refl).
  reflexivity.
Defined.

(** C4: after a successful call the driver mask is the new activation mask
    with the Acceleration bit added when the Orientation bit is set;
    enabling Orientation leaves both bits in the driver mask; disabling it
    leaves the Acceleration bit in the driver mask exactly when
    Acceleration is itself active. *)
Theorem activate_driver_mask E handle enabled dev dev' tr :
  control__activate E handle enabled dev = (0, dev', tr) ->
  active_drivers dev'
  = Z.lor (active_sensors dev')
      (if Z.testbit (active_sensors dev') ID_O then SENSORS_ACCELERATION else 0)
  /\ active_sensors dev' = new_active_of (active_sensors dev) handle enabled
  /\ (handle = ID_O -> enabled <> 0 ->
      Z.testbit (active_drivers dev') ID_O = true
      /\ Z.testbit (active_drivers dev') ID_A = true)
  /\ (handle = ID_O -> enabled = 0 ->
      Z.testbit (active_drivers dev') ID_O = false
      /\ Z.testbit (active_drivers dev') ID_A = Z.testbit (active_sensors dev) ID_A).
Proof.
  intros Hrun.
  assert (Hh : valid_handle handle).
  { assert (Hdec : valid_handle handle \/ ~ valid_handle handle)
      by (unfold valid_handle; lia).
    destruct Hdec as [|Hn]; [done|].
    rewrite (activate_invalid E handle enabled dev Hn) in Hrun. discriminate. }
  destruct (activate_result E handle enabled dev Hh) as [_ Hcases].
  rewrite Hrun in Hcases. cbn [fst snd] in Hcases.
  destruct Hcases as [[? _]|(_ & Hs & Hd)]; [lia|].
  rewrite Hd, <- Hs, new_enabled_lor.
  split; [done|]. split; [done|].
  split; intros -> He; rewrite !Z.lor_spec, Hs, !new_active_bits by done;
    unfold ID_O, ID_A, SENSORS_ACCELERATION; cbn [Z.eqb Pos.eqb].
  - apply Z.eqb_neq in He. rewrite He. cbn [negb orb]. split; [done|].
    change (Z.testbit (Z.shiftl 1 0) 0) with true. apply orb_true_r.
  - subst enabled. cbn [Z.eqb negb orb]. rewrite !Z.bits_0.
    change (0 <? 32) with true. by rewrite andb_true_r, orb_false_r.
Qed.

Lemma activate_driver_mask_witness :
  let dev' := (control__activate env_ok ID_O 1 control_init).1.2 in
  Z.testbit (active_drivers dev') ID_O = true
  /\ Z.testbit (active_drivers dev') ID_A = true.
Proof.
  cbn zeta.
  set (r := control__activate env_ok ID_O 1 control_init).
  apply (activate_driver_mask env_ok ID_O 1 control_init r.1.2 r.2 eq_refl);
    [reflexivity | discriminate].
Defined.

(** C8, as stated, fails: when the compass node cannot be opened, enabling
    Orientation powers the accelerometer on and fails without committing
    the masks, so the repeated call powers the accelerometer on again. *)
Lemma repeated_enable_after_failure :
  let r1 := control__activate env_akm_down ID_O 1 control_init in
  let r2 := control__activate env_akm_down ID_O 1 r1.1.2 in
  r1.1.1 = -1
  /\ r2.2 = [ SysIoctl 3 KXTF9_IOCTL_SET_ENABLE 1 IoctlOk;
              SysOpen "/dev/akm8973_aot" (-1) ]
  /\ length (List.filter is_enable_command (r1.2 ++ r2.2)) = 2%nat
  /\ ~ second_enable_is_silent env_akm_down ID_O control_init.
Proof.
  cbn zeta. split; [reflexivity|]. split; [reflexivity|]. split; [reflexivity|].
  unfold second_enable_is_silent. cbn zeta. intros [_ H]. vm_compute in H. discriminate.
Qed.

(** C8, amended: when a call enabling a sensor succeeds, it has issued the
    power-on command at most once, and repeating it (whatever the drivers
    would answer) finds the driver mask unchanged, makes no system call
    and leaves the device as it is. *)
Theorem activate_twice E1 E2 handle enabled dev dev1 tr1 :
  enabled <> 0 ->
  control__activate E1 handle enabled dev = (0, dev1, tr1) ->
  changed_of dev1 handle enabled = 0
  /\ control__activate E2 handle enabled dev1 = (0, dev1, [])
  /\ (length (List.filter is_enable_command (tr1 ++ [])) <= 1)%nat.
Proof.
  intros He Hrun.
  assert (Hh : valid_handle handle).
  { assert (Hdec : valid_handle handle \/ ~ valid_handle handle)
      by (unfold valid_handle; lia).
    destruct Hdec as [|Hn]; [done|].
    rewrite (activate_invalid E1 handle enabled dev Hn) in Hrun. discriminate. }
  destruct (activate_result E1 handle enabled dev Hh) as [_ Hcases].
  rewrite Hrun in Hcases. cbn [fst snd] in Hcases.
  destruct Hcases as [[? _]|(_ & Hs & Hd)]; [lia|].
  assert (Hidem : new_active_of (active_sensors dev1) handle enabled = active_sensors dev1).
  { rewrite Hs. apply new_active_idem. unfold valid_handle, SENSORS_HANDLE_BASE in Hh. lia. }
  assert (Hch : changed_of dev1 handle enabled = 0).
  { unfold changed_of. rewrite Hidem, Hd, <- Hs. apply Z.lxor_nilpotent. }
  split; [done|]. split.
  - rewrite (activate_anatomy E2 handle enabled dev1 Hh). cbn zeta.
    rewrite Hch, Hidem. cbn [Z.eqb]. rewrite <- Hs in Hd. rewrite <- Hd.
    by destruct dev1.
  - rewrite app_nil_r.
    pose proof (activate_enables_once E1 handle enabled dev) as Hone.
    by rewrite Hrun in Hone.
Qed.

Lemma activate_twice_witness :
  changed_of (control__activate env_ok ID_O 1 control_init).1.2 ID_O 1 = 0
  /\ control__activate env_akm_down ID_O 1
       (control__activate env_ok ID_O 1 control_init).1.2
     = (0, (control__activate env_ok ID_O 1 control_init).1.2, [])
  /\ (length (List.filter is_enable_command
                ((control__activate env_ok ID_O 1 control_init).2 ++ [])) <= 1)%nat.
Proof.
  set (r := control__activate env_ok ID_O 1 control_init).
  apply (activate_twice env_ok env_akm_down ID_O 1 control_init r.1.2 r.2);
    [discriminate | reflexivity].
Defined.

(** ** Masks walked from their highest bit *)

Section TopBit.

Variable n : Z.
Hypothesis n_pos : 0 < n.

Lemma top_bit_log2 : 31 - Int.clz n = Z.log2 n.
Proof. unfold Int.clz. lia. Qed.

Lemma top_bit_set : Z.testbit n (Z.log2 n) = true.
Proof. by apply Z.bit_log2. Qed.

Lemma top_bit_above j : Z.log2 n < j -> Z.testbit n j = false.
Proof. intros Hj. apply Z.bits_above_log2; lia. Qed.

Lemma clear_top_bits j :
  0 <= j ->
  Z.testbit (Z.land n (Z.lnot (Z.shiftl 1 (Z.log2 n)))) j
  = Z.testbit n j && negb (j =? Z.log2 n).
Proof.
  intros Hj. pose proof (Z.log2_nonneg n).
  by rewrite Z.land_spec, Z.lnot_spec, shiftl_1_bits, (Z.eqb_sym j) by done.
Qed.

Lemma clear_top_range :
  0 <= Z.land n (Z.lnot (Z.shiftl 1 (Z.log2 n))) < 2 ^ Z.log2 n.
Proof.
  set (m := Z.land _ _). pose proof (Z.log2_nonneg n) as Hl.
  assert (Hm : 0 <= m) by (apply Z.land_nonneg; lia).
  split; [done|].
  destruct (Z.eq_dec m 0) as [->|Hne]; [by apply Z.pow_pos_nonneg|].
  apply Z.log2_lt_pow2; [lia|].
  destruct (Z_lt_le_dec (Z.log2 m) (Z.log2 n)) as [|Hge]; [done|].
  assert (Hb : Z.testbit m (Z.log2 m) = true) by (apply Z.bit_log2; lia).
  unfold m in Hb at 1. rewrite clear_top_bits in Hb by apply Z.log2_nonneg.
  apply andb_true_iff in Hb. destruct Hb as [Hb1 Hb2].
  apply negb_true_iff, Z.eqb_neq in Hb2.
  rewrite top_bit_above in Hb1 by lia. done.
Qed.

End TopBit.

(** The position of the highest bit of a mask, from its bits. *)
Lemma log2_of_bits x i :
  0 <= x -> 0 <= i -> Z.testbit x i = true ->
  (forall j, i < j -> Z.testbit x j = false) ->
  Z.log2 x = i.
Proof.
  intros Hx Hi Hb Habove.
  assert (Hpos : 0 < x).
  { destruct (Z.eq_dec x 0) as [->|]; [by rewrite Z.bits_0 in Hb | lia]. }
  destruct (Z.lt_trichotomy (Z.log2 x) i) as [Hlt|[Heq|Hgt]]; [|done|].
  - rewrite Z.bits_above_log2 in Hb by lia. done.
  - pose proof (Z.bit_log2 x Hpos) as Hb'. rewrite Habove in Hb' by done. done.
Qed.

(** ** Arrays of samples *)

Lemma length_store i f a : length (store i f a) = length a.
Proof. apply length_alter. Qed.

Lemma elt_store_eq i f a :
  (Z.to_nat i < length a)%nat -> elt (store i f a) i = f (elt a i).
Proof. intros Hi. unfold elt, store. by apply list_lookup_total_alter_eq. Qed.

Lemma elt_store_ne i j f a :
  0 <= i -> 0 <= j -> i <> j -> elt (store i f a) j = elt a j.
Proof.
  intros Hi Hj Hne. unfold elt, store. apply list_lookup_total_alter_ne. lia.
Qed.

(** ** [pick_sensor] *)

Section Pick.

Variable dev : sensors_data_context_t.
Variable values : sensors_data_t.

Lemma pick_loop_spec fuel : forall mask,
  0 <= mask < 2 ^ Z.of_nat fuel ->
  pick_loop fuel mask dev values = Some (picked dev values mask).
Proof.
  induction fuel as [|fuel IH]; intros mask Hm.
  - assert (mask = 0) as -> by (change (2 ^ Z.of_nat 0) with 1 in Hm; lia).
    cbn [pick_loop Z.eqb]. unfold picked. by rewrite Z.land_0_r.
  - cbn [pick_loop]. destruct (Z.eqb_spec mask 0) as [->|Hne].
    { unfold picked. by rewrite Z.land_0_r. }
    assert (Hpos : 0 < mask) by lia.
    cbn zeta. rewrite (top_bit_log2 mask).
    set (i := Z.log2 mask). pose proof (Z.log2_nonneg mask) as Hi. fold i in Hi.
    assert (Hif : i < Z.of_nat (S fuel)) by (apply Z.log2_lt_pow2; lia).
    rewrite land_bit_eqb, negb_involutive by done.
    destruct (Z.testbit (pendingSensors dev) i) eqn:Hb.
    + unfold picked.
      assert (Hl : Z.log2 (Z.land (pendingSensors dev) mask) = i).
      { apply log2_of_bits; [apply Z.land_nonneg; lia | done | |].
        - rewrite Z.land_spec, Hb. by apply top_bit_set.
        - intros j Hj. rewrite Z.land_spec, (top_bit_above mask Hpos j Hj).
          apply andb_false_r. }
      destruct (Z.eqb_spec (Z.land (pendingSensors dev) mask) 0) as [H0|_].
      { rewrite H0 in Hl. cbn in Hl. subst i.
        assert (Hc : Z.testbit (Z.land (pendingSensors dev) mask) (Z.log2 mask) = true)
          by (rewrite Z.land_spec, Hb; by apply top_bit_set).
        rewrite H0, Z.bits_0 in Hc. done. }
      cbn zeta. by rewrite Hl.
    + rewrite IH.
      * f_equal. unfold picked.
        assert (Heq : Z.land (pendingSensors dev)
                        (Z.land mask (Z.lnot (Z.shiftl 1 i)))
                      = Z.land (pendingSensors dev) mask).
        { apply Z.bits_inj'. intros j Hj.
          rewrite (Z.land_spec _ mask), (Z.land_spec _ (Z.land mask _)).
          unfold i. rewrite clear_top_bits by done.
          destruct (Z.eqb_spec j (Z.log2 mask)) as [->|_].
          - fold i. rewrite Hb. done.
          - by rewrite andb_true_r. }
        by rewrite Heq.
      * pose proof (clear_top_range mask Hpos) as Hr. fold i in Hr.
        split; [lia|]. apply Z.lt_le_trans with (2 ^ i); [lia|].
        apply Z.pow_le_mono_r; lia.
Qed.

Lemma pick_sensor_spec :
  pick_sensor dev values = Some (picked dev values SUPPORTED_SENSORS).
Proof. apply pick_loop_spec. done. Qed.

End Pick.

(** ** The delivery queue *)

Lemma land_supported p : 0 <= p <= SUPPORTED_SENSORS -> Z.land p SUPPORTED_SENSORS = p.
Proof.
  intros Hp. change SUPPORTED_SENSORS with 63 in Hp.
  change SUPPORTED_SENSORS with (Z.ones 6).
  rewrite Z.land_ones by done. apply Z.mod_small. change (2 ^ 6) with 64. lia.
Qed.

Lemma poll_pending dev values input :
  0 <= events_fd dev ->
  0 < pendingSensors dev <= SUPPORTED_SENSORS ->
  data__poll dev values input
  = Some {| ret := Z.log2 (pendingSensors dev);
            ctx := with_pending
                     (Z.land (pendingSensors dev)
                        (Z.lnot (Z.shiftl 1 (Z.log2 (pendingSensors dev))))) dev;
            out := set_sensor (Z.shiftl 1 (Z.log2 (pendingSensors dev)))
                     (elt (sensors dev) (Z.log2 (pendingSensors dev)));
            unread := input |}.
Proof.
  intros Hfd Hp. unfold data__poll. cbn zeta.
  destruct (Z.ltb_spec (events_fd dev) 0); [lia|].
  destruct (Z.eqb_spec (pendingSensors dev) 0); [lia|]. cbn [negb].
  rewrite pick_sensor_spec. unfold picked. cbn zeta.
  rewrite land_supported by lia.
  destruct (Z.eqb_spec (pendingSensors dev) 0); [lia|]. done.
Qed.

Lemma below_pow2_without_top p k :
  0 <= p < 2 ^ Z.of_nat (S k) -> Z.testbit p (Z.of_nat k) = false ->
  p < 2 ^ Z.of_nat k.
Proof.
  intros Hp Hb. destruct (Z.eq_dec p 0) as [->|Hne]; [by apply Z.pow_pos_nonneg; lia|].
  apply Z.log2_lt_pow2; [lia|].
  assert (Z.log2 p < Z.of_nat (S k)) by (apply Z.log2_lt_pow2; lia).
  assert (Z.log2 p <> Z.of_nat k).
  { intros Heq. rewrite <- Heq, Z.bit_log2 in Hb by lia. done. }
  lia.
Qed.

Lemma log2_with_top p k :
  0 <= p < 2 ^ Z.of_nat (S k) -> Z.testbit p (Z.of_nat k) = true ->
  Z.log2 p = Z.of_nat k.
Proof.
  intros Hp Hb. apply log2_of_bits; [lia | lia | done |].
  intros j Hj. destruct (Z.eq_dec p 0) as [->|Hne]; [apply Z.bits_0|].
  apply Z.bits_above_log2; [lia|].
  assert (Z.log2 p < Z.of_nat (S k)) by (apply Z.log2_lt_pow2; lia). lia.
Qed.

Lemma bits_desc_ext k : forall p q,
  (forall j, 0 <= j < Z.of_nat k -> Z.testbit p j = Z.testbit q j) ->
  bits_desc k p = bits_desc k q.
Proof.
  induction k as [|k IH]; intros p q Hpq; [done|].
  cbn [bits_desc]. rewrite (Hpq (Z.of_nat k)) by lia.
  rewrite (IH p q) by (intros j Hj; apply Hpq; lia). done.
Qed.

Lemma bits_desc_sorted k p :
  StronglySorted Z.gt (bits_desc k p)
  /\ Forall (fun i => 0 <= i < Z.of_nat k /\ Z.testbit p i = true) (bits_desc k p).
Proof.
  induction k as [|k [IHs IHf]]; cbn [bits_desc].
  - split; constructor.
  - assert (Hf : Forall (fun i => 0 <= i < Z.of_nat (S k) /\ Z.testbit p i = true)
                   (bits_desc k p)).
    { eapply Forall_impl; [exact IHf|]. cbn beta. intros i [? ?]. split; [lia|done]. }
    destruct (Z.testbit p (Z.of_nat k)) eqn:Hb; [|done].
    split.
    + constructor; [done|]. eapply Forall_impl; [exact IHf|]. cbn beta. lia.
    + constructor; [split; [lia|done] | done].
Qed.

Lemma bits_desc_head k : forall p,
  0 < p < 2 ^ Z.of_nat k -> hd_error (bits_desc k p) = Some (Z.log2 p).
Proof.
  induction k as [|k IH]; intros p Hp.
  - change (2 ^ Z.of_nat 0) with 1 in Hp. lia.
  - cbn [bits_desc]. destruct (Z.testbit p (Z.of_nat k)) eqn:Hb.
    + cbn [hd_error]. rewrite (log2_with_top p k) by (done || lia). done.
    + apply IH. split; [lia|]. apply below_pow2_without_top; [lia | done].
Qed.

Lemma filter_testbit_cons p x l :
  filter (fun i => Is_true (Z.testbit p i)) (x :: l)
  = if Z.testbit p x then x :: filter (fun i => Is_true (Z.testbit p i)) l
    else filter (fun i => Is_true (Z.testbit p i)) l.
Proof.
  rewrite filter_cons. case_decide as Hd;
    [apply Is_true_true in Hd | apply Is_true_false in Hd]; by rewrite Hd.
Qed.

Lemma identities_desc_bits p : identities_desc p = bits_desc 6 p.
Proof.
  unfold identities_desc. rewrite !filter_testbit_cons, filter_nil. reflexivity.
Qed.

Lemma drain_bits k : forall calls dev values input,
  0 <= events_fd dev ->
  0 <= pendingSensors dev < 2 ^ Z.of_nat k ->
  pendingSensors dev <= SUPPORTED_SENSORS ->
  (k <= calls)%nat ->
  drain calls dev values input
  = Some (bits_desc k (pendingSensors dev), with_pending 0 dev).
Proof.
  induction k as [|k IH]; intros calls dev values input Hfd Hp H63 Hk.
  - assert (Hz : pendingSensors dev = 0) by (change (2 ^ Z.of_nat 0) with 1 in Hp; lia).
    destruct calls; cbn [drain]; rewrite Hz; cbn [Z.eqb bits_desc];
      destruct dev; cbn in Hz; subst; done.
  - cbn [bits_desc]. destruct (Z.testbit (pendingSensors dev) (Z.of_nat k)) eqn:Hb.
    + pose proof (log2_with_top _ _ Hp Hb) as Hl.
      assert (Hpos : 0 < pendingSensors dev).
      { destruct (Z.eq_dec (pendingSensors dev) 0) as [H0|]; [|lia].
        rewrite H0, Z.bits_0 in Hb. done. }
      destruct calls as [|calls]; [lia|]. cbn [drain].
      destruct (Z.eqb_spec (pendingSensors dev) 0); [lia|].
      rewrite poll_pending by (done || lia). cbn [ctx out unread ret].
      pose proof (clear_top_range _ Hpos) as Hr.
      pose proof (Z.log2_spec _ Hpos) as Hs.
      rewrite Hl in *.
      rewrite IH; cbn [with_pending events_fd pendingSensors]; try (done || lia).
      f_equal. f_equal.
      f_equal. apply bits_desc_ext. intros j Hj.
      rewrite <- Hl at 1. rewrite clear_top_bits by (done || lia).
      rewrite Hl. destruct (Z.eqb_spec j (Z.of_nat k)); [lia|]. apply andb_true_r.
    + apply IH; try done; [|lia].
      split; [lia|]. by apply below_pow2_without_top.
Qed.

(** C5, as stated, fails on a closed device: [data__poll] tests the
    descriptor before the pending mask, and [data__data_close] keeps the
    mask. After an epoch that touched Acceleration and Light, the first
    call returns Light; with the device then closed, Acceleration is
    still pending, yet the next call returns -1, hands back the buffer as
    it received it and clears no bit. *)
Lemma poll_closed_with_pending :
  let epoch := [raw EV_ABS ABS_X 1000; raw EV_LED LED_MISC 40; raw EV_SYN SYN_REPORT 0] in
  exists r1 r2,
    data__poll data_opened zeroed epoch = Some r1
    /\ ret r1 = ID_L
    /\ pendingSensors (data__data_close (ctx r1)) = SENSORS_ACCELERATION
    /\ pendingSensors (data__data_close (ctx r1)) <> 0
    /\ data__poll (data__data_close (ctx r1)) (out r1) [] = Some r2
    /\ ret r2 = -1
    /\ out r2 = out r1
    /\ pendingSensors (ctx r2) = SENSORS_ACCELERATION.
Proof.
  cbn zeta. eexists _, _.
  split; [vm_compute; reflexivity|]. split; [reflexivity|]. split; [reflexivity|].
  split; [vm_compute; discriminate|].
  split; [vm_compute; reflexivity|]. repeat split.
Qed.

(** C5, amended: with the data device open and a non-empty mask of
    pending sensor identities, [data__poll] returns the highest pending
    identity with its stored sample (tagged with its bit) without reading
    any event, the identity was pending at the call, exactly its bit is
    cleared, and repeated calls return the pending identities from the
    highest to the lowest and leave the mask empty. *)
Theorem poll_picks_highest_pending dev values input :
  0 <= events_fd dev ->
  0 < pendingSensors dev <= SUPPORTED_SENSORS ->
  let p := pendingSensors dev in
  let i := Z.log2 p in
  data__poll dev values input
  = Some {| ret := i;
            ctx := with_pending (Z.land p (Z.lnot (Z.shiftl 1 i))) dev;
            out := set_sensor (Z.shiftl 1 i) (elt (sensors dev) i);
            unread := input |}
  /\ Z.testbit p i = true
  /\ (forall j, i < j -> Z.testbit p j = false)
  /\ (forall j, 0 <= j ->
        Z.testbit (Z.land p (Z.lnot (Z.shiftl 1 i))) j = Z.testbit p j && negb (j =? i))
  /\ drain 6 dev values input = Some (identities_desc p, with_pending 0 dev)
  /\ StronglySorted Z.gt (identities_desc p)
  /\ Forall (fun j => Z.testbit p j = true) (identities_desc p)
  /\ hd_error (identities_desc p) = Some i.
Proof.
  intros Hfd Hp. cbn zeta.
  assert (Hpos : 0 < pendingSensors dev) by lia.
  assert (Hdrain : drain 6 dev values input
                   = Some (identities_desc (pendingSensors dev), with_pending 0 dev)).
  { rewrite identities_desc_bits. apply drain_bits; try (done || lia).
    change SUPPORTED_SENSORS with 63 in Hp. change (2 ^ Z.of_nat 6) with 64. lia. }
  split; [by apply poll_pending|].
  split; [by apply top_bit_set|].
  split; [intros j Hj; by apply top_bit_above|].
  split; [intros j Hj; by apply clear_top_bits|].
  split; [done|].
  destruct (bits_desc_sorted 6 (pendingSensors dev)) as [Hs Hf].
  rewrite identities_desc_bits.
  split; [done|]. split; [eapply Forall_impl; [exact Hf|]; cbn beta; tauto|].
  apply bits_desc_head.
  change SUPPORTED_SENSORS with 63 in Hp. change (2 ^ Z.of_nat 6) with 64. lia.
Qed.

Lemma poll_picks_highest_pending_witness :
  let dev := with_pending 0x16 data_opened in
  data__poll dev zeroed [] 
  = Some {| ret := 4;
            ctx := with_pending 6 dev;
            out := set_sensor 16 (elt (sensors dev) 4);
            unread := [] |}
  /\ drain 6 dev zeroed [] = Some ([4; 2; 1], with_pending 0 dev).
Proof.
  cbn zeta.
  assert (H := poll_picks_highest_pending (with_pending 0x16 data_opened) zeroed []).
  cbn zeta in H. destruct H as (H1 & _ & _ & _ & H2 & _).
  - vm_compute. discriminate.
  - vm_compute. split; [reflexivity | discriminate].
  - split; [exact H1 | exact H2].
Defined.

(** ** The read loop of [data__poll] *)

Lemma with_sensors_same dev : with_sensors (sensors dev) dev = dev.
Proof. by destruct dev. Qed.

Lemma poll_loop_events values rest evs : forall dev ns,
  Forall (fun e => ev_type e <> EV_SYN) evs ->
  poll_loop dev values ns (evs ++ rest)
  = poll_loop (with_sensors (run_events (sensors dev) ns evs).1 dev) values
      (run_events (sensors dev) ns evs).2 rest.
Proof.
  induction evs as [|e evs IH]; intros dev ns Hevs.
  - cbn. by rewrite with_sensors_same.
  - inversion Hevs as [|? ? He Hevs']; subst.
    cbn [app poll_loop]. apply Z.eqb_neq in He. rewrite He.
    unfold run_events. cbn [fold_left fst snd].
    destruct (poll_event (sensors dev) ns e) as [a1 ns1] eqn:Hpe.
    rewrite IH by done. done.
Qed.

Lemma poll_loop_idle_boundary dev values b input :
  is_boundary b -> poll_loop dev values 0 (b :: input) = poll_loop dev values 0 input.
Proof.
  intros [Hty Hcode]. cbn [poll_loop]. rewrite Hty. cbn [Z.eqb negb].
  apply Z.eqb_neq in Hcode. by rewrite Hcode.
Qed.

Lemma stamped_nothing t a : stamped 0 t a = a.
Proof.
  apply list_eq. intros n. unfold stamped. rewrite list_lookup_imap, Z.bits_0.
  by destruct (a !! n).
Qed.

Lemma stamp_loop_spec t fuel : forall ns a,
  0 <= ns < 2 ^ Z.of_nat fuel ->
  stamp_loop fuel ns t a = Some (stamped ns t a).
Proof.
  induction fuel as [|fuel IH]; intros ns a Hns.
  - assert (ns = 0) as -> by (change (2 ^ Z.of_nat 0) with 1 in Hns; lia).
    cbn. by rewrite stamped_nothing.
  - cbn [stamp_loop]. destruct (Z.eqb_spec ns 0) as [->|Hne].
    { by rewrite stamped_nothing. }
    assert (Hpos : 0 < ns) by lia. cbn zeta. rewrite (top_bit_log2 ns).
    pose proof (Z.log2_nonneg ns) as Hi.
    pose proof (clear_top_range ns Hpos) as Hr.
    assert (Hif : Z.log2 ns < Z.of_nat (S fuel)) by (apply Z.log2_lt_pow2; lia).
    rewrite IH.
    2:{ split; [lia|]. apply Z.lt_le_trans with (2 ^ Z.log2 ns); [lia|].
        apply Z.pow_le_mono_r; lia. }
    f_equal. apply list_eq. intros n. unfold stamped, store.
    rewrite !list_lookup_imap, clear_top_bits by (done || lia).
    destruct (decide (n = Z.to_nat (Z.log2 ns))) as [->|Hn].
    + rewrite list_lookup_alter_eq, Z2Nat.id, Z.eqb_refl, andb_false_r by done.
      rewrite top_bit_set by done. by destruct (a !! _).
    + rewrite list_lookup_alter_ne by done.
      destruct (Z.eqb_spec (Z.of_nat n) (Z.log2 ns)); [lia|]. by rewrite andb_true_r.
Qed.

Lemma length_stamped ns t a : length (stamped ns t a) = length a.
Proof. unfold stamped. apply length_imap. Qed.

Lemma elt_stamped ns t a i :
  0 <= i -> (Z.to_nat i < length a)%nat ->
  elt (stamped ns t a) i = if Z.testbit ns i then set_time t (elt a i) else elt a i.
Proof.
  intros Hi Hlen. unfold elt, stamped.
  destruct (lookup_lt_is_Some_2 a (Z.to_nat i) Hlen) as [s Hs].
  rewrite (list_lookup_total_correct a _ _ Hs).
  apply list_lookup_total_correct. rewrite list_lookup_imap, Hs, Z2Nat.id by done. done.
Qed.

Lemma poll_loop_boundary dev values ns b input :
  is_boundary b -> 0 < ns < 2 ^ 32 ->
  let dev1 := with_sensors (stamped ns (timestamp b) (sensors dev)) (with_pending ns dev) in
  let r := picked dev1 values SUPPORTED_SENSORS in
  poll_loop dev values ns (b :: input)
  = Some {| ret := r.1.1; ctx := r.1.2; out := r.2; unread := input |}.
Proof.
  intros [Hty Hcode] Hns. cbn zeta. cbn [poll_loop]. rewrite Hty. cbn [Z.eqb].
  apply Z.eqb_neq in Hcode. rewrite Hcode.
  destruct (Z.eqb_spec ns 0); [lia|]. cbn [negb].
  rewrite (stamp_loop_spec _ Int.WIDTH) by (change (Z.of_nat Int.WIDTH) with 32; lia).
  rewrite pick_sensor_spec. by destruct (picked _ _ _) as [[? ?] ?].
Qed.

Lemma poll_loop_config dev values ns e input :
  ev_type e = EV_SYN -> ev_code e = SYN_CONFIG ->
  poll_loop dev values ns (e :: input)
  = Some {| ret := 0x7FFFFFFF; ctx := dev; out := values; unread := input |}.
Proof. intros Hty Hcode. cbn [poll_loop]. by rewrite Hty, Hcode. Qed.

Lemma poll_loop_event dev values ns e input :
  ev_type e <> EV_SYN ->
  poll_loop dev values ns (e :: input)
  = poll_loop (with_sensors (poll_event (sensors dev) ns e).1 dev) values
      (poll_event (sensors dev) ns e).2 input.
Proof.
  intros Hty. cbn [poll_loop]. apply Z.eqb_neq in Hty. rewrite Hty.
  by destruct (poll_event (sensors dev) ns e).
Qed.

Lemma poll_loop_skips_boundary dev values ns b input :
  is_boundary b -> ns = 0 ->
  poll_loop dev values ns (b :: input) = poll_loop dev values ns input.
Proof. intros Hb ->. by apply poll_loop_idle_boundary. Qed.

(** ** One event of the read loop *)

Lemma elt_store i j f a :
  0 <= i -> 0 <= j -> (Z.to_nat i < length a)%nat ->
  elt (store i f a) j = if i =? j then f (elt a j) else elt a j.
Proof.
  intros Hi Hj Hlen. destruct (Z.eqb_spec i j) as [->|Hne].
  - by apply elt_store_eq.
  - by apply elt_store_ne.
Qed.

(** Decides the comparisons of the goal: by computation between
    constants, by the hypotheses otherwise. *)
Ltac decide_eqb :=
  repeat match goal with
    | |- context [?a =? ?b] =>
        let v := eval vm_compute in (a =? b) in
        lazymatch v with
        | true => change (a =? b) with true
        | false => change (a =? b) with false
        end
    | H : ?a <> ?b |- context [?a =? ?b] => rewrite (proj2 (Z.eqb_neq a b) H)
    | H : ?a = ?b |- context [?a =? ?b] => rewrite (proj2 (Z.eqb_eq a b) H)
    | H : ?a <> _ |- context [?a =? ?b] => rewrite (proj2 (Z.eqb_neq a b) H)
    end.

Ltac event_cases e :=
  destruct e as [sec usec ty code val];
  unfold poll_event, poll_abs; cbn [ev_type ev_code ev_value]; cbn zeta;
  repeat match goal with
    | |- context [if ?x =? ?c then _ else _] =>
        destruct (Z.eqb_spec x c); [subst|]
    end.

Section PollEvent.

Variable a : list sensors_data_t.
Hypothesis a_length : length a = Z.to_nat MAX_NUM_SENSORS.
Variable ns : Z.

Ltac in_array :=
  rewrite ?a_length;
  unfold ID_A, ID_M, ID_O, ID_T, ID_P, ID_L, MAX_NUM_SENSORS; lia.

Lemma poll_event_length e : length (poll_event a ns e).1 = length a.
Proof.
  event_cases e; try destruct (F32.leb _ _); cbn [fst]; rewrite ?length_store; done.
Qed.

Lemma poll_event_field e f :
  field_get f (elt (poll_event a ns e).1 (field_sensor f))
  = if writes f e then convert f (ev_value e)
    else field_get f (elt a (field_sensor f)).
Proof.
  event_cases e; try destruct (F32.leb _ _) eqn:Hleb; cbn [fst];
    destruct f; unfold writes;
    cbn [field_type field_code field_sensor field_get convert ev_type ev_code ev_value];
    rewrite ?elt_store by in_array;
    decide_eqb; cbn [andb]; rewrite ?Hleb; done.
Qed.

Lemma poll_event_touches e i :
  0 <= i -> Z.testbit (poll_event a ns e).2 i = Z.testbit ns i || touches i e.
Proof.
  intros Hi.
  event_cases e; try destruct (F32.leb _ _); cbn [snd];
    unfold touches, all_fields, writes;
    cbn [existsb field_type field_code field_sensor ev_type ev_code ev_value];
    rewrite ?Z.lor_spec;
    unfold SENSORS_ACCELERATION, SENSORS_MAGNETIC_FIELD, SENSORS_ORIENTATION,
      SENSORS_TEMPERATURE, SENSORS_PROXIMITY, SENSORS_LIGHT;
    rewrite ?shiftl_1_bits by done;
    decide_eqb; cbn [andb orb];
    rewrite ?andb_false_r, ?andb_true_r, ?orb_false_r; done.
Qed.

Lemma poll_event_range e : 0 <= ns < 64 -> 0 <= (poll_event a ns e).2 < 64.
Proof.
  clear a_length. intros Hns.
  assert (Hlor : forall c, 0 <= c < 64 -> 0 <= Z.lor ns c < 64).
  { intros c Hc. split; [apply Z.lor_nonneg; lia|].
    destruct (Z.eq_dec (Z.lor ns c) 0) as [->|Hne]; [done|].
    assert (0 <= Z.lor ns c) by (apply Z.lor_nonneg; lia).
    change 64 with (2 ^ 6). apply Z.log2_lt_pow2; [lia|].
    rewrite Z.log2_lor by lia.
    assert (Hb : forall x, 0 <= x < 64 -> Z.log2 x < 6).
    { intros x Hx. destruct (Z.eq_dec x 0) as [->|]; [done|].
      apply Z.log2_lt_pow2; [lia|]. change (2 ^ 6) with 64. lia. }
    pose proof (Hb ns Hns). pose proof (Hb c Hc). lia. }
  event_cases e; try destruct (F32.leb _ _); cbn [snd]; try done;
    apply Hlor; done.
Qed.

End PollEvent.

(** A store that keeps a member of the samples keeps it in the array. *)
Lemma elt_store_keeps {B} (g : sensors_data_t -> B) i j f a :
  (forall s, g (f s) = g s) -> g (elt (store i f a) j) = g (elt a j).
Proof.
  intros Hg. unfold elt, store. rewrite list_lookup_total_alter.
  case_decide as Hd; [|done]. destruct Hd as [-> _]. apply Hg.
Qed.

Lemma poll_event_time a ns e i : time (elt (poll_event a ns e).1 i) = time (elt a i).
Proof.
  event_cases e; try destruct (F32.leb _ _); cbn [fst];
    rewrite ?(elt_store_keeps time) by done; done.
Qed.

Lemma poll_event_status a ns e i :
  ~ is_orient_status e ->
  vec_status (elt (poll_event a ns e).1 i) = vec_status (elt a i).
Proof.
  unfold is_orient_status. intros Hns.
  event_cases e; try destruct (F32.leb _ _); cbn [fst];
    rewrite ?(elt_store_keeps vec_status) by done; try done.
  exfalso. apply Hns. done.
Qed.

(** ** A run of events *)

Lemma run_events_cons a ns e evs :
  run_events a ns (e :: evs)
  = run_events (poll_event a ns e).1 (poll_event a ns e).2 evs.
Proof. unfold run_events. cbn [fold_left fst snd]. by destruct (poll_event a ns e). Qed.

Lemma run_events_length evs : forall a ns,
  length (run_events a ns evs).1 = length a.
Proof.
  induction evs as [|e evs IH]; intros a ns; [done|].
  rewrite run_events_cons, IH. apply poll_event_length.
Qed.

Lemma run_events_field f evs : forall a ns,
  length a = Z.to_nat MAX_NUM_SENSORS ->
  field_get f (elt (run_events a ns evs).1 (field_sensor f))
  = match last_write f evs with
    | Some v => convert f v
    | None => field_get f (elt a (field_sensor f))
    end.
Proof.
  induction evs as [|e evs IH]; intros a ns Hlen; [done|].
  rewrite run_events_cons, IH by (by rewrite poll_event_length).
  cbn [last_write]. destruct (last_write f evs); [done|].
  rewrite poll_event_field by done. by destruct (writes f e).
Qed.

Lemma run_events_time evs i : forall a ns,
  time (elt (run_events a ns evs).1 i) = time (elt a i).
Proof.
  induction evs as [|e evs IH]; intros a ns; [done|].
  rewrite run_events_cons, IH. apply poll_event_time.
Qed.

Lemma run_events_status evs i : forall a ns,
  Forall (fun e => ~ is_orient_status e) evs ->
  vec_status (elt (run_events a ns evs).1 i) = vec_status (elt a i).
Proof.
  induction evs as [|e evs IH]; intros a ns Hevs; [done|].
  inversion Hevs; subst.
  rewrite run_events_cons, IH by done. by apply poll_event_status.
Qed.

Lemma run_events_touched evs i : forall a ns,
  0 <= i ->
  Z.testbit (run_events a ns evs).2 i = Z.testbit ns i || touched i evs.
Proof.
  induction evs as [|e evs IH]; intros a ns Hi.
  - cbn. by rewrite orb_false_r.
  - rewrite run_events_cons, IH, poll_event_touches by done.
    cbn [touched existsb]. by rewrite orb_assoc.
Qed.

Lemma run_events_range evs : forall a ns,
  0 <= ns < 64 -> 0 <= (run_events a ns evs).2 < 64.
Proof.
  induction evs as [|e evs IH]; intros a ns Hns; [done|].
  rewrite run_events_cons. apply IH. by apply poll_event_range.
Qed.

Lemma touched_in_range i evs : touched i evs = true -> 0 <= i < MAX_NUM_SENSORS.
Proof.
  unfold touched. intros H. apply existsb_exists in H. destruct H as (e & _ & He).
  unfold touches in He. apply existsb_exists in He. destruct He as (f & _ & Hf).
  apply andb_true_iff in Hf. destruct Hf as [Hf _]. apply Z.eqb_eq in Hf. subst i.
  by destruct f.
Qed.

(** ** Two's complement values in range *)

Lemma int32_small x : - 2 ^ 31 <= x < 2 ^ 31 -> Int.int32 x = x.
Proof.
  intros Hx. unfold Int.int32, Int.signed. cbn zeta.
  change (2 ^ (32 - 1)) with (2 ^ 31). 
  destruct (Z_lt_le_dec x 0).
  - replace (x mod 2 ^ 32) with (x + 2 ^ 32)
      by (apply Z.mod_unique with (q := -1); lia).
    destruct (Z.ltb_spec (x + 2 ^ 32) (2 ^ 31)); lia.
  - rewrite Z.mod_small by lia. destruct (Z.ltb_spec x (2 ^ 31)); lia.
Qed.

Lemma int64_small x : - 2 ^ 63 <= x < 2 ^ 63 -> Int.int64 x = x.
Proof.
  intros Hx. unfold Int.int64, Int.signed. cbn zeta.
  change (2 ^ (64 - 1)) with (2 ^ 63).
  destruct (Z_lt_le_dec x 0).
  - replace (x mod 2 ^ 64) with (x + 2 ^ 64)
      by (apply Z.mod_unique with (q := -1); lia).
    destruct (Z.ltb_spec (x + 2 ^ 64) (2 ^ 63)); lia.
  - rewrite Z.mod_small by lia. destruct (Z.ltb_spec x (2 ^ 63)); lia.
Qed.

Lemma timestamp_exact e :
  - 2 ^ 31 <= tv_sec e < 2 ^ 31 -> 0 <= tv_usec e < 1000000 ->
  timestamp e = tv_sec e * 1000000000 + tv_usec e * 1000.
Proof.
  intros Hs Hu. unfold timestamp.
  rewrite int32_small by lia. apply int64_small. lia.
Qed.

(** ** Claims on [data__poll] *)

(** The call that reads an epoch: events that are not [EV_SYN], then a
    boundary, with some sensor touched. *)
Lemma poll_epoch_result dev values evs b input i0 :
  0 <= events_fd dev -> pendingSensors dev = 0 ->
  Forall (fun e => ev_type e <> EV_SYN) evs ->
  is_boundary b ->
  touched i0 evs = true ->
  let st := run_events (sensors dev) 0 evs in
  let i := Z.log2 st.2 in
  let a := stamped st.2 (timestamp b) st.1 in
  data__poll dev values (evs ++ b :: input)
  = Some {| ret := i;
            ctx := {| events_fd := events_fd dev; sensors := a;
                      pendingSensors := Z.land st.2 (Z.lnot (Z.shiftl 1 i)) |};
            out := set_sensor (Z.shiftl 1 i) (elt a i);
            unread := input |}
  /\ 0 < st.2 < 64
  /\ (forall j, 0 <= j -> Z.testbit st.2 j = touched j evs).
Proof.
  intros Hfd Hp Hevs Hb Ht0. cbn zeta.
  set (st := run_events (sensors dev) 0 evs).
  assert (Hrange : 0 <= st.2 < 64) by (apply run_events_range; lia).
  assert (Hbits : forall j, 0 <= j -> Z.testbit st.2 j = touched j evs).
  { intros j Hj. unfold st. by rewrite run_events_touched, Z.bits_0. }
  assert (Hpos : 0 < st.2).
  { destruct (Z.eq_dec st.2 0) as [H0|]; [|lia].
    pose proof (touched_in_range _ _ Ht0) as Hi0.
    rewrite <- Hbits, H0, Z.bits_0 in Ht0 by lia. done. }
  split; [|split; [lia | done]].
  unfold data__poll. cbn zeta.
  destruct (Z.ltb_spec (events_fd dev) 0); [lia|].
  rewrite Hp. cbn [Z.eqb negb].
  rewrite poll_loop_events by done. fold st.
  rewrite poll_loop_boundary by (done || lia).
  unfold picked. cbn [pendingSensors with_sensors with_pending sensors events_fd].
  rewrite land_supported by (change SUPPORTED_SENSORS with 63; lia).
  destruct (Z.eqb_spec st.2 0); [lia|]. done.
Qed.

(** ** Accuracy events *)

Lemma status_byte_code value :
  Int.int8 (Int.u8 (Int.u32 (Z.land value SENSOR_STATE_MASK))) = status_byte value.
Proof.
  unfold status_byte, Int.u8, Int.u32, SENSOR_STATE_MASK. f_equal.
  assert (Hm : 0 <= Z.land value 0x7FFF < 2 ^ 15).
  { change 0x7FFF with (Z.ones 15). rewrite Z.land_ones by done.
    apply Z.mod_pos_bound. done. }
  rewrite (Z.mod_small _ (2 ^ 32)) by lia.
  change 0xFF with (Z.ones 8). by rewrite Z.land_ones.
Qed.

Lemma poll_event_orient_status a ns e :
  is_orient_status e ->
  poll_event a ns e = (store ID_O (set_status (status_byte (ev_value e))) a, ns).
Proof.
  intros [Hty Hcode]. unfold poll_event, poll_abs. rewrite Hty, Hcode.
  cbn zeta. decide_eqb. cbn iota. by rewrite status_byte_code.
Qed.

Lemma orient_status_not_syn e : is_orient_status e -> ev_type e <> EV_SYN.
Proof. intros [Hty _]. rewrite Hty. done. Qed.

Lemma orient_status_touches_nothing i e : is_orient_status e -> touches i e = false.
Proof.
  intros [Hty Hcode]. unfold touches, all_fields, writes. rewrite Hty, Hcode.
  cbn [existsb field_type field_code]. decide_eqb.
  by rewrite ?andb_false_r.
Qed.

Lemma status_run_mask evs : forall a ns,
  Forall is_orient_status evs -> (run_events a ns evs).2 = ns.
Proof.
  induction evs as [|e evs IH]; intros a ns Hevs; [done|].
  inversion Hevs; subst.
  rewrite run_events_cons, IH by done. by rewrite poll_event_orient_status.
Qed.

Lemma status_run_untouched evs i :
  Forall is_orient_status evs -> touched i evs = false.
Proof.
  induction 1 as [|e evs He _ IH]; [done|].
  cbn [touched existsb]. rewrite orient_status_touches_nothing by done. exact IH.
Qed.

Lemma status_run_keeps {B} (g : sensors_data_t -> B) evs :
  (forall v s, g (set_status v s) = g s) ->
  forall a ns i,
    Forall is_orient_status evs ->
    g (elt (run_events a ns evs).1 i) = g (elt a i).
Proof.
  intros Hg. induction evs as [|e evs IH]; intros a ns i Hevs; [done|].
  inversion Hevs; subst.
  rewrite run_events_cons, IH, poll_event_orient_status by done.
  cbn [fst]. by apply elt_store_keeps.
Qed.

Lemma status_run_others evs : forall a ns i,
  Forall is_orient_status evs ->
  0 <= i -> i <> ID_O -> elt (run_events a ns evs).1 i = elt a i.
Proof.
  induction evs as [|e evs IH]; intros a ns i Hevs Hi Hne; [done|].
  inversion Hevs; subst.
  rewrite run_events_cons, IH, poll_event_orient_status by done.
  cbn [fst]. by apply elt_store_ne.
Qed.

Lemma status_run_status evs : forall a ns,
  Forall is_orient_status evs ->
  length a = Z.to_nat MAX_NUM_SENSORS ->
  vec_status (elt (run_events a ns evs).1 ID_O)
  = last_status (vec_status (elt a ID_O)) evs.
Proof.
  induction evs as [|e evs IH]; intros a ns Hevs Hlen; [done|].
  inversion Hevs; subst.
  rewrite run_events_cons, IH by (done || by rewrite poll_event_length).
  rewrite poll_event_orient_status by done. cbn [fst last_status fold_left].
  rewrite elt_store_eq by (rewrite Hlen; unfold ID_O, MAX_NUM_SENSORS; lia).
  done.
Qed.

(** C9: an [EVENT_TYPE_ORIENT_STATUS] event stores the value, masked to 15
    bits and cut to 8 bits, in the accuracy byte of the orientation sample
    and does nothing else: [new_sensors] is unchanged and so is every
    other member of every sample. An epoch made of such events only does
    not end the call at its boundary: nothing becomes pending and the call
    goes on reading (and fails with -1 when there is nothing more to
    read). *)
Theorem orient_status_only dev values evs b input :
  0 <= events_fd dev -> pendingSensors dev = 0 ->
  length (sensors dev) = Z.to_nat MAX_NUM_SENSORS ->
  Forall is_orient_status evs ->
  is_boundary b ->
  let st := run_events (sensors dev) 0 evs in
  (forall e a ns, is_orient_status e ->
     poll_event a ns e = (store ID_O (set_status (status_byte (ev_value e))) a, ns))
  /\ st.2 = 0
  /\ (forall i, touched i evs = false)
  /\ vec_status (elt st.1 ID_O) = last_status (vec_status (elt (sensors dev) ID_O)) evs
  /\ (forall i, sensor (elt st.1 i) = sensor (elt (sensors dev) i)
             /\ vec_x (elt st.1 i) = vec_x (elt (sensors dev) i)
             /\ vec_y (elt st.1 i) = vec_y (elt (sensors dev) i)
             /\ vec_z (elt st.1 i) = vec_z (elt (sensors dev) i)
             /\ time (elt st.1 i) = time (elt (sensors dev) i))
  /\ (forall i, 0 <= i -> i <> ID_O -> elt st.1 i = elt (sensors dev) i)
  /\ data__poll dev values (evs ++ b :: input)
     = data__poll (with_sensors st.1 dev) values input
  /\ pendingSensors (with_sensors st.1 dev) = 0
  /\ data__poll dev values (evs ++ [b])
     = Some {| ret := -1; ctx := with_sensors st.1 dev; out := values; unread := [] |}.
Proof.
  intros Hfd Hp Hlen Hevs Hb. cbn zeta.
  set (st := run_events (sensors dev) 0 evs).
  assert (Hns : st.2 = 0) by (by apply status_run_mask).
  assert (Hsyn : Forall (fun e => ev_type e <> EV_SYN) evs).
  { eapply Forall_impl; [exact Hevs|]. apply orient_status_not_syn. }
  assert (Hgo : forall rest,
            data__poll dev values (evs ++ b :: rest)
            = poll_loop (with_sensors st.1 dev) values 0 rest).
  { intros rest. unfold data__poll. cbn zeta.
    destruct (Z.ltb_spec (events_fd dev) 0); [lia|].
    rewrite Hp. cbn [Z.eqb negb].
    rewrite poll_loop_events by done. fold st. rewrite Hns.
    by apply poll_loop_idle_boundary. }
  split; [intros e a ns He; by apply poll_event_orient_status|].
  split; [done|].
  split; [intros i; by apply status_run_untouched|].
  split; [by apply status_run_status|].
  split; [intros i; repeat split; by apply status_run_keeps|].
  split; [intros i Hi Hne; by apply status_run_others|].
  split; [|split; [done|]].
  - rewrite Hgo. unfold data__poll. cbn zeta.
    cbn [events_fd pendingSensors with_sensors].
    destruct (Z.ltb_spec (events_fd dev) 0); [lia|].
    rewrite Hp. done.
  - rewrite Hgo. done.
Qed.

Lemma orient_status_only_witness :
  data__poll data_opened zeroed
    ([raw EV_ABS EVENT_TYPE_ORIENT_STATUS 0x7F81] ++ [raw EV_SYN SYN_REPORT 0])
  = Some {| ret := -1;
            ctx := with_sensors
                     (run_events (sensors data_opened) 0
                        [raw EV_ABS EVENT_TYPE_ORIENT_STATUS 0x7F81]).1 data_opened;
            out := zeroed; unread := [] |}
  /\ vec_status
       (elt (run_events (sensors data_opened) 0
               [raw EV_ABS EVENT_TYPE_ORIENT_STATUS 0x7F81]).1 ID_O) = -127.
Proof.
  destruct (orient_status_only data_opened zeroed
              [raw EV_ABS EVENT_TYPE_ORIENT_STATUS 0x7F81]
              (raw EV_SYN SYN_REPORT 0) [])
    as (_ & _ & _ & Hst & _ & _ & _ & _ & Hrun).
  - vm_compute. discriminate.
  - reflexivity.
  - reflexivity.
  - repeat constructor.
  - split; [reflexivity | vm_compute; discriminate].
  - split; [exact Hrun|]. rewrite Hst. reflexivity.
Defined.

(** ** [data__poll] returns *)

Lemma picked_range dev values :
  0 <= pendingSensors dev < 64 ->
  0 <= pendingSensors (picked dev values SUPPORTED_SENSORS).1.2 < 64.
Proof.
  intros Hp. unfold picked. cbn zeta.
  rewrite land_supported by (change SUPPORTED_SENSORS with 63; lia).
  destruct (Z.eqb_spec (pendingSensors dev) 0) as [Hz|Hne]; cbn [fst snd]; [done|].
  cbn [pendingSensors with_pending].
  assert (Hpos : 0 < pendingSensors dev) by lia.
  pose proof (clear_top_range _ Hpos). pose proof (Z.log2_spec _ Hpos). lia.
Qed.

(** The read loop ends with a result on every finite input, and leaves a
    mask of supported sensors pending. *)
Lemma poll_loop_total values input : forall dev ns,
  0 <= ns < 64 -> 0 <= pendingSensors dev < 64 ->
  exists r, poll_loop dev values ns input = Some r
            /\ 0 <= pendingSensors (ctx r) < 64.
Proof.
  induction input as [|e input IH]; intros dev ns Hns Hp.
  - eexists. split; [reflexivity | done].
  - destruct (Z.eq_dec (ev_type e) EV_SYN) as [Hty|Hty].
    + destruct (Z.eq_dec (ev_code e) SYN_CONFIG) as [Hc|Hc].
      { rewrite poll_loop_config by done. eexists. split; [reflexivity | done]. }
      destruct (Z.eq_dec ns 0) as [Hz|Hne].
      { rewrite poll_loop_skips_boundary by done. by apply IH. }
      rewrite poll_loop_boundary by (done || lia).
      eexists. split; [reflexivity|]. cbn [ctx]. apply picked_range.
      cbn [pendingSensors with_sensors with_pending]. done.
    + rewrite poll_loop_event by done. apply IH; [|done].
      by apply poll_event_range.
Qed.

Lemma data__poll_total dev values input :
  0 <= pendingSensors dev < 64 ->
  exists r, data__poll dev values input = Some r
            /\ 0 <= pendingSensors (ctx r) < 64.
Proof.
  intros Hp. unfold data__poll. cbn zeta.
  destruct (events_fd dev <? 0); [eexists; split; [reflexivity | done]|].
  destruct (Z.eqb_spec (pendingSensors dev) 0) as [Hz|Hne]; cbn [negb].
  - apply poll_loop_total; lia.
  - rewrite pick_sensor_spec.
    pose proof (picked_range dev values Hp) as Hr.
    destruct (picked dev values SUPPORTED_SENSORS) as [[i d] v].
    eexists. split; [reflexivity | exact Hr].
Qed.

(** The flush loop of the replication thread ends on every mask. *)
Lemma flush_loop_total active a fuel : forall ns,
  0 <= ns < 2 ^ Z.of_nat fuel ->
  exists written, flush_loop fuel ns active a = Some written.
Proof.
  induction fuel as [|fuel IH]; intros ns Hns.
  - assert (ns = 0) as -> by (change (2 ^ Z.of_nat 0) with 1 in Hns; lia).
    by eexists.
  - cbn [flush_loop]. destruct (Z.eqb_spec ns 0) as [->|Hne]; [by eexists|].
    assert (Hpos : 0 < ns) by lia. cbn zeta. rewrite (top_bit_log2 ns).
    pose proof (clear_top_range ns Hpos) as Hr.
    pose proof (Z.log2_nonneg ns) as Hi.
    assert (Hif : Z.log2 ns < Z.of_nat (S fuel)) by (apply Z.log2_lt_pow2; lia).
    destruct (IH (Z.land ns (Z.lnot (Z.shiftl 1 (Z.log2 ns))))) as [w Hw].
    { split; [lia|]. apply Z.lt_le_trans with (2 ^ Z.log2 ns); [lia|].
      apply Z.pow_le_mono_r; lia. }
    rewrite Hw. by eexists.
Qed.

(** ** Opening the data device *)

Lemma elt_stamped_keeps {B} (g : sensors_data_t -> B) ns t a i :
  (forall s, g (set_time t s) = g s) -> g (elt (stamped ns t a) i) = g (elt a i).
Proof.
  intros Hg. unfold elt, stamped.
  rewrite !list_lookup_total_alt, list_lookup_imap.
  destruct (a !! Z.to_nat i); cbn; [|done]. by destruct (Z.testbit _ _).
Qed.

(** A sample delivered by the read loop has the accuracy byte that every
    stored sample had when no status event was read. *)
Lemma poll_loop_keeps_status s values input : forall dev ns r,
  Forall (fun e => ~ is_orient_status e) input ->
  (forall i, 0 <= i < MAX_NUM_SENSORS -> vec_status (elt (sensors dev) i) = s) ->
  0 <= ns < 64 ->
  poll_loop dev values ns input = Some r ->
  0 <= ret r < MAX_NUM_SENSORS ->
  vec_status (out r) = s.
Proof.
  induction input as [|e input IH]; intros dev ns r Hin Hs Hns Hrun Hret.
  - injection Hrun as <-. cbn [ret] in Hret. lia.
  - inversion Hin as [|? ? He Hin']; subst.
    destruct (Z.eq_dec (ev_type e) EV_SYN) as [Hty|Hty].
    + destruct (Z.eq_dec (ev_code e) SYN_CONFIG) as [Hc|Hc].
      { rewrite poll_loop_config in Hrun by done. injection Hrun as <-.
        cbn [ret] in Hret. unfold MAX_NUM_SENSORS in Hret. lia. }
      destruct (Z.eq_dec ns 0) as [Hz|Hne].
      { rewrite poll_loop_skips_boundary in Hrun by done. by apply (IH dev ns r). }
      rewrite poll_loop_boundary in Hrun by (done || lia).
      injection Hrun as <-. cbn [ret out] in *.
      unfold picked in *.
      destruct (_ =? 0); cbn [fst snd] in *; [lia|].
      cbn [vec_status set_sensor sensors with_sensors].
      rewrite (elt_stamped_keeps vec_status) by done. by apply Hs.
    + rewrite poll_loop_event in Hrun by done.
      apply (IH _ _ r) in Hrun; try done.
      * intros i Hi. cbn [sensors with_sensors]. rewrite poll_event_status by done.
        by apply Hs.
      * by apply poll_event_range.
Qed.

Lemma data_open_samples dev dupfd :
  sensors (data__data_open dev dupfd)
  = replicate (Z.to_nat MAX_NUM_SENSORS) (set_status SENSOR_STATUS_ACCURACY_HIGH zeroed).
Proof. reflexivity. Qed.

(** C10: [data__data_open] leaves every sample zeroed with the accuracy
    byte [SENSOR_STATUS_ACCURACY_HIGH] and no sensor pending, whatever the
    device held before. The first call of [data__poll] after it does not
    depend on what the device held before the opening, and a sample it
    delivers when no status event was read reports high accuracy. *)
Theorem data_open_resets dev dupfd :
  let dev' := data__data_open dev dupfd in
  sensors dev'
  = replicate (Z.to_nat MAX_NUM_SENSORS)
      {| sensor := 0; vec_x := F32.zero; vec_y := F32.zero; vec_z := F32.zero;
         vec_status := SENSOR_STATUS_ACCURACY_HIGH; time := 0 |}
  /\ pendingSensors dev' = 0
  /\ events_fd dev' = dupfd
  /\ (forall i, 0 <= i < MAX_NUM_SENSORS ->
        elt (sensors dev') i
        = {| sensor := 0; vec_x := F32.zero; vec_y := F32.zero; vec_z := F32.zero;
             vec_status := SENSOR_STATUS_ACCURACY_HIGH; time := 0 |})
  /\ (forall dev2 values input,
        data__poll (data__data_open dev2 dupfd) values input
        = data__poll dev' values input)
  /\ (forall values input r,
        Forall (fun e => ~ is_orient_status e) input ->
        data__poll dev' values input = Some r ->
        0 <= ret r < MAX_NUM_SENSORS ->
        vec_status (out r) = SENSOR_STATUS_ACCURACY_HIGH).
Proof.
  cbn zeta.
  assert (Hst : forall i, 0 <= i < MAX_NUM_SENSORS ->
            elt (sensors (data__data_open dev dupfd)) i
            = set_status SENSOR_STATUS_ACCURACY_HIGH zeroed).
  { intros i Hi. rewrite data_open_samples. unfold elt.
    apply lookup_total_replicate_2. lia. }
  split; [reflexivity|]. split; [reflexivity|]. split; [reflexivity|].
  split; [exact Hst|]. split; [reflexivity|].
  intros values input r Hin Hrun Hret.
  unfold data__poll in Hrun. cbn zeta in Hrun.
  change (pendingSensors (data__data_open dev dupfd)) with 0 in Hrun.
  cbn [Z.eqb negb] in Hrun.
  destruct (_ <? 0).
  - simplify_eq. cbn in Hret. lia.
  - apply (poll_loop_keeps_status SENSOR_STATUS_ACCURACY_HIGH values input
             (data__data_open dev dupfd) 0 r); try done.
    intros i Hi. by rewrite Hst.
Qed.

(** ** Rounding to binary32 *)

Lemma digits2_log2 p : Z.pos (digits2_pos p) = Z.log2 (Z.pos p) + 1.
Proof.
  assert (Hsize : forall q, digits2_pos q = Pos.size q).
  { induction q as [q IH|q IH|]; cbn [digits2_pos Pos.size]; by rewrite ?IH. }
  rewrite Hsize. destruct p as [p|p|]; cbn [Z.log2 Pos.size]; lia.
Qed.

Lemma Zdigits2_log2 m : 0 < m -> Zdigits2 m = Z.log2 m + 1.
Proof. destruct m as [|p|p]; [lia | intros _; apply digits2_log2 | lia]. Qed.

Lemma digits2_iter_xO m d :
  Z.pos (digits2_pos (Pos.iter xO m d)) = Z.pos (digits2_pos m) + Z.pos d.
Proof.
  induction d as [|d IH] using Pos.peano_ind.
  - cbn [Pos.iter digits2_pos]. lia.
  - rewrite Pos.iter_succ. cbn [digits2_pos]. lia.
Qed.

Lemma shr_1_m mrs : 0 <= shr_m mrs -> shr_m (shr_1 mrs) = Z.shiftr (shr_m mrs) 1.
Proof.
  destruct mrs as [m r st]. cbn [shr_m]. intros Hm. rewrite Z.shiftr_div_pow2 by done.
  change (2 ^ 1) with 2.
  destruct m as [|[p|p|]|p]; cbn [shr_1 shr_m]; try lia.
  - reflexivity.
  - apply Z.div_unique with (r := 1); lia.
  - apply Z.div_unique with (r := 0); lia.
  - reflexivity.
Qed.

Lemma iter_shr_1_m p : forall mrs,
  0 <= shr_m mrs ->
  shr_m (SpecFloat.iter_pos shr_1 p mrs) = Z.shiftr (shr_m mrs) (Z.pos p).
Proof.
  induction p as [p IH|p IH|]; intros mrs Hm; cbn [SpecFloat.iter_pos].
  - assert (H1 : 0 <= shr_m (shr_1 mrs)) by (rewrite shr_1_m by done; by apply Z.shiftr_nonneg).
    assert (H2 : 0 <= shr_m (SpecFloat.iter_pos shr_1 p (shr_1 mrs)))
      by (rewrite IH by done; by apply Z.shiftr_nonneg).
    rewrite IH, IH, shr_1_m, !Z.shiftr_shiftr by lia. f_equal. lia.
  - assert (H2 : 0 <= shr_m (SpecFloat.iter_pos shr_1 p mrs))
      by (rewrite IH by done; by apply Z.shiftr_nonneg).
    rewrite IH, IH, !Z.shiftr_shiftr by lia. f_equal. lia.
  - by apply shr_1_m.
Qed.

Lemma shr_spec mrs e n :
  0 <= shr_m mrs ->
  shr_m (shr mrs e n).1 = Z.shiftr (shr_m mrs) (Z.max 0 n)
  /\ (shr mrs e n).2 = e + Z.max 0 n.
Proof.
  intros Hm. destruct n as [|p|p]; cbn [shr fst snd].
  - rewrite Z.shiftr_0_r. lia.
  - rewrite iter_shr_1_m by done. rewrite Z.max_r by lia. done.
  - rewrite Z.max_l by lia. rewrite Z.shiftr_0_r. lia.
Qed.

Lemma shr_record_of_loc_m m l : shr_m (shr_record_of_loc m l) = m.
Proof. by destruct l as [|[]]. Qed.

Lemma round_nearest_even_bounds m l : m <= round_nearest_even m l <= m + 1.
Proof. destruct l as [|[]]; cbn [round_nearest_even]; try destruct (Z.even m); lia. Qed.

(** The mantissa and the exponent after the shift of [shr_fexp]. *)
Lemma shr_fexp_spec m e l :
  0 <= m ->
  let n := fexp F32.prec F32.emax (Zdigits2 m + e) - e in
  shr_m (shr_fexp F32.prec F32.emax m e l).1 = Z.shiftr m (Z.max 0 n)
  /\ (shr_fexp F32.prec F32.emax m e l).2 = e + Z.max 0 n.
Proof.
  intros Hm. cbn zeta. unfold shr_fexp.
  rewrite <- (shr_record_of_loc_m m l) at 3.
  apply shr_spec. by rewrite shr_record_of_loc_m.
Qed.

Lemma shiftr_pos_log2 m n :
  0 < m -> 0 <= n <= Z.log2 m ->
  0 < Z.shiftr m n /\ Z.log2 (Z.shiftr m n) = Z.log2 m - n.
Proof.
  intros Hm Hn. split.
  - assert (0 <= Z.shiftr m n) by (apply Z.shiftr_nonneg; lia).
    destruct (Z.eq_dec (Z.shiftr m n) 0) as [H0|]; [|lia].
    apply Z.shiftr_eq_0_iff in H0. lia.
  - rewrite Z.log2_shiftr by done. lia.
Qed.

(** [binary_round_aux] on a non-zero mantissa: the result carries the sign,
    and above the subnormal range it keeps the magnitude. *)
Lemma round_aux_cases s mx ex lx :
  has_sign s (binary_round_aux F32.prec F32.emax s (Z.pos mx) ex lx)
  /\ (s = false ->
      -100 <= Z.log2 (Z.pos mx) + 1 + ex ->
      at_least_pow2 (Z.log2 (Z.pos mx) + 1 + ex)
        (binary_round_aux F32.prec F32.emax s (Z.pos mx) ex lx)).
Proof.
  unfold binary_round_aux.
  pose proof (shr_fexp_spec (Z.pos mx) ex lx ltac:(lia)) as [H1m H1e].
  cbn zeta in H1m, H1e.
  destruct (shr_fexp F32.prec F32.emax (Z.pos mx) ex lx) as [mrs1 e1].
  cbn [fst snd] in H1m, H1e.
  set (m1 := round_nearest_even (shr_m mrs1) (loc_of_shr_record mrs1)).
  pose proof (round_nearest_even_bounds (shr_m mrs1) (loc_of_shr_record mrs1)) as Hm1.
  fold m1 in Hm1.
  assert (Hq : 0 <= shr_m mrs1) by (rewrite H1m; apply Z.shiftr_nonneg; lia).
  pose proof (shr_fexp_spec m1 e1 loc_Exact ltac:(lia)) as [H2m H2e].
  cbn zeta in H2m, H2e.
  destruct (shr_fexp F32.prec F32.emax m1 e1 loc_Exact) as [mrs2 e2].
  cbn [fst snd] in H2m, H2e.
  assert (Hm2 : 0 <= shr_m mrs2) by (rewrite H2m; apply Z.shiftr_nonneg; lia).
  split.
  - destruct (shr_m mrs2) as [|m2|m2]; [done | by destruct (_ <=? _) | lia].
  - intros -> Hmag.
    set (d := Z.log2 (Z.pos mx) + 1) in *.
    pose proof (Z.log2_nonneg (Z.pos mx)) as Hd.
    rewrite Zdigits2_log2 in H1m, H1e by lia. fold d in H1m, H1e.
    unfold fexp, emin, F32.prec, F32.emax in H1m, H1e.
    replace (Z.max (d + ex - 24) (3 - 128 - 24) - ex) with (d - 24) in H1m, H1e by lia.
    destruct (shiftr_pos_log2 (Z.pos mx) (Z.max 0 (d - 24))) as [Hqpos Hqlog];
      [lia | lia |].
    rewrite <- H1m in Hqpos, Hqlog.
    assert (Hl1 : Z.log2 (shr_m mrs1) <= Z.log2 m1 <= Z.log2 (shr_m mrs1) + 1).
    { split; [apply Z.log2_le_mono; lia|].
      apply Z.le_trans with (Z.log2 (Z.succ (shr_m mrs1))).
      - apply Z.log2_le_mono. lia.
      - pose proof (Z.log2_succ_le (shr_m mrs1)). lia. }
    rewrite Zdigits2_log2 in H2m, H2e by lia.
    unfold fexp, emin, F32.prec, F32.emax in H2m, H2e.
    replace (Z.max (Z.log2 m1 + 1 + e1 - 24) (3 - 128 - 24) - e1)
      with (Z.log2 m1 + 1 - 24) in H2m, H2e by lia.
    destruct (shiftr_pos_log2 m1 (Z.max 0 (Z.log2 m1 + 1 - 24))) as [Hrpos Hrlog];
      [lia | lia |].
    rewrite <- H2m in Hrpos, Hrlog.
    destruct (shr_m mrs2) as [|m2|m2]; [lia | | lia].
    destruct (e2 <=? F32.emax - F32.prec); [|done].
    cbn [at_least_pow2]. lia.
Qed.

(** [int -> float] of a positive integer keeps its magnitude. *)
Lemma of_int_at_least p :
  at_least_pow2 (Z.log2 (Z.pos p) + 1) (F32.of_int (Z.pos p)).
Proof.
  unfold F32.of_int. cbn [binary_normalize]. unfold binary_round.
  assert (Hal : forall e',
            (Z.log2 (Z.pos (shl_align p 0 e').1) + 1 + (shl_align p 0 e').2
             = Z.log2 (Z.pos p) + 1)).
  { intros e'. unfold shl_align. destruct (e' - 0) as [|d|d] eqn:Hd; cbn [fst snd]; try lia.
    rewrite <- !digits2_log2, digits2_iter_xO. lia. }
  specialize (Hal (fexp F32.prec F32.emax (Z.pos (digits2_pos p) + 0))).
  destruct (shl_align p 0 _) as [mz ez]. cbn [fst snd] in Hal.
  destruct (round_aux_cases false mz ez loc_Exact) as [_ H].
  rewrite Hal in H. apply H; [done|]. pose proof (Z.log2_nonneg (Z.pos p)). lia.
Qed.

Lemma of_int_neg_sign p : has_sign true (F32.of_int (Z.neg p)).
Proof.
  unfold F32.of_int. cbn [binary_normalize]. unfold binary_round.
  destruct (shl_align p 0 _) as [mz ez]. apply round_aux_cases.
Qed.

(** ** Proximity *)

(** The distance a proximity event stores, with the comparison as the
    code computes it in binary32. *)
Lemma proximity_store a ns e :
  ev_type e = EV_ABS -> ev_code e = EVENT_TYPE_PROXIMITY ->
  length a = Z.to_nat MAX_NUM_SENSORS ->
  distance (elt (poll_event a ns e).1 ID_P)
  = if F32.leb (scale (ev_value e) CONVERT_P) PROXIMITY_THRESHOLD_CM
    then F32.zero else PROXIMITY_THRESHOLD_CM.
Proof.
  intros Hty Hcode Hlen.
  assert (Hw : writes Proximity e = true).
  { unfold writes. rewrite Hty, Hcode. reflexivity. }
  pose proof (poll_event_field a Hlen ns e Proximity) as Hf.
  rewrite Hw in Hf. exact Hf.
Qed.

Lemma CONVERT_P_value : CONVERT_P = S754_finite false 13421773 (-26).
Proof. reflexivity. Qed.

Lemma PROXIMITY_THRESHOLD_CM_value :
  PROXIMITY_THRESHOLD_CM = S754_finite false 12582912 (-21).
Proof. reflexivity. Qed.

(** A negative product is below the threshold. *)
Lemma negative_below_threshold f :
  has_sign true f -> F32.leb f PROXIMITY_THRESHOLD_CM = true.
Proof.
  rewrite PROXIMITY_THRESHOLD_CM_value.
  destruct f as [s|s|  |s m e]; cbn [has_sign]; intros Hs; subst; done.
Qed.

(** A product of 8 or more is above the threshold. *)
Lemma large_above_threshold f :
  at_least_pow2 4 f -> F32.leb f PROXIMITY_THRESHOLD_CM = false.
Proof.
  rewrite PROXIMITY_THRESHOLD_CM_value.
  destruct f as [s|[|]|  |[|] m e]; cbn [at_least_pow2]; try done.
  intros [_ He]. unfold F32.leb, SFleb. cbn [SFcompare].
  destruct (Z.compare_spec e (-21)); (lia || done).
Qed.

Lemma scale_negative p : has_sign true (scale (Z.neg p) CONVERT_P).
Proof.
  unfold scale, F32.mul. rewrite CONVERT_P_value.
  pose proof (of_int_neg_sign p) as Hs.
  destruct (F32.of_int (Z.neg p)) as [s|s|  |s m e]; cbn [has_sign] in Hs;
    subst; cbn [SFmul xorb has_sign]; try done.
  apply round_aux_cases.
Qed.

Lemma scale_large p :
  64 <= Z.pos p -> at_least_pow2 4 (scale (Z.pos p) CONVERT_P).
Proof.
  intros Hp. unfold scale, F32.mul. rewrite CONVERT_P_value.
  pose proof (of_int_at_least p) as Hs.
  assert (Hl : 6 <= Z.log2 (Z.pos p)) by (apply Z.log2_le_pow2; [lia | exact Hp]).
  destruct (F32.of_int (Z.pos p)) as [s|[|]|  |[|] m e]; cbn [at_least_pow2] in Hs;
    try done.
  cbn [SFmul xorb]. destruct Hs as [Hmag _].
  destruct (round_aux_cases false (m * 13421773) (e + -26) loc_Exact) as [_ H].
  assert (Hmul : Z.log2 (Z.pos m) + 23 <= Z.log2 (Z.pos (m * 13421773))).
  { rewrite Pos2Z.inj_mul.
    pose proof (Z.log2_mul_below (Z.pos m) (Z.pos 13421773) ltac:(lia) ltac:(lia)) as Hb.
    change (Z.log2 (Z.pos 13421773)) with 23 in Hb. lia. }
  specialize (H eq_refl ltac:(lia)).
  destruct (binary_round_aux _ _ _ _ _ _) as [s|[|]|  |[|] m' e'];
    cbn [at_least_pow2] in H |- *; try done. lia.
Qed.

(** The comparison of the code, on integers: the scaled value is at most
    6.0 exactly when the raw value is at most 30. *)
Lemma proximity_threshold v :
  F32.leb (scale v CONVERT_P) PROXIMITY_THRESHOLD_CM = (v <=? 30).
Proof.
  destruct v as [|p|p].
  - reflexivity.
  - destruct (Z_lt_le_dec (Z.pos p) 64) as [Hsmall|Hlarge].
    + assert (Hall : forallb
                (fun n => Bool.eqb
                   (F32.leb (scale (Z.of_nat n) CONVERT_P) PROXIMITY_THRESHOLD_CM)
                   (Z.of_nat n <=? 30))
                (seq 0 64) = true) by (vm_compute; reflexivity).
      rewrite forallb_forall in Hall.
      specialize (Hall (Pos.to_nat p)).
      rewrite positive_nat_Z in Hall. apply Bool.eqb_prop, Hall.
      apply in_seq. lia.
    + rewrite large_above_threshold by (by apply scale_large).
      symmetry. apply Z.leb_gt. lia.
  - rewrite negative_below_threshold by apply scale_negative. done.
Qed.

(** C7: a proximity event stores exactly 0 when its value scaled by 1/5 is
    at most 6.0 and exactly 6.0 otherwise, nothing else; the comparison,
    made in binary32 by the code, holds exactly for the raw values up to
    30. *)
Theorem proximity_quantized a ns e :
  ev_type e = EV_ABS -> ev_code e = EVENT_TYPE_PROXIMITY ->
  length a = Z.to_nat MAX_NUM_SENSORS ->
  let d := distance (elt (poll_event a ns e).1 ID_P) in
  d = (if F32.leb (scale (ev_value e) CONVERT_P) PROXIMITY_THRESHOLD_CM
       then F32.zero else PROXIMITY_THRESHOLD_CM)
  /\ d = (if ev_value e <=? 30 then S754_zero false else S754_finite false 12582912 (-21))
  /\ (d = F32.zero \/ d = PROXIMITY_THRESHOLD_CM)
  /\ Z.testbit (poll_event a ns e).2 ID_P = true.
Proof.
  intros Hty Hcode Hlen. cbn zeta.
  pose proof (proximity_store a ns e Hty Hcode Hlen) as Hd.
  split; [exact Hd|]. split; [|split].
  - rewrite Hd, proximity_threshold. done.
  - rewrite Hd. destruct (F32.leb _ _); [by left | by right].
  - rewrite poll_event_touches by done.
    unfold touches, all_fields, writes. rewrite Hty, Hcode.
    cbn [existsb field_type field_code field_sensor]. decide_eqb.
    cbn [andb orb]. by rewrite ?orb_true_r.
Qed.

Lemma proximity_quantized_witness :
  distance (elt (poll_event (sensors data_opened) 0 (raw EV_ABS ABS_DISTANCE 30)).1 ID_P)
  = S754_zero false
  /\ distance (elt (poll_event (sensors data_opened) 0 (raw EV_ABS ABS_DISTANCE 31)).1 ID_P)
     = S754_finite false 12582912 (-21).
Proof.
  split.
  - apply (proximity_quantized (sensors data_opened) 0 (raw EV_ABS ABS_DISTANCE 30));
      reflexivity.
  - apply (proximity_quantized (sensors data_opened) 0 (raw EV_ABS ABS_DISTANCE 31));
      reflexivity.
Defined.

(** ** Values of the conversions *)

Example GRAVITY_EARTH_value : GRAVITY_EARTH = S754_finite false 10283018 (-20).
Proof. reflexivity. Qed.

Example temperature_unscaled : convert Temperature 25 = F32.of_int 25.
Proof. reflexivity. Qed.

Example magnetic_y_flipped : convert MagY 16 = S754_finite true 8388608 (-23).
Proof. reflexivity. Qed.

Example roll_flipped : convert Roll 64 = S754_finite true 8388608 (-23).
Proof. reflexivity. Qed.

(** The scenario of the specification: X = 1000, Y = 0, Z = 0 and a
    boundary deliver one Acceleration sample of about (9.81, 0, 0), and
    nothing stays pending. *)
Example acceleration_scenario :
  exists r,
    data__poll data_opened zeroed
      [raw EV_ABS ABS_X 1000; raw EV_ABS ABS_Y 0; raw EV_ABS ABS_Z 0;
       raw EV_SYN SYN_REPORT 0] = Some r
    /\ ret r = ID_A
    /\ sensor (out r) = SENSORS_ACCELERATION
    /\ vec_x (out r) = GRAVITY_EARTH
    /\ vec_y (out r) = F32.zero /\ vec_z (out r) = F32.zero
    /\ pendingSensors (ctx r) = 0.
Proof. eexists. split; [vm_compute; reflexivity|]. repeat split. Qed.

(** ** Claim on an epoch of [data__poll] *)

(** What the code stores for a raw value is the conversion of the
    specification: the same factor, the same sign, the product in
    binary32; proximity is quantized at a raw value of 30. *)
Lemma convert_refines f raw : convert f raw = spec_convert f raw.
Proof.
  assert (Hprox : convert Proximity raw = spec_convert Proximity raw).
  { unfold convert, spec_convert. rewrite proximity_threshold.
    change (6 * 5) with 30. unfold near_threshold, F32.zero.
    by rewrite PROXIMITY_THRESHOLD_CM_value. }
  destruct f; try exact Hprox;
    unfold convert, spec_convert, spec_factor, scale, F32.mul, F32.of_int,
      F32.prec, F32.emax; f_equal; reflexivity.
Qed.

(** C6: a call of [data__poll] on an open device with nothing pending that
    reads per-axis events and then a boundary. Every field holds the
    conversion, as the specification words it ([spec_convert]), of the
    last raw value written to it (or what it held, when no event wrote
    it); every touched sensor carries the time of the boundary in
    nanoseconds, the others keep their time; the touched sensors are the
    pending ones together with the one returned, which is the highest of
    them. *)
Theorem poll_epoch dev values evs b input i0 :
  0 <= events_fd dev -> pendingSensors dev = 0 ->
  length (sensors dev) = Z.to_nat MAX_NUM_SENSORS ->
  Forall (fun e => ev_type e <> EV_SYN) evs ->
  is_boundary b ->
  - 2 ^ 31 <= tv_sec b < 2 ^ 31 -> 0 <= tv_usec b < 1000000 ->
  touched i0 evs = true ->
  exists r,
    data__poll dev values (evs ++ b :: input) = Some r
    /\ unread r = input
    /\ events_fd (ctx r) = events_fd dev
    /\ (forall f,
          field_get f (elt (sensors (ctx r)) (field_sensor f))
          = match last_write f evs with
            | Some v => spec_convert f v
            | None => field_get f (elt (sensors dev) (field_sensor f))
            end)
    /\ (forall i, touched i evs = true ->
          time (elt (sensors (ctx r)) i) = tv_sec b * 1000000000 + tv_usec b * 1000)
    /\ (forall i, 0 <= i < MAX_NUM_SENSORS -> touched i evs = false ->
          time (elt (sensors (ctx r)) i) = time (elt (sensors dev) i))
    /\ touched (ret r) evs = true
    /\ (forall i, ret r < i -> touched i evs = false)
    /\ (forall i, 0 <= i ->
          Z.testbit (pendingSensors (ctx r)) i = touched i evs && negb (i =? ret r))
    /\ out r = set_sensor (Z.shiftl 1 (ret r)) (elt (sensors (ctx r)) (ret r)).
Proof.
  intros Hfd Hp Hlen Hevs Hb Hsec Husec Ht0.
  destruct (poll_epoch_result dev values evs b input i0 Hfd Hp Hevs Hb Ht0)
    as (Hrun & Hrange & Hbits).
  cbn zeta in Hrun.
  set (st := run_events (sensors dev) 0 evs) in *.
  assert (Hlen' : length st.1 = Z.to_nat MAX_NUM_SENSORS)
    by (unfold st; by rewrite run_events_length).
  assert (Hpos : 0 < st.2) by lia.
  pose proof (Z.log2_nonneg st.2) as Hlog.
  assert (Hin : forall i, 0 <= i < MAX_NUM_SENSORS -> (Z.to_nat i < length st.1)%nat).
  { intros i Hi. rewrite Hlen'. unfold MAX_NUM_SENSORS in *. lia. }
  eexists. split; [exact Hrun|]. cbn [ret ctx out unread sensors pendingSensors events_fd].
  split; [done|]. split; [done|].
  split; [|split; [|split; [|split; [|split; [|split]]]]].
  - intros f.
    assert (Hf : 0 <= field_sensor f < MAX_NUM_SENSORS) by (by destruct f).
    rewrite elt_stamped by (apply Hin || lia; done).
    transitivity (match last_write f evs with
                  | Some v => convert f v
                  | None => field_get f (elt (sensors dev) (field_sensor f))
                  end);
      [|destruct (last_write f evs); [apply convert_refines | reflexivity]].
    rewrite <- (run_events_field f evs (sensors dev) 0 Hlen). fold st.
    destruct (Z.testbit st.2 (field_sensor f)); by destruct f.
  - intros i Hti. pose proof (touched_in_range _ _ Hti) as Hi.
    rewrite elt_stamped by (apply Hin || lia; done).
    rewrite Hbits, Hti by lia. cbn [time set_time]. by apply timestamp_exact.
  - intros i Hi Hti.
    rewrite elt_stamped by (apply Hin || lia; done).
    rewrite Hbits, Hti by lia. unfold st. apply run_events_time.
  - rewrite <- Hbits by done. by apply top_bit_set.
  - intros i Hi. rewrite <- Hbits by lia. by apply top_bit_above.
  - intros i Hi. rewrite clear_top_bits, Hbits by done. done.
  - done.
Qed.

Lemma poll_epoch_witness :
  exists r,
    data__poll data_opened zeroed
      ([raw EV_ABS ABS_X 1000; raw EV_ABS ABS_X 2000; raw EV_LED LED_MISC 40]
         ++ raw EV_SYN SYN_REPORT 0 :: [])
    = Some r
    /\ ret r = ID_L
    /\ vec_x (elt (sensors (ctx r)) ID_A) = S754_finite false 10283018 (-19)
    /\ light (elt (sensors (ctx r)) ID_L) = S754_finite false 10485760 (-18)
    /\ time (elt (sensors (ctx r)) ID_A) = 12345678000
    /\ pendingSensors (ctx r) = SENSORS_ACCELERATION.
Proof.
  destruct (poll_epoch data_opened zeroed
              [raw EV_ABS ABS_X 1000; raw EV_ABS ABS_X 2000; raw EV_LED LED_MISC 40]
              (raw EV_SYN SYN_REPORT 0) [] ID_A)
    as (r & Hrun & _ & _ & Hfield & Htime & _).
  - vm_compute. discriminate.
  - reflexivity.
  - reflexivity.
  - repeat constructor; vm_compute; discriminate.
  - split; [reflexivity | vm_compute; discriminate].
  - vm_compute. split; discriminate || reflexivity.
  - vm_compute. split; discriminate || reflexivity.
  - reflexivity.
  - pose proof (Hfield AccelX) as Hx. pose proof (Hfield Light) as Hl.
    pose proof (Htime ID_A eq_refl) as Ht.
    exists r. split; [exact Hrun|].
    vm_compute in Hrun. injection Hrun as <-.
    split; [reflexivity|]. split; [exact Hx|]. split; [exact Hl|].
    split; [exact Ht | reflexivity].
Defined.

(** ** The replication thread *)

(** C2 fails on the code: an epoch in which only a magnetic axis was
    written is mirrored as a magnetic group followed by an orientation
    group, although Orientation was not touched. *)
Lemma orientation_mirrored_with_magnetic :
  let epoch := [raw EV_ABS EVENT_TYPE_MAGV_X 7; raw EV_SYN SYN_REPORT 0] in
  touched ID_O epoch = false
  /\ exists dev',
       thread_run control_replicating 0 epoch
       = Some (dev', 0,
               [ send_event EV_ABS EVENT_TYPE_MAGV_X 7;
                 send_event EV_ABS EVENT_TYPE_MAGV_Y 0;
                 send_event EV_ABS EVENT_TYPE_MAGV_Z 0;
                 send_event EV_SYN 0 0;
                 send_event EV_ABS EVENT_TYPE_YAW 0;
                 send_event EV_ABS EVENT_TYPE_PITCH 0;
                 send_event EV_ABS EVENT_TYPE_ROLL 0;
                 send_event EV_SYN 0 0 ]).
Proof.
  cbn zeta. split; [reflexivity|]. eexists. vm_compute. reflexivity.
Qed.

(** * Further properties *)

(** ** Masks of the activation state machine *)

Lemma below_64_of_bits x :
  0 <= x -> (forall n, 6 <= n -> Z.testbit x n = false) -> x <= SUPPORTED_SENSORS.
Proof.
  intros Hx Hb. change SUPPORTED_SENSORS with 63.
  destruct (Z.eq_dec x 0) as [->|Hne]; [done|].
  assert (Hl : Z.log2 x < 6).
  { destruct (Z_lt_le_dec (Z.log2 x) 6) as [|Hge]; [done|].
    pose proof (Hb (Z.log2 x) Hge) as Hf. rewrite Z.bit_log2 in Hf by lia. done. }
  apply Z.log2_lt_pow2 in Hl; [|lia]. change (2 ^ 6) with 64 in Hl. lia.
Qed.

Lemma bits_of_below_64 x n :
  0 <= x <= SUPPORTED_SENSORS -> 6 <= n -> Z.testbit x n = false.
Proof.
  change SUPPORTED_SENSORS with 63. intros Hx Hn.
  destruct (Z.eq_dec x 0) as [->|Hne]; [apply Z.bits_0|].
  apply Z.bits_above_log2; [lia|].
  assert (Z.log2 x < 6) by (apply Z.log2_lt_pow2; [lia | change (2 ^ 6) with 64; lia]).
  lia.
Qed.

Lemma new_active_nonneg c h e : 0 <= new_active_of c h e.
Proof.
  unfold new_active_of. cbn zeta. apply Z.lor_nonneg. split.
  - apply Z.land_nonneg. right. unfold Int.not32. apply Z.land_nonneg. right. done.
  - apply Z.land_nonneg. destruct (negb (e =? 0)); [|left; done].
    destruct (Z_lt_le_dec h 0) as [Hh|Hh].
    + left. rewrite Z.shiftl_1_l. rewrite Z.pow_neg_r by done. done.
    + left. rewrite Z.shiftl_1_l. apply Z.pow_nonneg. done.
Qed.

Lemma new_active_supported c h e :
  valid_handle h -> 0 <= c <= SUPPORTED_SENSORS ->
  0 <= new_active_of c h e <= SUPPORTED_SENSORS.
Proof.
  unfold valid_handle, SENSORS_HANDLE_BASE, MAX_NUM_SENSORS. intros Hh Hc.
  split; [apply new_active_nonneg|].
  apply below_64_of_bits; [apply new_active_nonneg|].
  intros n Hn. rewrite new_active_bits by lia.
  destruct (Z.eqb_spec n h); [lia|].
  by rewrite (bits_of_below_64 c n).
Qed.

(** With a coherent device the bits of the new activation mask are those
    of the old one, except the bit of the handle. *)
Lemma new_active_bits_coherent c h e n :
  valid_handle h -> 0 <= c <= SUPPORTED_SENSORS -> 0 <= n ->
  Z.testbit (new_active_of c h e) n
  = if n =? h then negb (e =? 0) else Z.testbit c n.
Proof.
  unfold valid_handle, SENSORS_HANDLE_BASE, MAX_NUM_SENSORS. intros Hh Hc Hn.
  rewrite new_active_bits by lia. destruct (n =? h); [done|].
  destruct (Z.ltb_spec n 32); [apply andb_true_r|].
  rewrite (bits_of_below_64 c n) by lia. done.
Qed.

Lemma coherent_init : coherent control_init.
Proof. split; [reflexivity|]. split; [done|]. vm_compute. discriminate. Qed.

Lemma coherent_step E handle enabled dev :
  coherent dev -> coherent (control__activate E handle enabled dev).1.2.
Proof.
  intros [Hd Hs].
  assert (Hdec : valid_handle handle \/ ~ valid_handle handle)
    by (unfold valid_handle; lia).
  destruct Hdec as [Hh|Hh].
  - destruct (activate_result E handle enabled dev Hh) as [_ [(_ & Hs' & Hd')|(_ & Hs' & Hd')]];
      unfold coherent; rewrite Hs', Hd'.
    + done.
    + split; [done|]. by apply new_active_supported.
  - rewrite (activate_invalid E handle enabled dev Hh). done.
Qed.

(** X1. Whatever calls of [control__activate] were made since the device
    was created, with whatever answers of the drivers, the driver mask is
    the activation mask with Acceleration added when Orientation is
    active, and the activation mask holds supported sensors only. *)
Theorem activation_stays_coherent calls :
  coherent (activate_all calls control_init).
Proof.
  assert (H : forall dev, coherent dev -> coherent (activate_all calls dev)).
  { induction calls as [|[[E h] e] calls IH]; intros dev Hdev; [done|].
    cbn [activate_all]. apply IH. by apply coherent_step. }
  apply H, coherent_init.
Qed.

(** X2. A successful call changes the activation bit of its handle and no
    other: every other sensor stays as it was. *)
Theorem activate_touches_one_bit E handle enabled dev dev' tr n :
  coherent dev ->
  control__activate E handle enabled dev = (0, dev', tr) ->
  0 <= n ->
  Z.testbit (active_sensors dev') n
  = if n =? handle then negb (enabled =? 0) else Z.testbit (active_sensors dev) n.
Proof.
  intros [_ Hs] Hrun Hn.
  assert (Hh : valid_handle handle).
  { assert (Hdec : valid_handle handle \/ ~ valid_handle handle)
      by (unfold valid_handle; lia).
    destruct Hdec as [|Hx]; [done|].
    rewrite (activate_invalid E handle enabled dev Hx) in Hrun. discriminate. }
  destruct (activate_result E handle enabled dev Hh) as [_ Hcases].
  rewrite Hrun in Hcases. cbn [fst snd] in Hcases.
  destruct Hcases as [[? _]|(_ & Hs' & _)]; [lia|].
  rewrite Hs'. by apply new_active_bits_coherent.
Qed.

Lemma activate_touches_one_bit_witness :
  Z.testbit (active_sensors (control__activate env_ok ID_T 1 control_init).1.2) ID_L
  = Z.testbit (active_sensors control_init) ID_L.
Proof.
  set (r := control__activate env_ok ID_T 1 control_init).
  apply (activate_touches_one_bit env_ok ID_T 1 control_init r.1.2 r.2 ID_L
           coherent_init eq_refl).
  discriminate.
Defined.

Lemma activate_success E handle enabled dev dev' tr :
  control__activate E handle enabled dev = (0, dev', tr) ->
  valid_handle handle
  /\ active_sensors dev' = new_active_of (active_sensors dev) handle enabled
  /\ active_drivers dev' = new_enabled_of (active_sensors dev').
Proof.
  intros Hrun.
  assert (Hh : valid_handle handle).
  { assert (Hdec : valid_handle handle \/ ~ valid_handle handle)
      by (unfold valid_handle; lia).
    destruct Hdec as [|Hx]; [done|].
    rewrite (activate_invalid E handle enabled dev Hx) in Hrun. discriminate. }
  destruct (activate_result E handle enabled dev Hh) as [_ Hcases].
  rewrite Hrun in Hcases. cbn [fst snd] in Hcases.
  destruct Hcases as [[? _]|(_ & Hs' & Hd')]; [lia|].
  by rewrite Hd', Hs'.
Qed.

(** X3. Enabling a sensor that was not active and disabling it again, both
    calls succeeding, gives back the masks the device had. *)
Theorem enable_disable_restores E1 E2 handle enabled dev d1 t1 d2 t2 :
  coherent dev ->
  Z.testbit (active_sensors dev) handle = false ->
  enabled <> 0 ->
  control__activate E1 handle enabled dev = (0, d1, t1) ->
  control__activate E2 handle 0 d1 = (0, d2, t2) ->
  active_sensors d2 = active_sensors dev /\ active_drivers d2 = active_drivers dev.
Proof.
  intros [Hd Hs] Hbit He H1 H2.
  destruct (activate_success _ _ _ _ _ _ H1) as (Hh & Hs1 & _).
  destruct (activate_success _ _ _ _ _ _ H2) as (_ & Hs2 & Hd2).
  assert (Heq : active_sensors d2 = active_sensors dev).
  { rewrite Hs2, Hs1. apply Z.bits_inj'. intros n Hn.
    rewrite new_active_bits_coherent
      by (done || by apply new_active_supported).
    rewrite new_active_bits_coherent by done.
    destruct (Z.eqb_spec n handle) as [->|_]; [by rewrite Hbit | done]. }
  split; [done|]. by rewrite Hd2, Heq, Hd.
Qed.

Lemma enable_disable_restores_witness :
  let d1 := (control__activate env_ok ID_O 1 control_init).1.2 in
  let d2 := (control__activate env_ok ID_O 0 d1).1.2 in
  active_sensors d2 = active_sensors control_init
  /\ active_drivers d2 = active_drivers control_init.
Proof.
  cbn zeta.
  set (r1 := control__activate env_ok ID_O 1 control_init).
  set (r2 := control__activate env_ok ID_O 0 r1.1.2).
  apply (enable_disable_restores env_ok env_ok ID_O 1 control_init
           r1.1.2 r1.2 r2.1.2 r2.2 coherent_init);
    [reflexivity | discriminate | reflexivity | reflexivity].
Defined.

(** X4. Successful calls on two different sensors give the same masks in
    either order. *)
Theorem activate_commutes E1 E2 E3 E4 h1 e1 h2 e2 dev d1 t1 d12 t12 d2 t2 d21 t21 :
  coherent dev -> h1 <> h2 ->
  control__activate E1 h1 e1 dev = (0, d1, t1) ->
  control__activate E2 h2 e2 d1 = (0, d12, t12) ->
  control__activate E3 h2 e2 dev = (0, d2, t2) ->
  control__activate E4 h1 e1 d2 = (0, d21, t21) ->
  active_sensors d12 = active_sensors d21 /\ active_drivers d12 = active_drivers d21.
Proof.
  intros [Hd Hs] Hne H1 H12 H2 H21.
  destruct (activate_success _ _ _ _ _ _ H1) as (Hh1 & Hs1 & _).
  destruct (activate_success _ _ _ _ _ _ H12) as (Hh2 & Hs12 & Hd12).
  destruct (activate_success _ _ _ _ _ _ H2) as (_ & Hs2 & _).
  destruct (activate_success _ _ _ _ _ _ H21) as (_ & Hs21 & Hd21).
  assert (Heq : active_sensors d12 = active_sensors d21).
  { rewrite Hs12, Hs1, Hs21, Hs2. apply Z.bits_inj'. intros n Hn.
    rewrite !new_active_bits_coherent
      by (done || by apply new_active_supported).
    destruct (Z.eqb_spec n h1), (Z.eqb_spec n h2); congruence. }
  split; [done|]. by rewrite Hd12, Hd21, Heq.
Qed.

Lemma activate_commutes_witness :
  let a := (control__activate env_ok ID_L 1
              (control__activate env_ok ID_O 1 control_init).1.2).1.2 in
  let b := (control__activate env_ok ID_O 1
              (control__activate env_ok ID_L 1 control_init).1.2).1.2 in
  active_sensors a = active_sensors b /\ active_drivers a = active_drivers b.
Proof.
  cbn zeta.
  set (r1 := control__activate env_ok ID_O 1 control_init).
  set (r12 := control__activate env_ok ID_L 1 r1.1.2).
  set (r2 := control__activate env_ok ID_L 1 control_init).
  set (r21 := control__activate env_ok ID_O 1 r2.1.2).
  apply (activate_commutes env_ok env_ok env_ok env_ok ID_O 1 ID_L 1 control_init
           r1.1.2 r1.2 r12.1.2 r12.2 r2.1.2 r2.2 r21.1.2 r21.2 coherent_init);
    [discriminate | reflexivity | reflexivity | reflexivity | reflexivity].
Defined.

(** ** Descriptors of the activation state machine *)

Section Handles.

Variable E : driver_env.

Ltac run_groups :=
  unfold activate_lis, activate_sfh, activate_akm, open_dev, close_dev, do_open,
    do_ioctl, do_close, set_fd, sys_bind, sys_ret, sys_get, sys_modify, sys_log;
  cbn beta iota zeta.

Lemma accel_flag ne :
  (if negb (Z.land ne SENSORS_ACCELERATION =? 0) then 1 else 0)
  = (if Z.testbit ne ID_A then 1 else 0).
Proof.
  unfold SENSORS_ACCELERATION. rewrite land_bit_eqb, negb_involutive by done. done.
Qed.

Lemma activate_lis_addressed ch ne err dev :
  Forall (well_addressed ne) (activate_lis E ch ne err dev).2.
Proof.
  run_groups. rewrite accel_flag.
  repeat case_match; simplify_eq; bool_hyps; cbn [fst snd app];
    repeat constructor; cbn [well_addressed]; try done; try lia.
  all: match goal with H : Z.testbit _ _ = _ |- _ => by rewrite H end.
Qed.

Lemma activate_sfh_addressed ch ne err dev :
  Forall (well_addressed ne) (activate_sfh E ch ne err dev).2.
Proof.
  run_groups.
  repeat case_match; simplify_eq; bool_hyps; cbn [fst snd app];
    repeat constructor; cbn [well_addressed]; done.
Qed.

Lemma activate_akm_addressed ch ne err dev :
  Forall (well_addressed ne) (activate_akm E ch ne err dev).2.
Proof.
  run_groups.
  repeat case_match; simplify_eq; bool_hyps; cbn [fst snd app];
    repeat constructor; cbn [well_addressed]; done.
Qed.

Lemma activate_akm_fd ch ne err dev (n : nat) :
  n <> Z.to_nat ID_AKM ->
  dev_fd (activate_akm E ch ne err dev).1.2 !!! n = dev_fd dev !!! n.
Proof.
  intros Hn. run_groups.
  repeat case_match; simplify_eq; cbn [fst snd with_dev_fd dev_fd];
    rewrite ?list_lookup_total_insert_ne by done; done.
Qed.

(** The groups keep the number of descriptors. *)
Lemma activate_lis_fd_length ch ne err dev :
  length (dev_fd (activate_lis E ch ne err dev).1.2) = length (dev_fd dev).
Proof.
  run_groups.
  repeat case_match; simplify_eq; cbn [fst snd with_dev_fd dev_fd];
    rewrite ?length_insert; done.
Qed.

Lemma activate_sfh_fd_length ch ne err dev :
  length (dev_fd (activate_sfh E ch ne err dev).1.2) = length (dev_fd dev).
Proof.
  run_groups.
  repeat case_match; simplify_eq; cbn [fst snd with_dev_fd dev_fd];
    rewrite ?length_insert; done.
Qed.

Lemma activate_akm_fd_length ch ne err dev :
  length (dev_fd (activate_akm E ch ne err dev).1.2) = length (dev_fd dev).
Proof.
  run_groups.
  repeat case_match; simplify_eq; cbn [fst snd with_dev_fd dev_fd];
    rewrite ?length_insert; done.
Qed.

(** A group that ran without a failed call leaves no handle open for a
    driver that the new mask does not need. *)
Lemma activate_lis_idle ch ne err dev :
  (Z.to_nat ID_LIS < length (dev_fd dev))%nat ->
  Z.land ch SENSORS_ACCELERATION <> 0 ->
  existsb syscall_failed (activate_lis E ch ne err dev).2 = false ->
  Z.land ne (mask (driver ID_LIS)) = 0 ->
  fd_at (activate_lis E ch ne err dev).1.2 ID_LIS < 0.
Proof.
  intros Hlen Hch. unfold fd_at. run_groups.
  repeat case_match; simplify_eq; bool_hyps;
    cbn [fst snd app existsb syscall_failed orb with_dev_fd dev_fd];
    intros Hf Hne; try done; try lia;
    rewrite ?list_lookup_total_insert_eq in * by (rewrite ?length_insert; done);
    try done; try lia.
  all: try (apply orb_false_iff in Hf; destruct Hf as [Hf _]; apply Z.ltb_ge in Hf; lia).
  all: exfalso; unfold fd_at in *; cbn [with_dev_fd dev_fd] in *;
    rewrite ?list_lookup_total_insert_eq in * by done;
    match goal with
    | H : (_ <=? _) && (_ =? 0) = false |- _ =>
        rewrite Hne in H; cbn [Z.eqb] in H; rewrite andb_true_r in H;
        apply Z.leb_gt in H; lia
    end.
Qed.

Lemma activate_akm_idle ch ne err dev :
  (Z.to_nat ID_AKM < length (dev_fd dev))%nat ->
  Z.land ch AKM_SENSORS <> 0 ->
  existsb syscall_failed (activate_akm E ch ne err dev).2 = false ->
  Z.land ne (mask (driver ID_AKM)) = 0 ->
  fd_at (activate_akm E ch ne err dev).1.2 ID_AKM < 0.
Proof.
  intros Hlen Hch. unfold AKM_SENSORS in Hch. unfold fd_at. run_groups.
  repeat case_match; simplify_eq; bool_hyps;
    cbn [fst snd app existsb syscall_failed orb with_dev_fd dev_fd];
    intros Hf Hne; try done; try lia;
    rewrite ?list_lookup_total_insert_eq in * by (rewrite ?length_insert; done);
    try done; try lia.
  all: try (apply orb_false_iff in Hf; destruct Hf as [Hf _]; apply Z.ltb_ge in Hf; lia).
  all: exfalso; unfold fd_at in *; cbn [with_dev_fd dev_fd] in *;
    rewrite ?list_lookup_total_insert_eq in * by done;
    match goal with
    | H : (_ <=? _) && (_ =? 0) = false |- _ =>
        rewrite Hne in H; cbn [Z.eqb] in H; rewrite andb_true_r in H;
        apply Z.leb_gt in H; lia
    end.
Qed.

Lemma activate_lis_skipped ch ne err dev :
  Z.land ch SENSORS_ACCELERATION = 0 -> activate_lis E ch ne err dev = (err, dev, []).
Proof. intros Hch. unfold activate_lis. by rewrite Hch. Qed.

Lemma activate_akm_skipped ch ne err dev :
  Z.land ch AKM_SENSORS = 0 -> activate_akm E ch ne err dev = (err, dev, []).
Proof. unfold AKM_SENSORS. intros Hch. unfold activate_akm. by rewrite Hch. Qed.

End Handles.

Lemma land_lxor_zero a b m : Z.land (Z.lxor a b) m = 0 -> Z.land a m = Z.land b m.
Proof.
  intros H. apply Z.lxor_eq. rewrite <- H. apply Z.bits_inj'. intros n Hn.
  rewrite Z.lxor_spec, !Z.land_spec, Z.lxor_spec.
  by destruct (Z.testbit a n), (Z.testbit b n), (Z.testbit m n).
Qed.

(** X5. [control__activate] never sends a command to a descriptor that is
    not open and never closes one: every [ioctl] and every [close] of a
    call goes to a non-negative descriptor, and the enable command carries
    1 exactly when Acceleration is in the new driver mask. *)
Theorem activate_addresses_open_handles E handle enabled dev :
  Forall
    (well_addressed (new_enabled_of (new_active_of (active_sensors dev) handle enabled)))
    (control__activate E handle enabled dev).2.
Proof.
  assert (Hdec : valid_handle handle \/ ~ valid_handle handle)
    by (unfold valid_handle; lia).
  destruct Hdec as [Hh|Hh].
  - rewrite (activate_anatomy E _ _ _ Hh). cbn zeta.
    set (ch := changed_of dev handle enabled).
    set (ne := new_enabled_of _).
    set (r1 := activate_lis E ch ne 0 dev).
    set (r2 := activate_sfh E ch ne r1.1.1 r1.1.2).
    set (r3 := activate_akm E ch ne r2.1.1 r2.1.2).
    assert (Hall : Forall (well_addressed ne) (r1.2 ++ r2.2 ++ r3.2)).
    { rewrite !Forall_app. split; [apply activate_lis_addressed|].
      split; [apply activate_sfh_addressed | apply activate_akm_addressed]. }
    destruct (ch =? 0); [constructor|]. by destruct (r3.1.1 <? 0).
  - rewrite (activate_invalid E _ _ _ Hh). constructor.
Qed.

(** X6. A call that succeeds leaves no idle handle: when no accelerometer
    or compass handle was open without need before the call, none is
    after it. *)
Theorem activate_closes_idle E handle enabled dev dev' tr :
  length (dev_fd dev) = Z.to_nat MAX_NUM_DRIVERS ->
  no_idle_handle dev ->
  control__activate E handle enabled dev = (0, dev', tr) ->
  no_idle_handle dev'.
Proof.
  intros Hlen [Hlis Hakm] Hrun.
  destruct (activate_success _ _ _ _ _ _ Hrun) as (Hh & Hs' & Hd').
  destruct (activate_result E handle enabled dev Hh) as [Herr _].
  rewrite Hrun in Herr. cbn [fst snd] in Herr.
  assert (Hok : existsb syscall_failed tr = false).
  { destruct (last_error_sign tr) as [_ Hsign].
    destruct (existsb syscall_failed tr); [|done]. lia. }
  pose proof (activate_anatomy E handle enabled dev Hh) as Han. cbn zeta in Han.
  rewrite Hrun in Han.
  assert (Hnew : new_enabled_of (new_active_of (active_sensors dev) handle enabled)
                 = active_drivers dev') by (by rewrite Hd', Hs').
  assert (Hchange : changed_of dev handle enabled
                    = Z.lxor (active_drivers dev) (active_drivers dev'))
    by (unfold changed_of; by rewrite Hnew).
  rewrite Hnew in Han.
  set (ch := changed_of dev handle enabled) in *.
  set (ne := active_drivers dev') in *.
  set (r1 := activate_lis E ch ne 0 dev) in *.
  set (r2 := activate_sfh E ch ne r1.1.1 r1.1.2) in *.
  set (r3 := activate_akm E ch ne r2.1.1 r2.1.2) in *.
  destruct (Z.eqb_spec ch 0) as [Hz|Hnz].
  { injection Han as Hdev' _. rewrite Hchange in Hz. apply Z.lxor_eq in Hz.
    assert (Hfd : dev_fd dev' = dev_fd dev) by (by rewrite Hdev').
    unfold ne in Hz. unfold no_idle_handle, fd_at in *. rewrite Hfd, <- Hz. done. }
  assert (Hdev : dev_fd dev' = dev_fd r3.1.2 /\ tr = r1.2 ++ r2.2 ++ r3.2).
  { destruct (r3.1.1 <? 0);
      [injection Han as _ Hdev' Htr | injection Han as Hdev' Htr];
      (split; [by rewrite Hdev' | done]). }
  destruct Hdev as [Hfd ->]. rewrite !existsb_app in Hok.
  apply orb_false_iff in Hok. destruct Hok as [Hok1 Hok23].
  apply orb_false_iff in Hok23. destruct Hok23 as [Hok2 Hok3].
  assert (Hl1 : length (dev_fd r1.1.2) = length (dev_fd dev))
    by apply activate_lis_fd_length.
  assert (Hl2 : length (dev_fd r2.1.2) = length (dev_fd dev))
    by (unfold r2; by rewrite activate_sfh_fd_length).
  unfold MAX_NUM_DRIVERS in Hlen.
  split; unfold fd_at; rewrite Hfd; intros Hopen Hidle.
  - unfold r3 in Hopen. rewrite activate_akm_fd in Hopen by done.
    unfold r2 in Hopen. rewrite activate_sfh_fd in Hopen by done.
    destruct (Z.eq_dec (Z.land ch SENSORS_ACCELERATION) 0) as [Hskip|Hran].
    + unfold r1 in Hopen. rewrite activate_lis_skipped in Hopen by done.
      cbn [fst snd] in Hopen. rewrite Hchange in Hskip.
      apply land_lxor_zero in Hskip. apply (Hlis Hopen).
      change (mask (driver ID_LIS)) with SENSORS_ACCELERATION in *.
      rewrite Hskip. exact Hidle.
    + pose proof (activate_lis_idle E ch ne 0 dev ltac:(rewrite Hlen; vm_compute; lia)
                    Hran Hok1 Hidle) as Hc.
      apply Z.lt_nge in Hc. apply Hc. exact Hopen.
  - destruct (Z.eq_dec (Z.land ch AKM_SENSORS) 0) as [Hskip|Hran].
    + unfold r3 in Hopen. rewrite activate_akm_skipped in Hopen by done.
      cbn [fst snd] in Hopen.
      unfold r2 in Hopen. rewrite activate_sfh_fd in Hopen by done.
      unfold r1 in Hopen. rewrite activate_lis_fd in Hopen by done.
      rewrite Hchange in Hskip. apply land_lxor_zero in Hskip. apply (Hakm Hopen).
      assert (Hm : forall x, Z.land x (mask (driver ID_AKM)) = Z.land x AKM_SENSORS).
      { intros x. f_equal. }
      rewrite Hm in *. rewrite Hskip. exact Hidle.
    + pose proof (activate_akm_idle E ch ne r2.1.1 r2.1.2
                    ltac:(rewrite Hl2, Hlen; vm_compute; lia) Hran Hok3 Hidle) as Hc.
      apply Z.lt_nge in Hc. apply Hc. exact Hopen.
Qed.

Lemma activate_closes_idle_witness :
  no_idle_handle
    (control__activate env_ok ID_A 0
       (control__activate env_ok ID_A 1 control_init).1.2).1.2.
Proof.
  set (r1 := control__activate env_ok ID_A 1 control_init).
  set (r2 := control__activate env_ok ID_A 0 r1.1.2).
  apply (activate_closes_idle env_ok ID_A 0 r1.1.2 r2.1.2 r2.2); [reflexivity| |reflexivity].
  apply (activate_closes_idle env_ok ID_A 1 control_init r1.1.2 r1.2);
    [reflexivity| |reflexivity].
  split; vm_compute; intros H; exfalso; apply H; reflexivity.
Defined.

(** ** Failures and dependencies of [control__activate] *)
Ltac run_calls :=
  unfold activate_lis, activate_sfh, activate_akm, open_dev, close_dev, do_open,
    do_ioctl, do_close, set_fd, sys_bind, sys_ret, sys_get, sys_modify, sys_log;
  cbn beta iota zeta.

Lemma land_accel_testbit x : (Z.land x SENSORS_ACCELERATION =? 0) = negb (Z.testbit x ID_A).
Proof. apply (land_bit_eqb x ID_A). unfold ID_A. lia. Qed.

Lemma activate_lis_power_on_fails E ch ne err dev fd errno :
  Z.testbit ch ID_A = true ->
  Z.testbit ne ID_A = true ->
  fd_at dev ID_LIS < 0 ->
  sys_open E (loc (driver ID_LIS)) = fd -> 0 <= fd ->
  sys_ioctl E fd KXTF9_IOCTL_SET_ENABLE 1 = IoctlErr errno ->
  activate_lis E ch ne err dev
  = (- Z.pos errno, with_dev_fd (<[Z.to_nat ID_LIS := fd]> (dev_fd dev)) dev,
     [SysOpen (loc (driver ID_LIS)) fd;
      SysIoctl fd KXTF9_IOCTL_SET_ENABLE 1 (IoctlErr errno)]).
Proof.
  intros Hch Hne Hfd Hopen Hpos Hio. run_calls.
  rewrite !land_accel_testbit, Hch, Hne. cbn [negb].
  destruct (Z.ltb_spec (fd_at dev ID_LIS) 0) as [_|]; [|lia].
  rewrite Hopen. cbn [fst snd app].
  destruct (Z.leb_spec 0 fd) as [_|]; [|lia].
  rewrite Hio.
  rewrite andb_false_r. reflexivity.
Qed.

(** X7. A power-on command that fails leaves the accelerometer node open:
    the call returns a negative code and commits no mask, but the
    descriptor it opened stays in [dev_fd], so the device then holds a
    handle that its driver mask does not account for. *)
Theorem failed_power_on_keeps_handle E handle enabled dev fd errno :
  valid_handle handle ->
  length (dev_fd dev) = Z.to_nat MAX_NUM_DRIVERS ->
  Z.testbit (active_drivers dev) ID_A = false ->
  Z.testbit (new_enabled_of (new_active_of (active_sensors dev) handle enabled)) ID_A = true ->
  fd_at dev ID_LIS < 0 ->
  sys_open E (loc (driver ID_LIS)) = fd -> 0 <= fd ->
  sys_ioctl E fd KXTF9_IOCTL_SET_ENABLE 1 = IoctlErr errno ->
  let r := control__activate E handle enabled dev in
  r.1.1 < 0
  /\ active_sensors r.1.2 = active_sensors dev
  /\ active_drivers r.1.2 = active_drivers dev
  /\ fd_at r.1.2 ID_LIS = fd
  /\ ~ no_idle_handle r.1.2.
Proof.
  intros Hh Hlen Hoff Hon Hfd Hopen Hpos Hio r.
  assert (Hch : Z.testbit (changed_of dev handle enabled) ID_A = true).
  { unfold changed_of. by rewrite Z.lxor_spec, Hoff, Hon. }
  pose proof (activate_anatomy E handle enabled dev Hh) as Han. cbn zeta in Han.
  fold r in Han.
  set (ch := changed_of dev handle enabled) in *.
  set (ne := new_enabled_of _) in *.
  rewrite (activate_lis_power_on_fails E ch ne 0 dev fd errno) in Han by done.
  cbn [fst snd] in Han.
  set (d1 := with_dev_fd _ dev) in *.
  set (r2 := activate_sfh E ch ne (- Z.pos errno) d1) in *.
  set (r3 := activate_akm E ch ne r2.1.1 r2.1.2) in *.
  destruct (activate_sfh_ok E ch ne (- Z.pos errno) d1) as (He2 & Hs2 & Hd2).
  destruct (activate_akm_ok E ch ne r2.1.1 r2.1.2) as (He3 & Hs3 & Hd3).
  fold r2 in He2, Hs2, Hd2. fold r3 in He3, Hs3, Hd3.
  assert (Hneg2 : r2.1.1 < 0).
  { rewrite He2. apply fold_error_sign; lia. }
  assert (Hneg3 : r3.1.1 < 0).
  { rewrite He3. apply fold_error_sign; lia. }
  assert (Hnz : ch <> 0).
  { intros Hz. rewrite Hz in Hch. by rewrite Z.testbit_0_l in Hch. }
  destruct (Z.eqb_spec ch 0) as [|_]; [done|].
  destruct (Z.ltb_spec r3.1.1 0) as [_|]; [|lia].
  assert (Hkeep : fd_at r.1.2 ID_LIS = fd).
  { rewrite Han. cbn [fst snd]. unfold fd_at, r3.
    rewrite activate_akm_fd by done. unfold r2. rewrite activate_sfh_fd by done.
    unfold d1. cbn [dev_fd with_dev_fd].
    apply list_lookup_total_insert_eq. rewrite Hlen. vm_compute. lia. }
  rewrite Han in *. cbn [fst snd] in *.
  split; [done|]. split; [by rewrite Hs3, Hs2|].
  split; [by rewrite Hd3, Hd2|]. split; [done|].
  intros [Hidle _]. apply Hidle; [lia|].
  rewrite Hd3, Hd2. unfold d1. cbn [active_drivers with_dev_fd].
  change (mask (driver ID_LIS)) with SENSORS_ACCELERATION.
  apply Z.eqb_eq. by rewrite land_accel_testbit, Hoff.
Qed.

Lemma failed_power_on_keeps_handle_witness :
  let r := control__activate env_lis_eio_akm_down ID_A 1 control_init in
  r.1.1 < 0 /\ fd_at r.1.2 ID_LIS = 3 /\ active_drivers r.1.2 = 0.
Proof.
  assert (Hv : valid_handle ID_A)
    by (unfold valid_handle, ID_A, SENSORS_HANDLE_BASE, MAX_NUM_SENSORS; lia).
  pose proof (failed_power_on_keeps_handle env_lis_eio_akm_down ID_A 1 control_init 3 5
                Hv eq_refl eq_refl eq_refl eq_refl eq_refl ltac:(lia) eq_refl) as H.
  cbn zeta in H |- *. destruct H as (H1 & _ & H3 & H4 & _).
  split; [exact H1|]. split; [exact H4|]. exact H3.
Defined.

(** The bits of the driver mask derived from an activation mask. *)
Lemma new_enabled_bits a n :
  0 <= n ->
  Z.testbit (new_enabled_of a) n = Z.testbit a n || ((n =? ID_A) && Z.testbit a ID_O).
Proof.
  intros Hn. rewrite new_enabled_lor, Z.lor_spec.
  destruct (Z.testbit a ID_O).
  - unfold SENSORS_ACCELERATION. rewrite shiftl_1_bits by (unfold ID_A; lia).
    by rewrite andb_true_r, (Z.eqb_sym ID_A n).
  - by rewrite Z.testbit_0_l, andb_false_r.
Qed.

(** X8. While Orientation is active the accelerometer is powered for it:
    enabling or disabling Acceleration then makes no system call, returns
    0 and only records the bit of the handle; the driver mask keeps the
    accelerometer. *)
Theorem acceleration_under_orientation_is_silent E enabled dev :
  coherent dev ->
  Z.testbit (active_sensors dev) ID_O = true ->
  control__activate E ID_A enabled dev
  = (0, with_active (new_active_of (active_sensors dev) ID_A enabled)
          (active_drivers dev) dev, [])
  /\ Z.testbit (active_drivers dev) ID_A = true.
Proof.
  intros [Hd Hs] Ho.
  assert (Hv : valid_handle ID_A)
    by (unfold valid_handle, ID_A, SENSORS_HANDLE_BASE, MAX_NUM_SENSORS; lia).
  assert (Hsame : new_enabled_of (new_active_of (active_sensors dev) ID_A enabled)
                  = active_drivers dev).
  { rewrite Hd. apply Z.bits_inj'. intros n Hn.
    rewrite !new_enabled_bits by done.
    rewrite !new_active_bits_coherent by (done || (unfold ID_O; lia)).
    change (ID_O =? ID_A) with false. cbn iota. rewrite Ho.
    destruct (Z.eqb_spec n ID_A) as [->|Hne]; [|done].
    by rewrite !orb_true_r. }
  split.
  - rewrite (activate_anatomy E _ _ _ Hv). cbn zeta.
    unfold changed_of. rewrite Hsame, Z.lxor_nilpotent. reflexivity.
  - rewrite Hd, new_enabled_bits by (unfold ID_A; lia). rewrite Ho.
    by rewrite orb_true_r.
Qed.

Lemma acceleration_under_orientation_is_silent_witness :
  let dev := (control__activate env_ok ID_O 1 control_init).1.2 in
  (control__activate env_lis_eio_akm_down ID_A 0 dev).2 = []
  /\ Z.testbit (active_drivers dev) ID_A = true.
Proof.
  cbn zeta.
  set (dev := (control__activate env_ok ID_O 1 control_init).1.2).
  assert (Hc : coherent dev) by (apply (coherent_step env_ok ID_O 1), coherent_init).
  destruct (acceleration_under_orientation_is_silent env_lis_eio_akm_down 0 dev Hc eq_refl)
    as [H1 H2].
  split; [by rewrite H1 | exact H2].
Defined.

(** A successful power-on leaves the accelerometer handle open. *)
Lemma activate_lis_powered E ch ne err dev :
  (Z.to_nat ID_LIS < length (dev_fd dev))%nat ->
  Z.testbit ch ID_A = true ->
  Z.testbit ne ID_A = true ->
  existsb syscall_failed (activate_lis E ch ne err dev).2 = false ->
  0 <= fd_at (activate_lis E ch ne err dev).1.2 ID_LIS.
Proof.
  intros Hlen Hch Hne. run_calls.
  rewrite !land_accel_testbit, Hch, Hne. cbn [negb].
  destruct (Z.ltb_spec (fd_at dev ID_LIS) 0) as [Hclosed|Hopen]; cbn [fst snd app].
  - destruct (Z.leb_spec 0 (sys_open E (loc (driver ID_LIS)))) as [Hfd|Hfd];
      rewrite ?andb_false_r; cbn [fst snd app existsb syscall_failed orb].
    + intros _. unfold fd_at. cbn [dev_fd with_dev_fd].
      by rewrite list_lookup_total_insert_eq.
    + destruct (Z.ltb_spec (sys_open E (loc (driver ID_LIS))) 0); [done|lia].
  - destruct (Z.leb_spec 0 (fd_at dev ID_LIS)); [|lia].
    rewrite ?andb_false_r. by intros _.
Qed.

Lemma activate_fd_length E handle enabled dev :
  length (dev_fd (control__activate E handle enabled dev).1.2) = length (dev_fd dev).
Proof.
  assert (Hdec : valid_handle handle \/ ~ valid_handle handle)
    by (unfold valid_handle; lia).
  destruct Hdec as [Hh|Hh]; [|by rewrite (activate_invalid E _ _ _ Hh)].
  rewrite (activate_anatomy E _ _ _ Hh). cbn zeta.
  destruct (_ =? 0); [done|].
  destruct (_ <? 0); cbn [fst snd dev_fd with_active];
    by rewrite activate_akm_fd_length, activate_sfh_fd_length, activate_lis_fd_length.
Qed.

Lemma lxor_bit_unchanged a b n :
  Z.testbit (Z.lxor a b) n = false -> Z.testbit a n = Z.testbit b n.
Proof. rewrite Z.lxor_spec. by destruct (Z.testbit a n), (Z.testbit b n). Qed.

(** A call that succeeds keeps the accelerometer handle in step with the
    driver mask. *)
Lemma accelerometer_handle_step E handle enabled dev dev' tr :
  length (dev_fd dev) = Z.to_nat MAX_NUM_DRIVERS ->
  accelerometer_handle_agrees dev ->
  control__activate E handle enabled dev = (0, dev', tr) ->
  accelerometer_handle_agrees dev'.
Proof.
  intros Hlen Hagree Hrun. unfold accelerometer_handle_agrees in *.
  destruct (activate_success _ _ _ _ _ _ Hrun) as (Hh & Hs' & Hd').
  destruct (activate_result E handle enabled dev Hh) as [Herr _].
  rewrite Hrun in Herr. cbn [fst snd] in Herr.
  assert (Hok : existsb syscall_failed tr = false).
  { destruct (last_error_sign tr) as [_ Hsign].
    destruct (existsb syscall_failed tr); [|done]. lia. }
  pose proof (activate_anatomy E handle enabled dev Hh) as Han. cbn zeta in Han.
  rewrite Hrun in Han.
  assert (Hnew : new_enabled_of (new_active_of (active_sensors dev) handle enabled)
                 = active_drivers dev') by (by rewrite Hd', Hs').
  assert (Hchange : changed_of dev handle enabled
                    = Z.lxor (active_drivers dev) (active_drivers dev'))
    by (unfold changed_of; by rewrite Hnew).
  rewrite Hnew in Han.
  set (ch := changed_of dev handle enabled) in *.
  set (r1 := activate_lis E ch (active_drivers dev') 0 dev) in *.
  set (r2 := activate_sfh E ch (active_drivers dev') r1.1.1 r1.1.2) in *.
  set (r3 := activate_akm E ch (active_drivers dev') r2.1.1 r2.1.2) in *.
  destruct (Z.eqb_spec ch 0) as [Hz|Hnz].
  { injection Han as Hdev' _. rewrite Hchange in Hz. apply Z.lxor_eq in Hz.
    assert (Hfd : fd_at dev' ID_LIS = fd_at dev ID_LIS) by (by rewrite Hdev').
    by rewrite Hfd, <- Hz. }
  assert (Hdev : dev_fd dev' = dev_fd r3.1.2 /\ tr = r1.2 ++ r2.2 ++ r3.2).
  { destruct (r3.1.1 <? 0);
      [injection Han as _ Hdev' Htr | injection Han as Hdev' Htr];
      (split; [by rewrite Hdev' | done]). }
  destruct Hdev as [Hfd ->]. rewrite !existsb_app in Hok.
  apply orb_false_iff in Hok. destruct Hok as [Hok1 _].
  assert (Hat : fd_at dev' ID_LIS = fd_at r1.1.2 ID_LIS).
  { unfold fd_at. rewrite Hfd. unfold r3. rewrite activate_akm_fd by done.
    unfold r2. by rewrite activate_sfh_fd by done. }
  rewrite Hat.
  assert (Hin : (Z.to_nat ID_LIS < length (dev_fd dev))%nat)
    by (rewrite Hlen; vm_compute; lia).
  destruct (Z.testbit ch ID_A) eqn:Hbit.
  - destruct (Z.testbit (active_drivers dev') ID_A) eqn:Hon.
    + split; [done|]. intros _. by apply activate_lis_powered.
    + split; [|done]. intros Hopen.
      pose proof (activate_lis_idle E ch (active_drivers dev') 0 dev Hin) as Hidle.
      fold r1 in Hidle. exfalso.
      assert (fd_at r1.1.2 ID_LIS < 0); [|lia].
      apply Hidle; [| done |].
      * intros Hz. apply Z.eqb_eq in Hz. by rewrite land_accel_testbit, Hbit in Hz.
      * change (mask (driver ID_LIS)) with SENSORS_ACCELERATION.
        apply Z.eqb_eq. by rewrite land_accel_testbit, Hon.
  - unfold r1. rewrite activate_lis_skipped.
    + cbn [fst snd]. rewrite Hchange in Hbit. apply lxor_bit_unchanged in Hbit.
      by rewrite <- Hbit.
    + apply Z.eqb_eq. by rewrite land_accel_testbit, Hbit.
Qed.

Lemma activate_each_invariant calls : forall dev dev',
  coherent dev -> length (dev_fd dev) = Z.to_nat MAX_NUM_DRIVERS ->
  accelerometer_handle_agrees dev ->
  activate_each calls dev = Some dev' ->
  coherent dev' /\ accelerometer_handle_agrees dev'.
Proof.
  induction calls as [|[[E handle] enabled] calls IH]; intros dev dev' Hc Hlen Hag Hrun.
  - by injection Hrun as <-.
  - cbn [activate_each] in Hrun. cbn zeta in Hrun.
    destruct (control__activate E handle enabled dev) as [[r d1] tr] eqn:Hcall.
    cbn [fst snd] in Hrun.
    destruct (Z.eqb_spec r 0) as [->|]; [|done].
    apply (IH d1 dev'); try done.
    + pose proof (coherent_step E handle enabled dev Hc) as H1. by rewrite Hcall in H1.
    + pose proof (activate_fd_length E handle enabled dev) as H1.
      rewrite Hcall in H1. cbn [fst snd] in H1. by rewrite H1.
    + by apply (accelerometer_handle_step E handle enabled dev d1 tr).
Qed.

(** X9. After calls of [control__activate] that all succeeded since the
    device was opened, [control__set_delay] takes effect exactly when
    Acceleration or Orientation is active: the accelerometer handle is
    then open and receives one command with the delay, the call
    returning 0 or the negated [errno]; otherwise the handle is closed,
    nothing is issued and the delay is dropped with return 0. *)
Theorem set_delay_follows_power calls dev ioctl_delay ms :
  activate_each calls control_init = Some dev ->
  let powered := Z.testbit (active_sensors dev) ID_A || Z.testbit (active_sensors dev) ID_O in
  let fd := fd_at dev ID_LIS in
  (powered = true ->
   0 <= fd
   /\ control__set_delay ioctl_delay ms dev
      = (match ioctl_delay fd ms with IoctlOk => 0 | IoctlErr errno => - Z.pos errno end,
         [(fd, ms)]))
  /\ (powered = false -> fd < 0 /\ control__set_delay ioctl_delay ms dev = (0, [])).
Proof.
  intros Hrun powered fd.
  destruct (activate_each_invariant calls control_init dev coherent_init eq_refl) as [Hc Hag];
    [|done|].
  { split; intros H; vm_compute in H; [exfalso; by apply H | discriminate]. }
  assert (Hbit : Z.testbit (active_drivers dev) ID_A = powered).
  { destruct Hc as [-> _]. rewrite new_enabled_bits by (unfold ID_A; lia).
    by rewrite Z.eqb_refl. }
  unfold accelerometer_handle_agrees in Hag. rewrite Hbit in Hag. fold fd in Hag.
  unfold control__set_delay. cbn zeta. fold fd. split; intros Hp.
  - assert (Hopen : 0 <= fd) by (by apply Hag).
    split; [done|]. destruct (Z.leb_spec 0 fd); [|lia].
    by destruct (ioctl_delay fd ms).
  - assert (Hclosed : fd < 0).
    { destruct (Z.lt_ge_cases fd 0) as [|Hge]; [done|]. apply Hag in Hge. congruence. }
    split; [done|]. by destruct (Z.leb_spec 0 fd); [lia|].
Qed.

Lemma set_delay_follows_power_witness :
  let dev := (control__activate env_ok ID_O 1 control_init).1.2 in
  control__set_delay (fun _ _ => IoctlOk) 20 dev = (0, [(3, 20)])
  /\ control__set_delay (fun _ _ => IoctlOk) 20 control_init = (0, []).
Proof.
  cbn zeta. split.
  - destruct (set_delay_follows_power [(env_ok, ID_O, 1)]
                (control__activate env_ok ID_O 1 control_init).1.2
                (fun _ _ => IoctlOk) 20 eq_refl) as [Hon _].
    destruct (Hon eq_refl) as [_ Hrun]. exact Hrun.
  - destruct (set_delay_follows_power [] control_init (fun _ _ => IoctlOk) 20 eq_refl)
      as [_ Hoff].
    destruct (Hoff eq_refl) as [_ Hrun]. exact Hrun.
Defined.

(** The driver bits that a call changes when its sensor is neither
    Acceleration nor Orientation: the bit of the handle, if it is toggled. *)
Lemma changed_single_bit handle enabled dev :
  coherent dev -> valid_handle handle -> handle <> ID_O -> handle <> ID_A ->
  changed_of dev handle enabled
  = if xorb (Z.testbit (active_sensors dev) handle) (negb (enabled =? 0))
    then Z.shiftl 1 handle else 0.
Proof.
  intros [Hd Hs] Hh Hno Hna.
  assert (H0 : 0 <= handle) by (unfold valid_handle, SENSORS_HANDLE_BASE in Hh; lia).
  apply Z.bits_inj'. intros n Hn. unfold changed_of.
  rewrite Z.lxor_spec, Hd, !new_enabled_bits by done.
  rewrite !new_active_bits_coherent by (done || (unfold ID_O; lia)).
  destruct (Z.eqb_spec ID_O handle) as [|_]; [congruence|].
  destruct (Z.eqb_spec n handle) as [->|Hne].
  - destruct (Z.eqb_spec handle ID_A) as [|_]; [done|].
    rewrite !orb_false_r.
    destruct (xorb _ _) eqn:Hx.
    + by rewrite shiftl_1_bits, Z.eqb_refl.
    + by rewrite Z.testbit_0_l.
  - assert (Hz : Z.testbit (if xorb (Z.testbit (active_sensors dev) handle)
                                 (negb (enabled =? 0))
                            then Z.shiftl 1 handle else 0) n = false).
    { destruct (xorb _ _); [|apply Z.testbit_0_l].
      rewrite shiftl_1_bits by done. apply Z.eqb_neq. congruence. }
    rewrite Hz. apply xorb_nilpotent.
Qed.

Lemma activate_sfh_skipped E ch ne err dev :
  Z.land ch SENSORS_PROXIMITY = 0 -> activate_sfh E ch ne err dev = (err, dev, []).
Proof. intros Hch. unfold activate_sfh. by rewrite Hch. Qed.

(** X10. The light sensor has no driver group: enabling or disabling it
    on a coherent device makes no system call, whatever the environment,
    and commits the masks. *)
Theorem light_has_no_driver E enabled dev :
  coherent dev ->
  control__activate E ID_L enabled dev
  = (0, with_active (new_active_of (active_sensors dev) ID_L enabled)
          (new_enabled_of (new_active_of (active_sensors dev) ID_L enabled)) dev, []).
Proof.
  intros Hc.
  assert (Hv : valid_handle ID_L)
    by (unfold valid_handle, ID_L, SENSORS_HANDLE_BASE, MAX_NUM_SENSORS; lia).
  rewrite (activate_anatomy E _ _ _ Hv). cbn zeta.
  rewrite (changed_single_bit ID_L enabled dev Hc Hv) by (vm_compute; congruence).
  destruct (xorb _ _); [|reflexivity].
  change (Z.shiftl 1 ID_L =? 0) with false. cbn iota.
  rewrite activate_lis_skipped by reflexivity. cbn [fst snd].
  rewrite activate_sfh_skipped by reflexivity. cbn [fst snd].
  rewrite activate_akm_skipped by reflexivity. reflexivity.
Qed.

Lemma light_has_no_driver_witness :
  control__activate env_lis_eio_akm_down ID_L 1 control_init
  = (0, with_active SENSORS_LIGHT SENSORS_LIGHT control_init, []).
Proof.
  apply (light_has_no_driver env_lis_eio_akm_down 1 control_init), coherent_init.
Defined.

(** X11. Enabling Proximity opens the node of entry [ID_SFH] of the
    driver table, whose path is empty and whose mask is the one of the
    light sensor: the call opens the empty path, closes the descriptor at
    once unless Light is active, and fails with the result of [open] when
    that is negative, Proximity then staying inactive. *)
Theorem proximity_opens_the_light_entry E enabled dev :
  coherent dev ->
  length (dev_fd dev) = Z.to_nat MAX_NUM_DRIVERS ->
  Z.testbit (active_sensors dev) ID_P = false -> enabled <> 0 ->
  fd_at dev ID_SFH < 0 ->
  let r := control__activate E ID_P enabled dev in
  let fd := sys_open E (loc (driver ID_SFH)) in
  loc (driver ID_SFH) = EmptyString
  /\ r.2 = SysOpen (loc (driver ID_SFH)) fd
           :: (if (0 <=? fd) && negb (Z.testbit (active_sensors dev) ID_L)
               then [SysClose fd] else [])
  /\ r.1.1 = (if 0 <=? fd then 0 else fd)
  /\ (fd < 0 -> Z.testbit (active_sensors r.1.2) ID_P = false).
Proof.
  intros Hc Hlen Hoff Hen Hclosed r fd.
  assert (Hv : valid_handle ID_P)
    by (unfold valid_handle, ID_P, SENSORS_HANDLE_BASE, MAX_NUM_SENSORS; lia).
  pose proof (activate_anatomy E ID_P enabled dev Hv) as Han. cbn zeta in Han.
  fold r in Han.
  rewrite (changed_single_bit ID_P enabled dev Hc Hv) in Han by (vm_compute; congruence).
  rewrite Hoff in Han. destruct (Z.eqb_spec enabled 0) as [|_]; [done|].
  cbn [negb xorb] in Han.
  change (Z.shiftl 1 ID_P =? 0) with false in Han. cbn iota in Han.
  rewrite activate_lis_skipped in Han by reflexivity. cbn [fst snd] in Han.
  rewrite (activate_akm_skipped E (Z.shiftl 1 ID_P)) in Han by reflexivity.
  cbn [fst snd] in Han.
  set (ne := new_enabled_of _) in *.
  assert (Hlight : (Z.land ne (mask (driver ID_SFH)) =? 0)
                   = negb (Z.testbit (active_sensors dev) ID_L)).
  { change (mask (driver ID_SFH)) with (Z.shiftl 1 ID_L).
    rewrite land_bit_eqb by (unfold ID_L; lia). f_equal. unfold ne.
    destruct Hc as [_ Hs].
    rewrite new_enabled_bits by (unfold ID_L; lia).
    rewrite !new_active_bits_coherent by (done || (unfold ID_L, ID_O; lia)).
    change (ID_L =? ID_P) with false. change (ID_L =? ID_A) with false.
    cbn iota. by rewrite orb_false_r. }
  assert (Hrun : activate_sfh E (Z.shiftl 1 ID_P) ne 0 dev
                 = (if 0 <=? fd then 0 else fd,
                    with_dev_fd
                      (if (0 <=? fd) && negb (Z.testbit (active_sensors dev) ID_L)
                       then <[Z.to_nat ID_SFH := -1]> (<[Z.to_nat ID_SFH := fd]> (dev_fd dev))
                       else <[Z.to_nat ID_SFH := fd]> (dev_fd dev)) dev,
                    SysOpen (loc (driver ID_SFH)) fd
                    :: (if (0 <=? fd) && negb (Z.testbit (active_sensors dev) ID_L)
                        then [SysClose fd] else []))).
  { run_calls.
    change (Z.land (Z.shiftl 1 ID_P) SENSORS_PROXIMITY =? 0) with false. cbn [negb].
    destruct (Z.ltb_spec (fd_at dev ID_SFH) 0) as [_|]; [|lia].
    fold fd. cbn [fst snd app].
    destruct (Z.leb_spec 0 fd) as [Hopen|Hfail]; cbn [andb]; [|reflexivity].
    assert (Hat : fd_at (with_dev_fd (<[Z.to_nat ID_SFH := fd]> (dev_fd dev)) dev) ID_SFH
                  = fd).
    { unfold fd_at. cbn [dev_fd with_dev_fd].
      apply list_lookup_total_insert_eq. rewrite Hlen. vm_compute. lia. }
    rewrite Hat, Hlight.
    destruct (Z.leb_spec 0 fd); [|lia]. cbn [andb].
    destruct (Z.testbit (active_sensors dev) ID_L); cbn [negb]; reflexivity. }
  rewrite Hrun in Han. cbn [fst snd] in Han.
  split; [reflexivity|].
  destruct (Z.leb_spec 0 fd) as [Hopen|Hfail].
  - change (0 <? 0) with false in Han. cbn iota in Han. rewrite Han. cbn [fst snd].
    split; [by rewrite app_nil_r|]. split; [done|lia].
  - destruct (Z.ltb_spec fd 0); [|lia]. rewrite Han. cbn [fst snd andb].
    split; [done|]. split; [done|]. done.
Qed.

Lemma proximity_opens_the_light_entry_witness :
  let r := control__activate env_akm_down ID_P 1 control_init in
  r.2 = [SysOpen EmptyString (-1)] /\ r.1.1 = -1.
Proof.
  cbn zeta.
  destruct (proximity_opens_the_light_entry env_akm_down 1 control_init coherent_init
              eq_refl eq_refl ltac:(lia) eq_refl) as (_ & H2 & H3 & _).
  split; [exact H2 | exact H3].
Defined.

(** ** [open_input] and [control__wake] *)
Lemma scan_input_result N dev_name mode entries : forall fd,
  fd < 0 ->
  let r := (scan_input N dev_name mode entries fd).1 in
  match List.find (matches_entry N dev_name mode) entries with
  | Some d => r = node_open N ("/dev/input/" ++ d)%string mode /\ 0 <= r
  | None => r < 0
  end.
Proof.
  induction entries as [|d entries IH]; intros fd Hfd; cbn zeta.
  - done.
  - cbn [scan_input List.find]. unfold matches_entry at 1. cbn zeta.
    destruct (is_dot_entry d); cbn [negb andb]; [by apply IH|].
    destruct (Z.leb_spec 0 (node_open N ("/dev/input/" ++ d)%string mode)) as [Hopen|Hfail];
      cbn [andb].
    + destruct (String.eqb _ dev_name); [done|].
      specialize (IH (-1) ltac:(lia)). cbn zeta in IH.
      by destruct (scan_input N dev_name mode entries (-1)).
    + specialize (IH _ Hfail). cbn zeta in IH.
      by destruct (scan_input N dev_name mode entries _).
Qed.

(** X12. [open_input] answers the descriptor of the first directory
    entry that is not [.] or [..], opens, and reports the name looked for;
    a negative value when there is none, and -1 when the directory cannot
    be read. *)
Theorem open_input_first_match N dev_name mode :
  let r := (open_input N dev_name mode).1 in
  match dir_entries N with
  | None => r = -1
  | Some entries =>
      match List.find (matches_entry N dev_name mode) entries with
      | Some d => r = node_open N ("/dev/input/" ++ d)%string mode /\ 0 <= r
      | None => r < 0
      end
  end.
Proof.
  cbn zeta. unfold open_input. destruct (dir_entries N) as [entries|]; [|done].
  by apply scan_input_result.
Qed.

Lemma scan_input_balanced N dev_name mode entries : forall fd,
  fd < 0 ->
  let r := scan_input N dev_name mode entries fd in
  opened_fds r.2 = closed_fds r.2 ++ (if 0 <=? r.1 then [r.1] else []).
Proof.
  induction entries as [|d entries IH]; intros fd Hfd; cbn zeta.
  - cbn. destruct (Z.leb_spec 0 fd); [lia|done].
  - cbn [scan_input]. destruct (is_dot_entry d); [by apply IH|]. cbn zeta.
    destruct (Z.leb_spec 0 (node_open N ("/dev/input/" ++ d)%string mode)) as [Hopen|Hfail].
    + destruct (String.eqb _ dev_name).
      * cbn [fst snd opened_fds closed_fds omap list_omap].
        destruct (Z.leb_spec 0 (node_open N ("/dev/input/" ++ d)%string mode)); [done|lia].
      * specialize (IH (-1) ltac:(lia)). cbn zeta in IH.
        destruct (scan_input N dev_name mode entries (-1)) as [r tr].
        cbn [fst snd] in *. unfold opened_fds, closed_fds in *.
        cbn [omap list_omap].
        destruct (Z.leb_spec 0 (node_open N ("/dev/input/" ++ d)%string mode)); [|lia].
        cbn [app]. by rewrite IH.
    + specialize (IH _ Hfail). cbn zeta in IH.
      destruct (scan_input N dev_name mode entries _) as [r tr].
      cbn [fst snd] in *. unfold opened_fds, closed_fds in *.
      cbn [omap list_omap].
      destruct (Z.leb_spec 0 (node_open N ("/dev/input/" ++ d)%string mode)); [lia|].
      done.
Qed.

(** X13. [open_input] leaks no descriptor: every node it opened is
    closed again, in the order of the scan, except the one it returns. *)
Theorem open_input_keeps_one_descriptor N dev_name mode :
  let r := open_input N dev_name mode in
  opened_fds r.2 = closed_fds r.2 ++ (if 0 <=? r.1 then [r.1] else []).
Proof.
  cbn zeta. unfold open_input. destruct (dir_entries N) as [entries|]; [|done].
  by apply scan_input_balanced.
Qed.

Lemma opened_fds_app t1 t2 : opened_fds (t1 ++ t2) = opened_fds t1 ++ opened_fds t2.
Proof. unfold opened_fds. apply omap_app. Qed.

Lemma closed_fds_app t1 t2 : closed_fds (t1 ++ t2) = closed_fds t1 ++ closed_fds t2.
Proof. unfold closed_fds. apply omap_app. Qed.

Lemma written_events_app t1 t2 :
  written_events (t1 ++ t2) = written_events t1 ++ written_events t2.
Proof. unfold written_events. apply omap_app. Qed.

Lemma scan_input_writes_nothing N dev_name mode entries : forall fd,
  written_events (scan_input N dev_name mode entries fd).2 = [].
Proof.
  induction entries as [|d entries IH]; intros fd; [done|].
  cbn [scan_input]. destruct (is_dot_entry d); [apply IH|]. cbn zeta.
  destruct (0 <=? _).
  - destruct (String.eqb _ dev_name); [done|].
    specialize (IH (-1)). destruct (scan_input N dev_name mode entries (-1)). apply IH.
  - specialize (IH (node_open N ("/dev/input/" ++ d)%string mode)).
    destruct (scan_input N dev_name mode entries _). apply IH.
Qed.

Lemma open_input_writes_nothing N dev_name mode :
  written_events (open_input N dev_name mode).2 = [].
Proof.
  unfold open_input. destruct (dir_entries N); [|done]. apply scan_input_writes_nothing.
Qed.

(** X14. [control__wake] closes every descriptor it opened. When the
    node of the first driver is found it writes the wake event once, to
    that node, and returns what [write] answered; when it is not found it
    writes nothing and returns 0. *)
Theorem wake_writes_once_and_closes N node_write :
  let r := control__wake N node_write in
  let fd := (open_input N (name (driver 0)) O_WRONLY).1 in
  opened_fds r.2 = closed_fds r.2
  /\ (0 <= fd ->
      written_events r.2 = [(fd, wake_event)] /\ r.1 = node_write fd wake_event)
  /\ (fd < 0 -> written_events r.2 = [] /\ r.1 = 0).
Proof.
  cbn zeta. unfold control__wake. cbn zeta.
  assert (Hbal : let r := open_input N (name (driver 0)) O_WRONLY in
                 opened_fds r.2 = closed_fds r.2 ++ (if 0 <=? r.1 then [r.1] else [])).
  { cbn zeta. unfold open_input. destruct (dir_entries N); [|done].
    by apply scan_input_balanced. }
  pose proof (open_input_writes_nothing N (name (driver 0)) O_WRONLY) as Hw.
  cbn zeta in Hbal.
  destruct (open_input N (name (driver 0)) O_WRONLY) as [fd tr]. cbn [fst snd] in *.
  destruct (Z.leb_spec 0 fd) as [Hfound|Hnone]; cbn [fst snd].
  - rewrite opened_fds_app, closed_fds_app, written_events_app, Hbal, Hw.
    split; [by rewrite app_nil_r|]. split; [done|lia].
  - rewrite app_nil_r in Hbal. split; [done|]. split; [lia|done].
Qed.

(** ** The data device at its edges *)

(** X16. After [data__data_close] every [data__poll] returns -1 without
    reading an event and without touching the buffer, even when samples
    are pending; the samples and the pending mask are kept, and closing
    again changes nothing. *)
Theorem poll_after_close dev values input :
  let dev' := data__data_close dev in
  data__poll dev' values input
  = Some {| ret := -1; ctx := dev'; out := values; unread := input |}
  /\ pendingSensors dev' = pendingSensors dev
  /\ sensors dev' = sensors dev
  /\ data__data_close dev' = dev'.
Proof.
  cbn zeta. unfold data__data_close, data__poll. cbn zeta.
  destruct (Z.leb_spec 0 (events_fd dev)) as [Hopen|Hclosed].
  - cbn [events_fd with_events_fd pendingSensors sensors].
    change (-1 <? 0) with true. change (0 <=? -1) with false. done.
  - destruct (Z.ltb_spec (events_fd dev) 0); [|lia].
    destruct (Z.leb_spec 0 (events_fd dev)); [lia|done].
Qed.

Lemma passed_over_event a ns e : passed_over e -> poll_event a ns e = (a, ns).
Proof.
  intros (Hty & Hw & Hst). unfold is_orient_status in Hst.
  assert (Hf : forall f, ev_type e = field_type f -> ev_code e <> field_code f).
  { intros f Ht Hc. specialize (Hw f). unfold writes in Hw.
    rewrite Ht, Hc, !Z.eqb_refl in Hw. done. }
  pose proof (Hf AccelX); pose proof (Hf AccelY); pose proof (Hf AccelZ).
  pose proof (Hf MagX); pose proof (Hf MagY); pose proof (Hf MagZ).
  pose proof (Hf Yaw); pose proof (Hf Pitch); pose proof (Hf Roll).
  pose proof (Hf Temperature); pose proof (Hf Proximity); pose proof (Hf Light).
  clear Hf Hw.
  destruct e as [sec usec ty code val]. cbn [ev_type ev_code ev_value] in *.
  unfold poll_event, poll_abs. cbn [ev_type ev_code ev_value]. cbn zeta.
  cbn [field_type field_code] in *.
  repeat match goal with
    | |- context [if ?x =? ?c then _ else _] =>
        destruct (Z.eqb_spec x c); [subst; try tauto|]
    end; try done.
Qed.

Lemma passed_over_run evs : forall a ns,
  Forall passed_over evs -> run_events a ns evs = (a, ns).
Proof.
  induction evs as [|e evs IH]; intros a ns Hall; [done|].
  inversion Hall as [|? ? He Hall']; subst.
  rewrite run_events_cons, passed_over_event by done. by apply IH.
Qed.

(** X17. Events that are no synchronization marker, carry no value of a
    sensor and no orientation status (key events, the accelerometer
    status, unknown codes) are read and dropped: the call behaves as if
    they were not there. *)
Theorem poll_passes_over_foreign_events dev values evs input :
  0 <= events_fd dev -> pendingSensors dev = 0 ->
  Forall passed_over evs ->
  data__poll dev values (evs ++ input) = data__poll dev values input.
Proof.
  intros Hfd Hp Hall. unfold data__poll. cbn zeta.
  destruct (Z.ltb_spec (events_fd dev) 0); [lia|].
  rewrite Hp. cbn [negb Z.eqb].
  rewrite poll_loop_events.
  - rewrite passed_over_run by done. cbn [fst snd]. by rewrite with_sensors_same.
  - eapply Forall_impl; [exact Hall|]. by intros e (Hty & _).
Qed.

Lemma poll_passes_over_foreign_events_witness :
  data__poll data_opened zeroed
    ([raw 1 30 1; raw EV_ABS EVENT_TYPE_ACCEL_STATUS 3] ++ [raw EV_SYN SYN_REPORT 0])
  = data__poll data_opened zeroed [raw EV_SYN SYN_REPORT 0].
Proof.
  apply (poll_passes_over_foreign_events data_opened zeroed); [vm_compute; congruence | reflexivity |].
  repeat constructor; try (vm_compute; congruence);
    try (intros f; destruct f; reflexivity);
    try (intros [_ H]; vm_compute in H; congruence).
Defined.



Lemma picked_delivered dev values :
  0 < pendingSensors dev <= SUPPORTED_SENSORS ->
  length (sensors dev) = Z.to_nat MAX_NUM_SENSORS ->
  let r := picked dev values SUPPORTED_SENSORS in
  well_delivered values {| ret := r.1.1; ctx := r.1.2; out := r.2; unread := [] |}
  /\ data_ready r.1.2.
Proof.
  intros Hp Hlen. cbn zeta. unfold picked. cbn zeta.
  rewrite land_supported by lia.
  destruct (Z.eqb_spec (pendingSensors dev) 0) as [Hz|_]; [lia|].
  cbn [fst snd]. set (p := pendingSensors dev) in *.
  assert (Hpos : 0 < p) by lia.
  assert (Hlog : 0 <= Z.log2 p < MAX_NUM_SENSORS).
  { split; [apply Z.log2_nonneg|]. apply Z.log2_lt_pow2; [done|].
    change SUPPORTED_SENSORS with 63 in Hp. unfold MAX_NUM_SENSORS.
    change (2 ^ 6) with 64. lia. }
  split.
  - right. right. cbn [ret ctx out sensors with_pending pendingSensors sensor set_sensor].
    split; [done|]. split; [done|]. split; [done|].
    rewrite clear_top_bits by (done || lia). rewrite Z.eqb_refl. apply andb_false_r.
  - split; [done|]. cbn [pendingSensors with_pending].
    pose proof (clear_top_range p Hpos) as Hr.
    pose proof (Z.log2_spec p Hpos) as Hs. lia.
Qed.

Lemma poll_loop_delivers values input : forall dev ns,
  0 <= ns <= SUPPORTED_SENSORS -> data_ready dev ->
  exists r, poll_loop dev values ns input = Some r
            /\ well_delivered values r /\ data_ready (ctx r).
Proof.
  induction input as [|e input IH]; intros dev ns Hns Hready.
  - eexists. split; [reflexivity|]. split; [by left | done].
  - destruct (Z.eq_dec (ev_type e) EV_SYN) as [Hty|Hty].
    + destruct (Z.eq_dec (ev_code e) SYN_CONFIG) as [Hc|Hc].
      { rewrite poll_loop_config by done. eexists. split; [reflexivity|].
        split; [right; by left | done]. }
      destruct (Z.eq_dec ns 0) as [Hz|Hne].
      { rewrite poll_loop_skips_boundary by done. by apply IH. }
      change SUPPORTED_SENSORS with 63 in Hns.
      rewrite poll_loop_boundary by (done || lia).
      eexists. split; [reflexivity|].
      destruct Hready as [Hlen Hp].
      set (dev1 := with_sensors _ (with_pending ns dev)).
      destruct (picked_delivered dev1 values) as [Hd Hr].
      { cbn [pendingSensors dev1 with_sensors with_pending].
        change SUPPORTED_SENSORS with 63. lia. }
      { cbn [sensors dev1 with_sensors]. by rewrite length_stamped. }
      split; [|exact Hr].
      destruct Hd as [Hd|[Hd|Hd]]; [by left | right; by left | right; by right].
    + rewrite poll_loop_event by done. destruct Hready as [Hlen Hp]. apply IH.
      * change SUPPORTED_SENSORS with 63 in *.
        pose proof (poll_event_range (sensors dev) ns e ltac:(lia)). lia.
      * split; [|done]. cbn [sensors with_sensors]. by rewrite poll_event_length.
Qed.

Lemma data__poll_delivers dev values input :
  data_ready dev ->
  exists r, data__poll dev values input = Some r
            /\ well_delivered values r /\ data_ready (ctx r).
Proof.
  intros Hready. unfold data__poll. cbn zeta.
  destruct (events_fd dev <? 0).
  { eexists. split; [reflexivity|]. split; [by left | done]. }
  destruct (Z.eqb_spec (pendingSensors dev) 0) as [Hz|Hne]; cbn [negb].
  - apply poll_loop_delivers; [|done]. change SUPPORTED_SENSORS with 63. lia.
  - rewrite pick_sensor_spec. destruct Hready as [Hlen Hp].
    destruct (picked_delivered dev values ltac:(lia) Hlen) as [Hd Hr].
    destruct (picked dev values SUPPORTED_SENSORS) as [[i d] v].
    eexists. split; [reflexivity|]. split; [|exact Hr].
    destruct Hd as [Hd|[Hd|Hd]]; [by left | right; by left | right; by right].
Qed.

Lemma poll_all_delivers calls : forall dev values input,
  data_ready dev ->
  exists rs, poll_all calls dev values input = Some rs
             /\ length rs = calls /\ all_delivered values rs.
Proof.
  induction calls as [|calls IH]; intros dev values input Hready.
  - by exists [].
  - cbn [poll_all].
    destruct (data__poll_delivers dev values input Hready) as (r & -> & Hd & Hr).
    destruct (IH (ctx r) (out r) (unread r) Hr) as (rs & -> & Hlen & Hall).
    exists (r :: rs). split; [done|]. split; [by rewrite length_cons, Hlen|].
    done.
Qed.

Lemma data_open_ready dev dupfd : data_ready (data__data_open dev dupfd).
Proof.
  split.
  - rewrite data_open_samples. by rewrite length_replicate.
  - cbn [pendingSensors data__data_open]. change SUPPORTED_SENSORS with 63. lia.
Qed.

(** X19. Any number of calls of [data__poll] after [data__data_open],
    on any input, all return: each with -1 or 0x7FFFFFFF and the buffer
    it received, or with the identity of a sensor, the buffer holding the
    stored sample tagged with the mask of that sensor, which is no longer
    pending; the device keeps six samples and a pending mask of supported
    sensors. *)
Theorem polls_after_open_are_well_delivered calls dev dupfd values input :
  exists rs,
    poll_all calls (data__data_open dev dupfd) values input = Some rs
    /\ length rs = calls
    /\ all_delivered values rs.
Proof. apply poll_all_delivers, data_open_ready. Qed.

Lemma bits_desc_top k : forall p,
  0 < p < 2 ^ Z.of_nat k ->
  bits_desc k p
  = Z.log2 p :: bits_desc k (Z.land p (Z.lnot (Z.shiftl 1 (Z.log2 p)))).
Proof.
  induction k as [|k IH]; intros p Hp.
  - change (2 ^ Z.of_nat 0) with 1 in Hp. lia.
  - assert (Hpos : 0 < p) by lia.
    cbn [bits_desc].
    rewrite (clear_top_bits p (Z.of_nat k)) by lia.
    destruct (Z.testbit p (Z.of_nat k)) eqn:Hk.
    + rewrite (log2_with_top p k) by (done || lia).
      rewrite Z.eqb_refl. cbn [negb andb]. f_equal.
      apply bits_desc_ext. intros j Hj.
      rewrite <- (log2_with_top p k) at 1 by (done || lia).
      rewrite (clear_top_bits p j) by lia.
      rewrite (log2_with_top p k) by (done || lia).
      destruct (Z.eqb_spec j (Z.of_nat k)); [lia|]. by rewrite andb_true_r.
    + cbn [andb]. apply IH. split; [done|].
      apply below_pow2_without_top; [lia | done].
Qed.

Lemma touched_desc_bits m evs :
  (forall j, 0 <= j -> Z.testbit m j = touched j evs) ->
  bits_desc 6 m = touched_desc evs.
Proof.
  intros Ht. rewrite <- identities_desc_bits. unfold identities_desc, touched_desc.
  rewrite !filter_testbit_cons.
  rewrite !Ht by (unfold ID_L, ID_P, ID_T, ID_O, ID_M, ID_A; lia).
  cbn [List.filter].
  repeat match goal with |- context [touched ?i evs] => destruct (touched i evs) end;
    reflexivity.
Qed.

(** X20. One epoch is delivered as the sensors it touched, each once,
    highest identity first: the call that reads the boundary returns the
    highest, and the calls repeated while a sample is pending return the
    others in descending order, whatever input follows, and leave nothing
    pending. *)
Theorem epoch_is_delivered_highest_first dev values evs b input i0 :
  0 <= events_fd dev -> pendingSensors dev = 0 ->
  Forall (fun e => ev_type e <> EV_SYN) evs ->
  is_boundary b ->
  touched i0 evs = true ->
  exists r l dev',
    data__poll dev values (evs ++ b :: input) = Some r
    /\ unread r = input
    /\ (forall later, drain 6 (ctx r) (out r) later = Some (l, dev'))
    /\ ret r :: l = touched_desc evs
    /\ StronglySorted Z.gt (ret r :: l)
    /\ pendingSensors dev' = 0.
Proof.
  intros Hfd Hp Hevs Hb Ht.
  destruct (poll_epoch_result dev values evs b input i0 Hfd Hp Hevs Hb Ht)
    as (Hrun & Hrange & Hbits).
  cbn zeta in Hrun.
  set (st := run_events (sensors dev) 0 evs) in *.
  set (i := Z.log2 st.2) in *.
  set (rest := Z.land st.2 (Z.lnot (Z.shiftl 1 i))) in *.
  set (d1 := {| events_fd := events_fd dev;
                sensors := stamped st.2 (timestamp b) st.1;
                pendingSensors := rest |}) in *.
  assert (Hpos : 0 < st.2) by lia.
  assert (Hrest : 0 <= rest < 2 ^ Z.of_nat 6).
  { pose proof (clear_top_range st.2 Hpos) as Hr. fold i rest in Hr.
    pose proof (Z.log2_spec st.2 Hpos) as Hs. fold i in Hs.
    change (2 ^ Z.of_nat 6) with 64. lia. }
  assert (Hall : bits_desc 6 st.2 = i :: bits_desc 6 rest).
  { apply bits_desc_top. change (2 ^ Z.of_nat 6) with 64. lia. }
  eexists _, (bits_desc 6 rest), (with_pending 0 d1).
  split; [exact Hrun|]. cbn [ret ctx out unread].
  split; [done|]. split; [|split; [|split]].
  - intros later. apply drain_bits; cbn [events_fd pendingSensors d1]; try done.
    change SUPPORTED_SENSORS with 63. change (2 ^ Z.of_nat 6) with 64 in Hrest. lia.
  - rewrite <- Hall. by apply touched_desc_bits.
  - rewrite <- Hall. apply bits_desc_sorted.
  - done.
Qed.

Lemma epoch_is_delivered_highest_first_witness :
  exists r l dev',
    data__poll data_opened zeroed
      ([raw EV_ABS ABS_X 1000; raw EV_LED LED_MISC 40] ++ raw EV_SYN SYN_REPORT 0 :: [])
    = Some r
    /\ ret r :: l = [ID_L; ID_A]
    /\ drain 6 (ctx r) (out r) [] = Some (l, dev').
Proof.
  destruct (epoch_is_delivered_highest_first data_opened zeroed
              [raw EV_ABS ABS_X 1000; raw EV_LED LED_MISC 40]
              (raw EV_SYN SYN_REPORT 0) [] ID_A)
    as (r & l & dev' & Hrun & _ & Hdrain & Hids & _).
  - vm_compute. congruence.
  - reflexivity.
  - repeat constructor; vm_compute; congruence.
  - split; [reflexivity | vm_compute; congruence].
  - reflexivity.
  - exists r, l, dev'. split; [exact Hrun|]. split; [exact Hids | apply Hdrain].
Defined.

(** ** The replication thread, on any input *)
Lemma lor_supported ns c :
  0 <= ns <= SUPPORTED_SENSORS -> 0 <= c <= SUPPORTED_SENSORS ->
  0 <= Z.lor ns c <= SUPPORTED_SENSORS.
Proof.
  intros Hns Hc. split; [apply Z.lor_nonneg; lia|].
  apply below_64_of_bits; [apply Z.lor_nonneg; lia|].
  intros n Hn. by rewrite Z.lor_spec, !bits_of_below_64.
Qed.

Lemma thread_abs_spec a ns e :
  0 <= ns <= SUPPORTED_SENSORS ->
  0 <= (thread_abs a ns e).2 <= SUPPORTED_SENSORS
  /\ length (thread_abs a ns e).1 = length a.
Proof.
  intros Hns. unfold thread_abs. cbn zeta.
  repeat match goal with
    | |- context [if ?x =? ?c then _ else _] => destruct (x =? c)
    end;
    cbn [fst snd]; rewrite ?length_store; (split; [|done]); try done;
    apply lor_supported; try done; vm_compute; split; congruence.
Qed.

Lemma thread_event_spec dev ns e :
  0 <= ns <= SUPPORTED_SENSORS ->
  exists dev' ns' w,
    thread_event dev ns e = Some (dev', ns', w)
    /\ 0 <= ns' <= SUPPORTED_SENSORS
    /\ same_configuration dev dev'.
Proof.
  intros Hns. unfold thread_event. cbn zeta.
  destruct (0 <=? uinput dev); [|by eexists _, _, _].
  destruct (ev_type e =? EV_ABS).
  { destruct (thread_abs_spec (filter_sensors dev) ns e Hns) as [Hr Hl].
    destruct (thread_abs (filter_sensors dev) ns e) as [a ns'].
    by eexists _, _, _. }
  destruct (ev_type e =? EV_LED).
  { destruct (ev_code e =? LED_MISC); [|by eexists _, _, _].
    eexists _, _, _. split; [reflexivity|]. split.
    - apply lor_supported; [done|]. vm_compute. split; congruence.
    - repeat split. cbn [filter_sensors with_filter_sensors]. apply length_store. }
  destruct (ev_type e =? EV_SYN); [|by eexists _, _, _].
  destruct (flush_loop_total (active_sensors dev) (filter_sensors dev) Int.WIDTH ns)
    as [w ->].
  { change SUPPORTED_SENSORS with 63 in Hns. change (2 ^ Z.of_nat Int.WIDTH) with 4294967296.
    lia. }
  eexists _, _, _. split; [reflexivity|]. split; [|done].
  change SUPPORTED_SENSORS with 63. lia.
Qed.

Lemma same_configuration_trans d1 d2 d3 :
  same_configuration d1 d2 -> same_configuration d2 d3 -> same_configuration d1 d3.
Proof.
  intros (H1 & H2 & H3 & H4 & H5) (K1 & K2 & K3 & K4 & K5).
  repeat split; congruence.
Qed.

Lemma thread_run_spec input : forall dev ns,
  0 <= ns <= SUPPORTED_SENSORS ->
  exists dev' ns' w,
    thread_run dev ns input = Some (dev', ns', w)
    /\ 0 <= ns' <= SUPPORTED_SENSORS
    /\ same_configuration dev dev'.
Proof.
  induction input as [|e input IH]; intros dev ns Hns.
  - by eexists _, _, _.
  - cbn [thread_run].
    destruct (thread_event_spec dev ns e Hns) as (d1 & n1 & w1 & -> & Hn1 & Hc1).
    destruct (IH d1 n1 Hn1) as (d2 & n2 & w2 & -> & Hn2 & Hc2).
    eexists _, _, _. split; [reflexivity|]. split; [done|].
    by apply (same_configuration_trans dev d1 d2).
Qed.

(** X21. The replication thread gets through every finite input: it only
    stores values in [filter_sensors], and leaves the masks, the driver
    handles, the uinput descriptor and the number of samples as they
    were; its set of touched sensors stays within the supported ones. *)
Theorem thread_keeps_configuration dev input :
  exists dev' ns' w,
    thread_run dev 0 input = Some (dev', ns', w)
    /\ 0 <= ns' <= SUPPORTED_SENSORS
    /\ same_configuration dev dev'.
Proof. apply thread_run_spec. change SUPPORTED_SENSORS with 63. lia. Qed.

Lemma flush_loop_written (P : list input_event -> Prop) active a :
  P [] ->
  (forall i, P (flush_group active a i)) ->
  (forall x y, P x -> P y -> P (x ++ y)) ->
  forall fuel ns w, flush_loop fuel ns active a = Some w -> P w.
Proof.
  intros Hnil Hgroup Happ. induction fuel as [|fuel IH]; intros ns w Hrun.
  - cbn [flush_loop] in Hrun. destruct (ns =? 0); [|done]. by injection Hrun as <-.
  - cbn [flush_loop] in Hrun. destruct (ns =? 0); [by injection Hrun as <-|].
    cbn zeta in Hrun.
    destruct (flush_loop fuel _ active a) as [w'|] eqn:Hw; [|done].
    injection Hrun as <-. apply Happ; [apply Hgroup | by apply (IH _ _ Hw)].
Qed.

Lemma thread_event_written (P : list input_event -> Prop) dev ns e dev' ns' w :
  P [] ->
  (forall a i, P (flush_group (active_sensors dev) a i)) ->
  (forall x y, P x -> P y -> P (x ++ y)) ->
  (ev_type e = EV_SYN -> ev_code e = SYN_CONFIG -> ev_value e = 0 -> P [e]) ->
  thread_event dev ns e = Some (dev', ns', w) ->
  P w.
Proof.
  intros Hnil Hgroup Happ Hecho. unfold thread_event. cbn zeta.
  destruct (0 <=? uinput dev); [|intros [= <- <- <-]; done].
  destruct (ev_type e =? EV_ABS).
  { destruct (thread_abs _ _ _). by intros [= <- <- <-]. }
  destruct (ev_type e =? EV_LED).
  { destruct (ev_code e =? LED_MISC); by intros [= <- <- <-]. }
  destruct (Z.eqb_spec (ev_type e) EV_SYN) as [Hty|_]; [|by intros [= <- <- <-]].
  destruct (flush_loop _ _ _ _) as [written|] eqn:Hw; [|done].
  intros [= <- <- <-]. apply Happ.
  - destruct (Z.eqb_spec (ev_code e) SYN_CONFIG) as [Hc|_]; [|done].
    destruct (Z.eqb_spec (ev_value e) 0) as [Hv|_]; [|done]. by apply Hecho.
  - by apply (flush_loop_written P _ _ Hnil (Hgroup _) Happ _ _ _ Hw).
Qed.

Lemma thread_run_written (P : list input_event -> Prop) active input :
  P [] ->
  (forall a i, P (flush_group active a i)) ->
  (forall x y, P x -> P y -> P (x ++ y)) ->
  Forall (fun e => ev_type e = EV_SYN -> ev_code e = SYN_CONFIG -> ev_value e = 0 -> P [e])
    input ->
  forall dev ns dev' ns' w,
    active_sensors dev = active ->
    0 <= ns <= SUPPORTED_SENSORS ->
    thread_run dev ns input = Some (dev', ns', w) ->
    P w.
Proof.
  intros Hnil Hgroup Happ Hecho. induction Hecho as [|e input He Hin IH];
    intros dev ns dev' ns' w Hact Hns Hrun.
  - by injection Hrun as <- <- <-.
  - cbn [thread_run] in Hrun.
    destruct (thread_event_spec dev ns e Hns) as (d1 & n1 & w1 & Hev & Hn1 & Hc1).
    rewrite Hev in Hrun.
    destruct (thread_run d1 n1 input) as [[[d2 n2] w2]|] eqn:Hrest; [|done].
    injection Hrun as <- <- <-. apply Happ.
    + apply (thread_event_written P dev ns e d1 n1 w1); try done.
      intros a i. rewrite Hact. apply Hgroup.
    + apply (IH d1 n1 d2 n2 w2); try done.
      destruct Hc1 as [Hs _]. by rewrite Hs.
Qed.

(** X22. While Acceleration is not active no accelerometer axis is
    written to the uinput node, whatever the drivers report (the
    accelerometer may be powered for Orientation). *)
Theorem silent_acceleration_is_not_replicated dev input :
  Z.testbit (active_sensors dev) ID_A = false ->
  exists dev' ns' w,
    thread_run dev 0 input = Some (dev', ns', w)
    /\ Forall (fun e => is_accel_axis e = false) w.
Proof.
  intros Hoff.
  destruct (thread_run_spec input dev 0) as (dev' & ns' & w & Hrun & _ & _).
  { change SUPPORTED_SENSORS with 63. lia. }
  exists dev', ns', w. split; [done|].
  refine (thread_run_written (Forall (fun e => is_accel_axis e = false))
            (active_sensors dev) input _ _ _ _ dev 0 dev' ns' w eq_refl _ Hrun).
  - constructor.
  - intros a i. unfold flush_group. cbn zeta.
    assert (Hgate : (Z.land (active_sensors dev) SENSORS_ACCELERATION =? 0) = true).
    { rewrite (land_bit_eqb _ ID_A) by (unfold ID_A; lia). by rewrite Hoff. }
    rewrite Hgate. cbn [negb].
    repeat match goal with
      | |- context [if ?x =? ?c then _ else _] => destruct (x =? c)
      end; repeat constructor.
  - intros x y Hx Hy. by apply Forall_app.
  - apply Forall_forall. intros e _ Hty _ _. constructor; [|constructor].
    unfold is_accel_axis. by rewrite Hty.
  - change SUPPORTED_SENSORS with 63. lia.
Qed.

Lemma silent_acceleration_is_not_replicated_witness :
  exists dev' ns' w,
    thread_run control_replicating 0
      [raw EV_ABS EVENT_TYPE_ACCEL_X 5; raw EV_SYN SYN_REPORT 0]
    = Some (dev', ns', w)
    /\ Forall (fun e => is_accel_axis e = false) w.
Proof.
  apply (silent_acceleration_is_not_replicated control_replicating). reflexivity.
Defined.

Lemma framed_app x y : framed x -> framed y -> framed (x ++ y).
Proof.
  intros Hx Hy. induction Hx as [|axes w Hne Hax Hw IH]; [done|].
  rewrite <- app_assoc. cbn [app]. by constructor.
Qed.

Lemma flush_group_framed active a i : framed (flush_group active a i).
Proof.
  assert (Habs : EV_ABS <> EV_SYN) by (vm_compute; congruence).
  assert (Hled : EV_LED <> EV_SYN) by (vm_compute; congruence).
  unfold flush_group. cbn zeta.
  repeat match goal with
    | |- context [if ?x =? ?c then _ else _] => destruct (x =? c)
    | |- context [if negb ?b then _ else _] => destruct b; cbn [negb]
    end;
    try apply framed_nil;
    try (refine (framed_group [_] _ _ _ _);
         [done | repeat constructor; done | apply framed_nil]);
    try (refine (framed_group [_; _; _] _ _ _ _);
         [done | repeat constructor; done | try apply framed_nil]).
  refine (framed_group [_; _; _] _ _ _ _);
    [done | repeat constructor; done | apply framed_nil].
Qed.

(** X23. On an input without wake marker the thread writes whole groups
    only: every run of value events is closed by one [EV_SYN] marker. *)
Theorem thread_writes_whole_groups dev input :
  Forall not_wake input ->
  exists dev' ns' w,
    thread_run dev 0 input = Some (dev', ns', w) /\ framed w.
Proof.
  intros Hquiet.
  destruct (thread_run_spec input dev 0) as (dev' & ns' & w & Hrun & _ & _).
  { change SUPPORTED_SENSORS with 63. lia. }
  exists dev', ns', w. split; [done|].
  refine (thread_run_written framed (active_sensors dev) input _ _ _ _
            dev 0 dev' ns' w eq_refl _ Hrun).
  - apply framed_nil.
  - intros a i. apply flush_group_framed.
  - apply framed_app.
  - eapply Forall_impl; [exact Hquiet|]. intros e Hq Hty Hc Hv. by destruct Hq.
  - change SUPPORTED_SENSORS with 63. lia.
Qed.

Lemma thread_writes_whole_groups_witness :
  exists dev' ns' w,
    thread_run control_replicating 0
      [raw EV_ABS EVENT_TYPE_MAGV_X 7; raw EV_SYN SYN_REPORT 0]
    = Some (dev', ns', w)
    /\ framed w.
Proof.
  apply (thread_writes_whole_groups control_replicating).
  repeat constructor; intros (H1 & H2 & H3); vm_compute in H1, H2; congruence.
Defined.

(** ** [poll_thread] from its start *)
Lemma closes_of_held fds :
  opened_fds (map NodeClose fds) = [] /\ closed_fds (map NodeClose fds) = fds
  /\ written_events (map NodeClose fds) = [].
Proof.
  induction fds as [|fd fds (IH1 & IH2 & IH3)]; [done|].
  unfold opened_fds, closed_fds, written_events in *. cbn [map omap list_omap].
  by rewrite IH1, IH2, IH3.
Qed.

Lemma open_input_balance N dev_name mode :
  opened_fds (open_input N dev_name mode).2
  = closed_fds (open_input N dev_name mode).2
    ++ (if 0 <=? (open_input N dev_name mode).1 then [(open_input N dev_name mode).1] else []).
Proof.
  unfold open_input. destruct (dir_entries N); [|done].
  by apply scan_input_balanced.
Qed.

(** What the start-up leaves: it writes nothing, every descriptor it
    opened is closed or held, and it reaches the read loop only when the
    table has an entry for every lookup. *)
Lemma open_sources_spec N count : forall i event_fd,
  0 <= i -> (Z.to_nat i <= length dDriverList)%nat ->
  let r := open_sources N count i event_fd in
  written_events r.2 = []
  /\ match r.1 with
     | Polling fds =>
         (Z.to_nat i + count <= length dDriverList)%nat
         /\ Permutation (opened_fds r.2 ++ event_fd) (closed_fds r.2 ++ fds)
     | Exited => Permutation (opened_fds r.2 ++ event_fd) (closed_fds r.2)
     | OutsideTable j fds =>
         j = Z.of_nat (length dDriverList)
         /\ length fds = (length event_fd + (length dDriverList - Z.to_nat i))%nat
         /\ Permutation (opened_fds r.2 ++ event_fd) (closed_fds r.2 ++ fds)
     end.
Proof.
  induction count as [|count IH]; intros i event_fd Hi Hin; cbn zeta.
  - cbn [open_sources fst snd]. split; [done|]. split; [lia|done].
  - cbn [open_sources].
    destruct (dDriverList !! Z.to_nat i) as [d|] eqn:Hd.
    + apply lookup_lt_Some in Hd.
      pose proof (open_input_balance (N i) (name d) O_RDONLY) as Hbal.
      pose proof (open_input_writes_nothing (N i) (name d) O_RDONLY) as Hw.
      destruct (open_input (N i) (name d) O_RDONLY) as [fd tr]. cbn [fst snd] in *.
      destruct (Z.ltb_spec fd 0) as [Hfail|Hfound].
      * destruct (Z.leb_spec 0 fd); [lia|]. rewrite app_nil_r in Hbal.
        destruct (closes_of_held event_fd) as (H1 & H2 & H3).
        cbn [fst snd]. rewrite written_events_app, opened_fds_app, closed_fds_app.
        rewrite Hw, H1, H2, H3, Hbal. split; [done|]. by rewrite ?app_nil_r.
      * destruct (Z.leb_spec 0 fd); [|lia].
        specialize (IH (i + 1) (event_fd ++ [fd]) ltac:(lia) ltac:(lia)).
        cbn zeta in IH.
        destruct (open_sources N count (i + 1) (event_fd ++ [fd])) as [s tr'].
        cbn [fst snd] in *. destruct IH as [Hw' Hs].
        rewrite written_events_app, opened_fds_app, closed_fds_app, Hw, Hw', Hbal.
        split; [done|].
        assert (Hperm : forall fds,
                  Permutation (opened_fds tr' ++ event_fd ++ [fd]) (closed_fds tr' ++ fds) ->
                  Permutation (((closed_fds tr ++ [fd]) ++ opened_fds tr') ++ event_fd)
                    ((closed_fds tr ++ closed_fds tr') ++ fds)).
        { intros fds Hp. rewrite <- !app_assoc. apply Permutation_app_head.
          rewrite <- Hp. rewrite (Permutation_app_comm [fd]).
          rewrite <- !app_assoc. done. }
        destruct s as [fds| |j fds].
        -- destruct Hs as [Hc Hp]. split; [lia|]. by apply Hperm.
        -- rewrite <- !app_assoc.
           rewrite <- Hs. apply Permutation_app_head.
           rewrite (Permutation_app_comm [fd]). by rewrite <- !app_assoc.
        -- destruct Hs as (Hj & Hl & Hp). split; [done|]. split; [|by apply Hperm].
           rewrite Hl, length_app. cbn [length]. lia.
    + apply lookup_ge_None in Hd. cbn [fst snd]. split; [done|].
      split; [lia|]. split; [lia|done].
Qed.

(** X15. [poll_thread] never reaches its read loop: [dDriverList] has
    three entries and the start-up makes [MAX_NUM_DRIVERS] = 4 lookups.
    Either one of the first three lookups fails and the thread exits,
    every descriptor it opened closed again; or all three succeed and the
    fourth reads the table outside its bounds, the thread holding three
    descriptors. In both cases nothing was written. *)
Theorem poll_thread_stops_at_start N dev input :
  exists tr,
    (poll_thread N dev input = Some (ThreadExited, tr)
     /\ Permutation (opened_fds tr) (closed_fds tr)
     /\ written_events tr = [])
    \/ (exists held,
          poll_thread N dev input = Some (ThreadOutsideTable 3 held, tr)
          /\ length held = 3%nat
          /\ Permutation (opened_fds tr) (closed_fds tr ++ held)
          /\ written_events tr = []).
Proof.
  unfold poll_thread.
  pose proof (open_sources_spec N (Z.to_nat MAX_NUM_DRIVERS) 0 [] ltac:(lia)
                ltac:(cbn; lia)) as Hspec.
  cbn zeta in Hspec.
  destruct (open_sources N (Z.to_nat MAX_NUM_DRIVERS) 0 []) as [s tr].
  cbn [fst snd] in Hspec. destruct Hspec as [Hw Hs]. exists tr.
  rewrite app_nil_r in Hs.
  destruct s as [fds| |j fds].
  - destruct Hs as [Hc _]. vm_compute in Hc. lia.
  - left. done.
  - right. destruct Hs as (-> & Hl & Hp). exists fds. done.
Qed.
